(** * Resumable downloader of [download_medicaid_data.py]

    A shallow embedding of [get_file_size], [download_file] and
    [calculate_sha256] together with the pieces of the Python runtime and of
    the [requests], [tqdm] and [hashlib] libraries they call.

    The script is sequential Python that talks to a web server and to the
    local file system and may raise.  It is embedded in a small monad that
    threads the file system, records every externally visible action as an
    event, and propagates Python exceptions.  Whatever the outside world
    decides (what the server answers, whether [open] or [write] fail) is read
    from an environment record [Env]. *)

From stdpp Require Import gmap strings list sorting.
From Stdlib Require Import ZArith DecimalString DecimalZ Lia.
From Stdlib.Strings Require Import Byte Ascii.

Local Open Scope Z_scope.

(** ** Values of the Python runtime *)

(** A [bytes] object. *)
Abbreviation bytes := (list byte).

(** A [pathlib.Path] is kept as its text. *)
Abbreviation path := string.

(** [len] of a [bytes] object, a Python [int]. *)
Definition len (b : bytes) : Z := Z.of_nat (length b).

(** The exceptions that the modelled calls can raise.  The first four are
    subclasses of [requests.exceptions.RequestException]; [OSError] stands for
    the whole family raised by the file system ([PermissionError],
    [FileNotFoundError], "No space left on device", ...), told apart by
    [errno]; [ValueError] is what [int] raises on text that is no number. *)
Inductive exn : Type :=
  | ConnectionError (msg : string)
  | ReadTimeout (msg : string)
  | HTTPError (status : Z)
  | ChunkedEncodingError (msg : string)
  | OSError (errno : Z)
  | ValueError (msg : string).

(** [isinstance(e, requests.exceptions.RequestException)] *)
Definition isinstance_RequestException (e : exn) : bool :=
  match e with
  | ConnectionError _ | ReadTimeout _ | HTTPError _ | ChunkedEncodingError _ =>
      true
  | OSError _ | ValueError _ => false
  end.

Definition EACCES : Z := 13.
Definition ENOENT : Z := 2.
Definition ENOSPC : Z := 28.

(** The modes [open] is called with. *)
Inductive mode : Type := ab | wb | rb.

(** The lines the script prints; the text around the interpolated values is
    fixed, so a line is kept as its kind and its values. *)
Inductive message : Type :=
  | MsgAlreadyDownloaded (dest_path : path)
      (* "File already fully downloaded: {dest_path}" *)
  | MsgResuming (downloaded_size : Z)
      (* "Resuming download from {downloaded_size / (1024**3):.2f} GB" *)
  | MsgDownloadComplete (dest_path : path)
      (* "Download complete: {dest_path}" *)
  | MsgDownloadError (e : exn).
      (* "Download error: {e}" *)

(** What a run does to the outside world, in order. *)
Inductive event : Type :=
  | EvHead (url : string)
      (* requests.head(url, allow_redirects=True) *)
  | EvGet (url : string) (headers : gmap string string)
      (* requests.get(url, headers=headers, stream=True) *)
  | EvOpen (p : path) (m : mode)
  | EvWrite (p : path) (chunk : bytes)
  | EvClose (p : path)
  | EvPbar (total initial : Z)
      (* tqdm(total=total, initial=initial, ...) *)
  | EvProgress (n total : Z)
      (* the bar's (n, total) after pbar.update *)
  | EvPrint (msg : message).

(** A [requests.Response].  [headers] is a [CaseInsensitiveDict], which keeps
    its entries under the lower-cased header name.  [iter_content chunk_size]
    is the stream of the body: the chunks it yields and, when the connection
    breaks, the exception raised after the last of them. *)
Record Response : Type := {
  status_code : Z;
  headers : gmap string string;
  iter_content : Z → list bytes * option exn
}.

(** ** The outside world *)

Record Env : Type := {
  (** outcome of [requests.head(url, allow_redirects=True)] *)
  http_head : string → exn + Response;
  (** outcome of [requests.get(url, headers=headers, stream=True)] *)
  http_get : string → gmap string string → exn + Response;
  (** [open(p, m)] refused by the operating system *)
  open_error : path → mode → option exn;
  (** [f.write(chunk)] refused, given what the file holds so far *)
  write_error : path → bytes → bytes → option exn
}.

(** ** The monad: file system, events, exceptions *)

Inductive outcome (A : Type) : Type :=
  | Ret (a : A)
  | Exc (e : exn).
Arguments Ret {A} a.
Arguments Exc {A} e.

Record Out (A : Type) : Type := mkOut {
  res : outcome A;
  fs_out : gmap path bytes;
  events : list event
}.
Arguments mkOut {A} res fs_out events.
Arguments res {A} o.
Arguments fs_out {A} o.
Arguments events {A} o.

Definition M (A : Type) : Type := gmap path bytes → Out A.

Definition raise {A} (e : exn) : M A := λ fs, mkOut (Exc e) fs [].

#[global] Instance M_ret : MRet M := λ A a fs, mkOut (Ret a) fs [].

#[global] Instance M_bind : MBind M := λ A B k m fs,
  let o := m fs in
  match res o with
  | Ret a =>
      let o' := k a (fs_out o) in
      mkOut (res o') (fs_out o') (events o ++ events o')
  | Exc e => mkOut (Exc e) (fs_out o) (events o)
  end.

Definition emit (e : event) : M unit := λ fs, mkOut (Ret tt) fs [e].

Definition print (msg : message) : M unit := emit (EvPrint msg).

(** [try: body  except <class> as e: handler e] *)
Definition try_except {A} (body : M A) (caught : exn → bool)
    (handler : exn → M A) : M A := λ fs,
  let o := body fs in
  match res o with
  | Ret _ => o
  | Exc e =>
      if caught e then
        let o' := handler e (fs_out o) in
        mkOut (res o') (fs_out o') (events o ++ events o')
      else o
  end.

(** [try: body  finally: cleanup], the shape of a [with] block's exit. *)
Definition finally {A} (body : M A) (cleanup : M unit) : M A := λ fs,
  let o := body fs in
  let c := cleanup (fs_out o) in
  mkOut (match res c with Ret _ => res o | Exc e => Exc e end)
        (fs_out c) (events o ++ events c).

(** ** Built-ins: [str], [int], truth of a [bytes] object *)

(** A value that is either an [int] or a [str], as
    [headers.get('content-length', 0)] returns. *)
Inductive pyval : Type :=
  | PyInt (z : Z)
  | PyStr (s : string).

(** [str(z)], which is also how an f-string renders [{z}]. *)
Definition py_str (z : Z) : string := NilZero.string_of_int (Z.to_int z).

(** The blanks [int] strips from both ends of a [str] whose characters are
    below 256: tab to carriage return, the space, and the two blanks above
    127 (NEL and the no-break space).  The separators 28 to 31 are blanks
    for [str.isspace] but not for [int], which refuses them. *)
Definition is_space (c : ascii) : bool :=
  let n := nat_of_ascii c in
  ((9 <=? n) && (n <=? 13) || (n =? 32) || (n =? 133) || (n =? 160))%nat.

Fixpoint lstrip (s : list ascii) : list ascii :=
  match s with
  | c :: s' => if is_space c then lstrip s' else s
  | [] => []
  end.

Definition strip (s : list ascii) : list ascii :=
  rev (lstrip (rev (lstrip s))).

Definition digit_of (c : ascii) : option (Decimal.uint → Decimal.uint) :=
  match c with
  | "0"%char => Some Decimal.D0 | "1"%char => Some Decimal.D1
  | "2"%char => Some Decimal.D2 | "3"%char => Some Decimal.D3
  | "4"%char => Some Decimal.D4 | "5"%char => Some Decimal.D5
  | "6"%char => Some Decimal.D6 | "7"%char => Some Decimal.D7
  | "8"%char => Some Decimal.D8 | "9"%char => Some Decimal.D9
  | _ => None
  end.

(** The digits of a base-10 literal: at least one digit, and a single
    underscore only between two digits.  [after_digit] tells whether the
    previous character was a digit. *)
Fixpoint parse_digits (after_digit : bool) (s : list ascii)
    : option Decimal.uint :=
  match s with
  | [] => if after_digit then Some Decimal.Nil else None
  | c :: s' =>
      if Ascii.eqb c "_" then
        if after_digit then parse_digits false s' else None
      else
        match digit_of c with
        | Some d => d <$> parse_digits true s'
        | None => None
        end
  end.

(** [sys.get_int_max_str_digits()], which the script leaves at its
    default. *)
Definition int_max_str_digits : nat := 4300.

(** The digits of a literal as a number.  A literal of more digits than
    [int_max_str_digits] is refused; leading zeros count, underscores do
    not. *)
Definition int_of_digits (ds : list ascii) : option Z :=
  match parse_digits false ds with
  | Some d =>
      if (Decimal.nb_digits d <=? int_max_str_digits)%nat
      then Some (Z.of_uint d)
      else None
  | None => None
  end.

(** [int(s)] for a [str]: blanks around, an optional sign, digits. *)
Definition int_of_str (s : string) : option Z :=
  match strip (String.list_ascii_of_string s) with
  | "-"%char :: ds => Z.opp <$> int_of_digits ds
  | "+"%char :: ds => int_of_digits ds
  | ds => int_of_digits ds
  end.

(** [int(v)] *)
Definition py_int (v : pyval) : M Z :=
  match v with
  | PyInt z => mret z
  | PyStr s =>
      match int_of_str s with
      | Some z => mret z
      | None => raise (ValueError s)
      end
  end.

(** [c.lower()] and [s.lower()] on ASCII letters. *)
Definition ascii_lower (c : ascii) : ascii :=
  let n := nat_of_ascii c in
  if ((65 <=? n) && (n <=? 90))%nat then ascii_of_nat (n + 32) else c.

Fixpoint str_lower (s : string) : string :=
  match s with
  | EmptyString => EmptyString
  | String c s' => String (ascii_lower c) (str_lower s')
  end.

(** [CaseInsensitiveDict.get(key, default)] *)
Definition headers_get (h : gmap string string) (key : string)
    (default : pyval) : pyval :=
  match h !! str_lower key with
  | Some v => PyStr v
  | None => default
  end.

(** ** File system, network and progress bar *)

Section Program.

Context (env : Env).

(** [p.exists()] *)
Definition path_exists (p : path) : M bool := λ fs,
  mkOut (Ret (bool_decide (is_Some (fs !! p)))) fs [].

(** [p.stat().st_size] *)
Definition stat_st_size (p : path) : M Z := λ fs,
  match fs !! p with
  | Some content => mkOut (Ret (len content)) fs []
  | None => mkOut (Exc (OSError ENOENT)) fs []
  end.

(** [open(p, m)]: ['wb'] creates or empties the file, ['ab'] creates it when
    it is missing and keeps it otherwise, ['rb'] needs it to be there. *)
Definition py_open (p : path) (m : mode) : M unit := λ fs,
  match open_error env p m with
  | Some e => mkOut (Exc e) fs []
  | None =>
      match m with
      | wb => mkOut (Ret tt) (<[p := []]> fs) [EvOpen p wb]
      | ab =>
          match fs !! p with
          | Some _ => mkOut (Ret tt) fs [EvOpen p ab]
          | None => mkOut (Ret tt) (<[p := []]> fs) [EvOpen p ab]
          end
      | rb =>
          match fs !! p with
          | Some _ => mkOut (Ret tt) fs [EvOpen p rb]
          | None => mkOut (Exc (OSError ENOENT)) fs []
          end
      end
  end.

(** [f.write(chunk)] on a file opened with ['ab'] or ['wb']: the chunk goes
    to the end of what the file holds.  The file object's buffer is not
    modelled: the file is looked at only once it is closed, and closing
    flushes. *)
Definition f_write (p : path) (chunk : bytes) : M unit := λ fs,
  let content := default [] (fs !! p) in
  match write_error env p content chunk with
  | Some e => mkOut (Exc e) fs []
  | None => mkOut (Ret tt) (<[p := content ++ chunk]> fs) [EvWrite p chunk]
  end.

(** [with open(p, m) as f: body] *)
Definition with_open {A} (p : path) (m : mode) (body : M A) : M A :=
  py_open p m ;; finally body (emit (EvClose p)).

(** [requests.head(url, allow_redirects=True)] *)
Definition requests_head (url : string) : M Response := λ fs,
  match http_head env url with
  | inl e => mkOut (Exc e) fs [EvHead url]
  | inr r => mkOut (Ret r) fs [EvHead url]
  end.

(** [requests.get(url, headers=headers, stream=True)] *)
Definition requests_get (url : string) (hdrs : gmap string string)
    : M Response := λ fs,
  match http_get env url hdrs with
  | inl e => mkOut (Exc e) fs [EvGet url hdrs]
  | inr r => mkOut (Ret r) fs [EvGet url hdrs]
  end.

(** [response.raise_for_status()]: an [HTTPError] for the 4xx and 5xx codes. *)
Definition raise_for_status (r : Response) : M unit :=
  if (400 <=? status_code r) && (status_code r <? 600)
  then raise (HTTPError (status_code r))
  else mret tt.

(** [with tqdm(total=total, initial=initial, ...) as pbar: body]; the unit,
    scaling and caption of the bar only change how it is drawn. *)
Definition with_tqdm {A} (total initial : Z) (body : M A) : M A :=
  emit (EvPbar total initial) ;; body.

(** [pbar.update(k)] on a bar that stands at [n]: the new position. *)
Definition pbar_update (total n k : Z) : M Z :=
  emit (EvProgress (n + k) total) ;; mret (n + k).

(** ** [get_file_size] *)

Definition get_file_size (url : string) : M Z :=
  response ← requests_head url;
  py_int (headers_get (headers response) "content-length" (PyInt 0)).

(** ** [download_file] *)

(** The body of [for chunk in response.iter_content(...)], over the chunks
    the stream yields; [n] is where the progress bar stands. *)
Fixpoint write_chunks (dest_path : path) (total_size : Z)
    (chunks : list bytes) (n : Z) : M Z :=
  match chunks with
  | [] => mret n
  | chunk :: rest =>
      if bool_decide (chunk ≠ []) then
        f_write dest_path chunk ;;
        n' ← pbar_update total_size n (len chunk);
        write_chunks dest_path total_size rest n'
      else write_chunks dest_path total_size rest n
  end.

(** The whole [for] loop: the chunks, then the exception that ends a broken
    stream. *)
Definition for_iter_content (dest_path : path) (total_size : Z)
    (stream : list bytes * option exn) (n : Z) : M unit :=
  write_chunks dest_path total_size stream.1 n ;;
  match stream.2 with
  | Some e => raise e
  | None => mret tt
  end.

(** The default of the [chunk_size] parameter of [download_file] and of
    [calculate_sha256]. *)
Definition default_chunk_size : Z := 8192.

Definition download_file (url : string) (dest_path : path)
    (chunk_size : Z) : M bool :=
  (* Check if partial download exists *)
  there ← path_exists dest_path;
  downloaded_size ← (if there : bool then stat_st_size dest_path else mret 0);
  (* Get total file size *)
  total_size ← get_file_size url;
  if (downloaded_size >=? total_size) && (total_size >? 0) then
    print (MsgAlreadyDownloaded dest_path) ;;
    mret true
  else
    (* Set up headers for resume *)
    let hdrs : gmap string string := ∅ in
    hdrs ← (if downloaded_size >? 0 then
              let hdrs :=
                <["Range" := "bytes=" +:+ py_str downloaded_size +:+ "-"]> hdrs in
              print (MsgResuming downloaded_size) ;;
              mret hdrs
            else mret hdrs);
    (* Start download *)
    let m := if downloaded_size >? 0 then ab else wb in
    try_except
      (response ← requests_get url hdrs;
       raise_for_status response ;;
       (* Handle resume response *)
       let '(remaining_size, downloaded_size, m) :=
         if status_code response =? 206
         then (total_size - downloaded_size, downloaded_size, m)
         else (total_size, 0, wb) in
       with_open dest_path m
         (with_tqdm total_size downloaded_size
            (for_iter_content dest_path total_size
               (iter_content response chunk_size) downloaded_size)) ;;
       print (MsgDownloadComplete dest_path) ;;
       mret true)
      isinstance_RequestException
      (λ e, print (MsgDownloadError e) ;; mret false).

End Program.

(** ** [hashlib.sha256]

    SHA-256 as FIPS 180-4 defines it, on 32-bit words kept as [Z] with the
    wrap-around written out, and the incremental object that
    [hashlib.sha256()] returns: it consumes whole 64-byte blocks as they
    become available and buffers the rest. *)

Module SHA256.

Definition word_mod : Z := 2 ^ 32.

Definition add32 (x y : Z) : Z := (x + y) mod word_mod.

Definition rotr (n x : Z) : Z :=
  Z.lor (Z.shiftr x n) (Z.shiftl x (32 - n) mod word_mod).

Definition not32 (x : Z) : Z := Z.lxor x (word_mod - 1).

Definition Ch (x y z : Z) : Z := Z.lxor (Z.land x y) (Z.land (not32 x) z).

Definition Maj (x y z : Z) : Z :=
  Z.lxor (Z.lxor (Z.land x y) (Z.land x z)) (Z.land y z).

Definition Sigma0 (x : Z) : Z :=
  Z.lxor (Z.lxor (rotr 2 x) (rotr 13 x)) (rotr 22 x).

Definition Sigma1 (x : Z) : Z :=
  Z.lxor (Z.lxor (rotr 6 x) (rotr 11 x)) (rotr 25 x).

Definition sigma0 (x : Z) : Z :=
  Z.lxor (Z.lxor (rotr 7 x) (rotr 18 x)) (Z.shiftr x 3).

Definition sigma1 (x : Z) : Z :=
  Z.lxor (Z.lxor (rotr 17 x) (rotr 19 x)) (Z.shiftr x 10).

(** The first sixty-four primes. *)
Definition primes : list Z :=
  [2; 3; 5; 7; 11; 13; 17; 19; 23; 29; 31; 37; 41; 43; 47; 53;
   59; 61; 67; 71; 73; 79; 83; 89; 97; 101; 103; 107; 109; 113; 127; 131;
   137; 139; 149; 151; 157; 163; 167; 173; 179; 181; 191; 193; 197; 199;
   211; 223; 227; 229; 233; 239; 241; 251; 257; 263; 269; 271; 277; 281;
   283; 293; 307; 311].

(** Integer cube root, one bit at a time from bit [i] down. *)
Fixpoint cbrt_bits (i : nat) (n r : Z) : Z :=
  let r' := if (r + 2 ^ Z.of_nat i) ^ 3 <=? n then r + 2 ^ Z.of_nat i else r in
  match i with
  | O => r'
  | S i' => cbrt_bits i' n r'
  end.

(** The round constants: the first 32 bits of the fractional part of the cube
    root of each prime. *)
Definition K : list Z :=
  Eval vm_compute in
    map (λ p, cbrt_bits 40 (p * 2 ^ 96) 0 mod word_mod) primes.

Abbreviation hash := (Z * Z * Z * Z * Z * Z * Z * Z)%type.

(** The initial hash value: the first 32 bits of the fractional part of the
    square root of each of the first eight primes. *)
Definition H0 : hash :=
  Eval vm_compute in
    let s p := Z.sqrt (p * 2 ^ 64) mod word_mod in
    (s 2, s 3, s 5, s 7, s 11, s 13, s 17, s 19).

Definition Z_of_byte (b : byte) : Z := Z.of_N (Byte.to_N b).

Definition byte_of_Z (z : Z) : byte :=
  byte_of_ascii (ascii_of_N (Z.to_N (z mod 256))).

(** Big-endian 32-bit words of a byte string. *)
Fixpoint words (bs : bytes) : list Z :=
  match bs with
  | b0 :: b1 :: b2 :: b3 :: rest =>
      (Z_of_byte b0 * 2 ^ 24 + Z_of_byte b1 * 2 ^ 16
       + Z_of_byte b2 * 2 ^ 8 + Z_of_byte b3) :: words rest
  | _ => []
  end.

(** The message schedule grown by [n] words; the newest word comes first. *)
Fixpoint schedule (n : nat) (ws : list Z) : list Z :=
  match n with
  | O => ws
  | S n' =>
      schedule n'
        (add32 (add32 (add32 (sigma1 (nth 1 ws 0)) (nth 6 ws 0))
                      (sigma0 (nth 14 ws 0)))
               (nth 15 ws 0) :: ws)
  end.

Definition round (s : hash) (kw : Z * Z) : hash :=
  let '(a, b, c, d, e, f, g, h) := s in
  let t1 := add32 (add32 (add32 (add32 h (Sigma1 e)) (Ch e f g)) kw.1) kw.2 in
  let t2 := add32 (Sigma0 a) (Maj a b c) in
  (add32 t1 t2, a, b, c, add32 d t1, e, f, g).

(** One 64-byte block folded into the hash value. *)
Definition compress (hv : hash) (block : bytes) : hash :=
  let w := rev (schedule 48 (rev (words block))) in
  let '(a, b, c, d, e, f, g, h) := foldl round hv (zip K w) in
  let '(a0, b0, c0, d0, e0, f0, g0, h0) := hv in
  (add32 a0 a, add32 b0 b, add32 c0 c, add32 d0 d,
   add32 e0 e, add32 f0 f, add32 g0 g, add32 h0 h).

(** The first [n] blocks of [data] folded into the hash value. *)
Fixpoint absorb (n : nat) (hv : hash) (data : bytes) : hash :=
  match n with
  | O => hv
  | S n' => absorb n' (compress hv (take 64 data)) (drop 64 data)
  end.

(** Big-endian bytes of the low [8 * n] bits of [z]. *)
Fixpoint be_bytes (n : nat) (z : Z) : bytes :=
  match n with
  | O => []
  | S n' => byte_of_Z (z / 2 ^ (8 * Z.of_nat n')) :: be_bytes n' z
  end.

(** What is appended to a message of [n] bytes: the bit [1], zeros up to 56
    modulo 64, the length in bits on 64 bits. *)
Definition padding (n : Z) : bytes :=
  byte_of_Z 128 :: replicate (Z.to_nat ((55 - n) mod 64)) (byte_of_Z 0)
  ++ be_bytes 8 ((8 * n) mod 2 ^ 64).

Definition bytes_of_hash (hv : hash) : bytes :=
  let '(a, b, c, d, e, f, g, h) := hv in
  be_bytes 4 a ++ be_bytes 4 b ++ be_bytes 4 c ++ be_bytes 4 d
  ++ be_bytes 4 e ++ be_bytes 4 f ++ be_bytes 4 g ++ be_bytes 4 h.

(** SHA-256 of a whole message. *)
Definition sha256 (msg : bytes) : bytes :=
  let padded := msg ++ padding (len msg) in
  bytes_of_hash (absorb (length padded / 64) H0 padded).

Definition hex_digit (n : Z) : ascii :=
  nth (Z.to_nat n) (String.list_ascii_of_string "0123456789abcdef") "0"%char.

(** [b.hex()]: two lower-case digits a byte. *)
Fixpoint hex (bs : bytes) : string :=
  match bs with
  | [] => EmptyString
  | b :: rest =>
      String (hex_digit (Z_of_byte b / 16))
        (String (hex_digit (Z_of_byte b mod 16)) (hex rest))
  end.

(** The object [hashlib.sha256()] returns. *)
Record hasher : Type := {
  h_state : hash;   (* hash value after the blocks consumed so far *)
  h_buf : bytes;    (* bytes fed but not yet consumed, fewer than 64 *)
  h_len : Z         (* bytes fed in all *)
}.

(** [hashlib.sha256()] *)
Definition new : hasher := {| h_state := H0; h_buf := []; h_len := 0 |}.

(** [h.update(data)] *)
Definition update (h : hasher) (data : bytes) : hasher :=
  let buf := h_buf h ++ data in
  let n := (length buf / 64)%nat in
  {| h_state := absorb n (h_state h) buf;
     h_buf := drop (64 * n) buf;
     h_len := h_len h + len data |}.

(** [h.digest()] *)
Definition digest (h : hasher) : bytes :=
  let tail := h_buf h ++ padding (h_len h) in
  bytes_of_hash (absorb (length tail / 64) (h_state h) tail).

(** [h.hexdigest()] *)
Definition hexdigest (h : hasher) : string := hex (digest h).

End SHA256.

(** ** [calculate_sha256] *)

Section Checksum.

Context (env : Env).

(** [f.read(size)] on a file opened with ['rb'] whose unread part is
    [unread]: the bytes read and what stays unread.  The size -1 reads to the
    end, and a size below -1 is refused. *)
Definition f_read (size : Z) (unread : bytes) : exn + bytes * bytes :=
  if size <? -1 then
    inl (ValueError "read length must be non-negative or -1")
  else if size =? -1 then inr (unread, [])
  else inr (take (Z.to_nat size) unread, drop (Z.to_nat size) unread).

(** [with open(p, "rb") as f: body]; the body gets what [f] has to read. *)
Definition with_open_rb {A} (p : path) (body : bytes → M A) : M A :=
  py_open env p rb ;;
  content ← (λ fs, mkOut (Ret (default [] (fs !! p))) fs []);
  finally (body content) (emit (EvClose p)).

(** [for chunk in iter(lambda: f.read(chunk_size), b"")] with its body.
    [fuel] bounds the number of calls of [f.read]; [None] is a loop that has
    not ended within it. *)
Fixpoint hash_chunks (fuel : nat) (chunk_size total : Z) (unread : bytes)
    (sha256_hash : SHA256.hasher) (n : Z) : M (option SHA256.hasher) :=
  match fuel with
  | O => mret None
  | S fuel' =>
      match f_read chunk_size unread with
      | inl e => raise e
      | inr (chunk, unread') =>
          if bool_decide (chunk = []) then mret (Some sha256_hash)
          else
            let sha256_hash' := SHA256.update sha256_hash chunk in
            n' ← pbar_update total n (len chunk);
            hash_chunks fuel' chunk_size total unread' sha256_hash' n'
      end
  end.

Definition calculate_sha256 (fuel : nat) (file_path : path) (chunk_size : Z)
    : M (option string) :=
  let sha256_hash := SHA256.new in
  sha256_hash ← with_open_rb file_path (λ unread,
    size ← stat_st_size file_path;
    with_tqdm size 0
      (hash_chunks fuel chunk_size size unread sha256_hash 0));
  mret (SHA256.hexdigest <$> sha256_hash).

End Checksum.

(** ** The script: [FILES], [list_available_formats] and [main]

    [main] prints lines of its own, creates the output directory and calls
    [download_file] and [calculate_sha256].  It is embedded in a second
    monad of the same shape as [M], whose events are the lines printed by
    the script, the directory it creates and the events of the functions it
    calls.  [sys.exit] is not caught anywhere, so it is a way for [main] to
    end: [main] returns how it ended. *)

Definition BASE_URL : string :=
  "https://stopendataprod.blob.core.windows.net/datasets/medicaid-provider-spending/2026-02-09".

(** The keys of [FILES], which are also the choices of [--format]. *)
Inductive format : Type := Parquet | Zip | Csv.

Definition format_key (fmt : format) : string :=
  match fmt with
  | Parquet => "parquet"
  | Zip => "zip"
  | Csv => "csv"
  end.

Record file_info : Type := {
  fi_filename : string;
  fi_size : string;
  fi_description : string
}.

(** [FILES[fmt]] *)
Definition FILES (fmt : format) : file_info :=
  match fmt with
  | Parquet =>
      {| fi_filename := "medicaid-provider-spending.parquet";
         fi_size := "2.9 GB";
         fi_description := "Columnar format - best for analytics (recommended)" |}
  | Zip =>
      {| fi_filename := "medicaid-provider-spending.csv.zip";
         fi_size := "3.6 GB";
         fi_description :=
           "Compressed CSV - good balance of size and compatibility" |}
  | Csv =>
      {| fi_filename := "medicaid-provider-spending.csv";
         fi_size := "11.1 GB";
         fi_description := "Raw CSV - largest file, universal compatibility" |}
  end.

(** [list(FILES.keys())]: a [dict] keeps the order of insertion. *)
Definition FILES_keys : list format := [Parquet; Zip; Csv].

(** The [Namespace] that [parser.parse_args()] returns. *)
Record Args : Type := {
  args_format : format;   (* --format, default 'parquet' *)
  args_output : path;     (* --output, default Path('.') *)
  args_list : bool;       (* --list *)
  args_verify : bool;     (* --verify *)
  args_all : bool         (* --all *)
}.

(** What [main] needs from the machine it runs on, beside [Env]. *)
Record Host : Type := {
  host_env : Env;
  (** [p.mkdir(parents=True, exist_ok=True)] refused *)
  mkdir_error : path → option exn;
  (** [p / name] *)
  path_join : path → string → path;
  (** [p.absolute()] *)
  path_absolute : path → path
}.

Inductive script_event : Type :=
  | EvStdout (line : string)
      (* print(line) in main or list_available_formats *)
  | EvMkdir (p : path)
      (* p.mkdir(parents=True, exist_ok=True) *)
  | EvCall (ev : event).
      (* an event of download_file or of calculate_sha256 *)

Record SOut (A : Type) : Type := mkSOut {
  sres : outcome A;
  sfs : gmap path bytes;
  sevents : list script_event
}.
Arguments mkSOut {A} sres sfs sevents.
Arguments sres {A} _.
Arguments sfs {A} _.
Arguments sevents {A} _.

Definition Script (A : Type) : Type := gmap path bytes → SOut A.

#[global] Instance Script_ret : MRet Script := λ A a fs, mkSOut (Ret a) fs [].

#[global] Instance Script_bind : MBind Script := λ A B k m fs,
  let o := m fs in
  match sres o with
  | Ret a =>
      let o' := k a (sfs o) in
      mkSOut (sres o') (sfs o') (sevents o ++ sevents o')
  | Exc e => mkSOut (Exc e) (sfs o) (sevents o)
  end.

(** A call of one of the functions above. *)
Definition call {A} (m : M A) : Script A := λ fs,
  let o := m fs in mkSOut (res o) (fs_out o) (EvCall <$> events o).

(** [print(line)] *)
Definition print_line (line : string) : Script unit := λ fs,
  mkSOut (Ret tt) fs [EvStdout line].

(** The newline character, as a string. *)
Definition nl : string := String (ascii_of_nat 10) EmptyString.

(** [s * n] *)
Definition str_mul (s : string) (n : nat) : string :=
  String.concat "" (replicate n s).

(** [f"{s:w}"] and [f"{s:>w}"] for a string [s]. *)
Definition ljust (s : string) (w : nat) : string :=
  s +:+ str_mul " " (w - String.length s).

Definition rjust (s : string) (w : nat) : string :=
  str_mul " " (w - String.length s) +:+ s.

(** How [main] ends when no exception leaves it. *)
Inductive ending : Type :=
  | Returned
  | SysExit (code : Z).

(** [for x in l: body x] *)
Fixpoint for_each {A} (l : list A) (body : A → Script unit) : Script unit :=
  match l with
  | [] => mret tt
  | x :: rest => body x ;; for_each rest body
  end.

Definition list_available_formats : Script unit :=
  print_line (nl +:+ "Available download formats:") ;;
  print_line (str_mul "-" 60) ;;
  for_each FILES_keys (λ fmt,
    let info := FILES fmt in
    print_line ("  " +:+ ljust (format_key fmt) 8 +:+ " | "
                +:+ rjust (fi_size info) 8 +:+ " | " +:+ fi_description info)) ;;
  print_line (str_mul "-" 60).

(** The text printed last by [main]. *)
Definition next_steps : string :=
  String.concat nl
    [""; "Next steps:";
     "  - For Parquet files, use pandas or pyarrow:";
     "      import pandas as pd";
     "      df = pd.read_parquet('medicaid-provider-spending.parquet')";
     "";
     "  - For ZIP files, extract first:";
     "      import zipfile";
     "      with zipfile.ZipFile('medicaid-provider-spending.csv.zip', 'r') as z:";
     "          z.extractall('.')";
     "";
     "  - For CSV files:";
     "      import pandas as pd";
     "      df = pd.read_csv('medicaid-provider-spending.csv')";
     ""].

Section Main.

Context (host : Host).

(** [args.output.mkdir(parents=True, exist_ok=True)]; directories are not
    part of the modelled file system. *)
Definition mkdir (p : path) : Script unit := λ fs,
  match mkdir_error host p with
  | Some e => mkSOut (Exc e) fs []
  | None => mkSOut (Ret tt) fs [EvMkdir p]
  end.

(** [f"{BASE_URL}/{filename}"] *)
Definition url_of (fmt : format) : string :=
  BASE_URL +:+ "/" +:+ fi_filename (FILES fmt).

(** [args.output / filename] *)
Definition dest_of (args : Args) (fmt : format) : path :=
  path_join host (args_output args) (fi_filename (FILES fmt)).

(** The loop [for fmt in formats_to_download] of [main].  [None] is a
    checksum that did not end within [fuel]; [Some Returned] is a loop that
    ran to its end. *)
Fixpoint download_each (fuel : nat) (args : Args) (formats : list format)
    : Script (option ending) :=
  match formats with
  | [] => mret (Some Returned)
  | fmt :: rest =>
      let file_info := FILES fmt in
      let filename := fi_filename file_info in
      let url := url_of fmt in
      let dest_path := dest_of args fmt in
      print_line (nl +:+ str_mul "=" 60) ;;
      print_line ("Downloading: " +:+ filename) ;;
      print_line ("Size: " +:+ fi_size file_info) ;;
      print_line ("URL: " +:+ url) ;;
      print_line (str_mul "=" 60 +:+ nl) ;;
      success ← call (download_file (host_env host) url dest_path
                        default_chunk_size);
      in_time ← (if success && args_verify args then
                   print_line (nl +:+ "Verifying file integrity...") ;;
                   checksum ← call (calculate_sha256 (host_env host) fuel
                                      dest_path default_chunk_size);
                   match checksum with
                   | Some checksum =>
                       print_line ("SHA-256: " +:+ checksum) ;; mret true
                   | None => mret false
                   end
                 else mret true);
      if negb in_time then mret None
      else if negb success then
        print_line ("Failed to download " +:+ filename) ;;
        mret (Some (SysExit 1))
      else download_each fuel args rest
  end.

(** [main], from the parsed arguments on. *)
Definition main (fuel : nat) (args : Args) : Script (option ending) :=
  if args_list args then
    list_available_formats ;;
    mret (Some Returned)
  else
    (* Create output directory *)
    mkdir (args_output args) ;;
    (* Determine which formats to download *)
    let formats_to_download :=
      if args_all args then FILES_keys else [args_format args] in
    print_line (str_mul "=" 60) ;;
    print_line "DOGE Medicaid Provider Spending Data Downloader" ;;
    print_line (str_mul "=" 60) ;;
    print_line (nl +:+ "Data source: https://opendata.hhs.gov/datasets/medicaid-provider-spending/") ;;
    print_line ("Output directory: " +:+ path_absolute host (args_output args)) ;;
    ended ← download_each fuel args formats_to_download;
    match ended with
    | Some Returned =>
        print_line (nl +:+ str_mul "=" 60) ;;
        print_line "Download complete!" ;;
        print_line (str_mul "=" 60) ;;
        (* Print some helpful tips *)
        print_line next_steps ;;
        mret (Some Returned)
    | _ => mret ended
    end.

End Main.

(** * Vocabulary of the statements *)

(** ** Phases of [download_file] *)

(** [dest_path.stat().st_size] when the path exists, else 0: the resume
    offset [download_file] starts from. *)
Definition size_on_disk (fs : gmap path bytes) (dest_path : path) : Z :=
  match fs !! dest_path with
  | Some content => len content
  | None => 0
  end.

(** The header of a request that resumes at offset [k]. *)
Definition range_from (k : Z) : gmap string string :=
  {["Range" := "bytes=" +:+ py_str k +:+ "-"]}.

(** The headers of the GET request for a resume offset [k]. *)
Definition request_headers (k : Z) : gmap string string :=
  if k >? 0 then range_from k else ∅.

(** The mode and the progress baseline the transfer ends up with, for a
    resume offset [k] and the status of the response. *)
Definition transfer_mode (k status : Z) : mode :=
  if status =? 206 then (if k >? 0 then ab else wb) else wb.

Definition transfer_start (k status : Z) : Z :=
  if status =? 206 then k else 0.

(** What the destination holds right after [open(dest_path, m)]. *)
Definition opened (m : mode) (before : option bytes) : bytes :=
  match m with
  | ab => default [] before
  | _ => []
  end.

(** The events of the loop over [chunks] when every write goes through. *)
Fixpoint chunk_events (dest_path : path) (total_size : Z)
    (chunks : list bytes) (n : Z) : list event :=
  match chunks with
  | [] => []
  | chunk :: rest =>
      if bool_decide (chunk ≠ []) then
        EvWrite dest_path chunk :: EvProgress (n + len chunk) total_size
        :: chunk_events dest_path total_size rest (n + len chunk)
      else chunk_events dest_path total_size rest n
  end.

Section Phases.

Context (env : Env) (url : string) (dest_path : path) (chunk_size : Z).

(** The block under [try:]. *)
Definition try_block (total_size k : Z) : M bool :=
  response ← requests_get env url (request_headers k);
  raise_for_status response ;;
  with_open env dest_path (transfer_mode k (status_code response))
    (with_tqdm total_size (transfer_start k (status_code response))
       (for_iter_content env dest_path total_size
          (iter_content response chunk_size)
          (transfer_start k (status_code response)))) ;;
  print (MsgDownloadComplete dest_path) ;;
  mret true.

(** The [except] clause. *)
Definition except_block (e : exn) : M bool :=
  print (MsgDownloadError e) ;; mret false.

End Phases.

(** ** Reading the events of a run *)

(** The files a run opened, with the mode of each. *)
Definition opened_with (evs : list event) : list (path * mode) :=
  omap (λ ev, match ev with EvOpen p m => Some (p, m) | _ => None end) evs.

(** The [(n, total)] pairs a run reports, in order. *)
Definition progress_of (evs : list event) : list (Z * Z) :=
  omap (λ ev, match ev with EvProgress n t => Some (n, t) | _ => None end) evs.

(** The requests a run sent, in order. *)
Definition requests_of (evs : list event) : list event :=
  omap (λ ev, match ev with
              | EvHead _ | EvGet _ _ => Some ev
              | _ => None
              end) evs.

(** The files a run opened and closed, in order. *)
Definition handles_of (evs : list event) : list event :=
  omap (λ ev, match ev with
              | EvOpen _ _ | EvClose _ => Some ev
              | _ => None
              end) evs.

(** What a run wrote, in order: the path and the bytes of each [write]. *)
Definition writes_of (evs : list event) : list (path * bytes) :=
  omap (λ ev, match ev with EvWrite p c => Some (p, c) | _ => None end) evs.

(** The writes and the progress reports of a run, in the order in which
    they happened. *)
Definition writes_and_reports (evs : list event) : list event :=
  omap (λ ev, match ev with
              | EvWrite _ _ | EvProgress _ _ => Some ev
              | _ => None
              end) evs.

(** ** The lines and the events of [main] *)

(** [formats_to_download] of [main]. *)
Definition formats_to_download (args : Args) : list format :=
  if args_all args then FILES_keys else [args_format args].

(** The format [main] starts with. *)
Definition first_format (args : Args) : format :=
  if args_all args then Parquet else args_format args.

(** How many of [formats], taken in order, are downloaded before the first
    call of [download_file] that does not return [True]; each call starts
    from the file system the call before it left. *)
Fixpoint leading_successes (host : Host) (args : Args) (formats : list format)
    (fs : gmap path bytes) : nat :=
  match formats with
  | [] => 0
  | fmt :: rest =>
      let o := download_file (host_env host) (url_of fmt)
                 (dest_of host args fmt) default_chunk_size fs in
      match res o with
      | Ret true => S (leading_successes host args rest (fs_out o))
      | _ => 0
      end
  end.

(** The lines [list_available_formats] prints. *)
Definition listing_lines : list string :=
  [nl +:+ "Available download formats:";
   str_mul "-" 60;
   "  parquet  |   2.9 GB | Columnar format - best for analytics (recommended)";
   "  zip      |   3.6 GB | Compressed CSV - good balance of size and compatibility";
   "  csv      |  11.1 GB | Raw CSV - largest file, universal compatibility";
   str_mul "-" 60].

(** The lines [main] prints before the loop. *)
Definition banner_lines (host : Host) (args : Args) : list string :=
  [str_mul "=" 60;
   "DOGE Medicaid Provider Spending Data Downloader";
   str_mul "=" 60;
   nl +:+ "Data source: https://opendata.hhs.gov/datasets/medicaid-provider-spending/";
   "Output directory: " +:+ path_absolute host (args_output args)].

(** The lines [main] prints before it downloads one format. *)
Definition block_lines (fmt : format) : list string :=
  [nl +:+ str_mul "=" 60;
   "Downloading: " +:+ fi_filename (FILES fmt);
   "Size: " +:+ fi_size (FILES fmt);
   "URL: " +:+ url_of fmt;
   str_mul "=" 60 +:+ nl].

(** The lines [main] prints after the loop. *)
Definition closing_lines : list string :=
  [nl +:+ str_mul "=" 60; "Download complete!"; str_mul "=" 60; next_steps].

(** The URLs of the HEAD requests of a run of [main], in order. *)
Definition script_heads (evs : list script_event) : list string :=
  omap (λ ev, match ev with EvCall (EvHead u) => Some u | _ => None end) evs.

(** The files a run of [main] opened, with the mode of each. *)
Definition script_opened (evs : list script_event) : list (path * mode) :=
  omap (λ ev, match ev with EvCall (EvOpen p m) => Some (p, m) | _ => None end)
       evs.

(** ** Numerals and digests *)

Definition chars_of_uint (d : Decimal.uint) : list ascii :=
  String.list_ascii_of_string (NilEmpty.string_of_uint d).

(** [h] is the hash object after [msg] has been fed to it. *)
Definition fed (h : SHA256.hasher) (msg : bytes) : Prop :=
  SHA256.h_len h = len msg
  ∧ ∃ q : nat, (64 * q ≤ length msg)%nat
      ∧ SHA256.h_state h = SHA256.absorb q SHA256.H0 msg
      ∧ SHA256.h_buf h = drop (64 * q) msg.

(** A lower-case hexadecimal digit. *)
Definition is_lower_hex (c : ascii) : bool :=
  let n := nat_of_ascii c in
  ((48 <=? n) && (n <=? 57) || (97 <=? n) && (n <=? 102))%nat.

Fixpoint string_forall (p : ascii → bool) (s : string) : bool :=
  match s with
  | EmptyString => true
  | String c s' => p c && string_forall p s'
  end.

(** ** Concrete worlds *)

Definition ascii_bytes (s : string) : bytes :=
  map byte_of_ascii (String.list_ascii_of_string s).

(** A response with the given status, [content-length] header (if any) and
    body stream, the same for every chunk size. *)
Definition a_response (status : Z) (content_length : option string)
    (chunks : list bytes) (broken : option exn) : Response :=
  {| status_code := status;
     headers := match content_length with
                | Some v => {["content-length" := v]}
                | None => ∅
                end;
     iter_content := λ _, (chunks, broken) |}.

(** A server holding the ten bytes "0123456789" that honours a range
    request with a 206 and the rest of the content. *)
Definition env_ranges : Env :=
  {| http_head := λ _, inr (a_response 200 (Some "10") [] None);
     http_get := λ _ hdrs,
       match hdrs !! "Range" with
       | Some _ =>
           inr (a_response 206 (Some "5")
                  [ascii_bytes "56"; []; ascii_bytes "789"] None)
       | None =>
           inr (a_response 200 (Some "10")
                  [ascii_bytes "01234"; ascii_bytes "56789"] None)
       end;
     open_error := λ _ _, None;
     write_error := λ _ _ _, None |}.

(** The same server, ignoring the [Range] header. *)
Definition env_ignores_range : Env :=
  {| http_head := λ _, inr (a_response 200 (Some "10") [] None);
     http_get := λ _ _,
       inr (a_response 200 (Some "10")
              [ascii_bytes "01234"; ascii_bytes "56789"] None);
     open_error := λ _ _, None;
     write_error := λ _ _ _, None |}.

(** A server that declares no size and ignores the [Range] header. *)
Definition env_no_length : Env :=
  {| http_head := λ _, inr (a_response 200 None [] None);
     http_get := λ _ _,
       inr (a_response 200 None
              [ascii_bytes "01234"; ascii_bytes "56789"] None);
     open_error := λ _ _, None;
     write_error := λ _ _ _, None |}.

(** A server that honours the range request but whose connection breaks
    after two more bytes. *)
Definition env_breaks : Env :=
  {| http_head := λ _, inr (a_response 200 (Some "10") [] None);
     http_get := λ _ _,
       inr (a_response 206 (Some "5") [ascii_bytes "56"]
              (Some (ChunkedEncodingError "Connection broken")));
     open_error := λ _ _, None;
     write_error := λ _ _ _, None |}.

(** A server that ignores the [Range] header, answers 200 and whose
    connection breaks before the first byte of the body. *)
Definition env_restarts_and_breaks : Env :=
  {| http_head := λ _, inr (a_response 200 (Some "10") [] None);
     http_get := λ _ _,
       inr (a_response 200 (Some "10") []
              (Some (ChunkedEncodingError "Connection broken")));
     open_error := λ _ _, None;
     write_error := λ _ _ _, None |}.

(** A server in order and a destination that may not be opened. *)
Definition env_denied : Env :=
  {| http_head := λ _, inr (a_response 200 (Some "10") [] None);
     http_get := λ _ _,
       inr (a_response 200 (Some "10")
              [ascii_bytes "01234"; ascii_bytes "56789"] None);
     open_error := λ _ _, Some (OSError EACCES);
     write_error := λ _ _ _, None |}.

(** A server that answers the probe and is unreachable afterwards. *)
Definition env_offline : Env :=
  {| http_head := λ _, inr (a_response 200 (Some "10") [] None);
     http_get := λ _ _, inl (ConnectionError "Network is unreachable");
     open_error := λ _ _, None;
     write_error := λ _ _ _, None |}.

(** A server that declares no size and honours the [Range] header. *)
Definition env_no_length_ranges : Env :=
  {| http_head := λ _, inr (a_response 200 None [] None);
     http_get := λ _ _, inr (a_response 206 None [ascii_bytes "56789"] None);
     open_error := λ _ _, None;
     write_error := λ _ _ _, None |}.

(** A server that has the size but answers the GET with 404. *)
Definition env_not_found : Env :=
  {| http_head := λ _, inr (a_response 200 (Some "10") [] None);
     http_get := λ _ _, inr (a_response 404 None [] None);
     open_error := λ _ _, None;
     write_error := λ _ _ _, None |}.

(** A server in order and a disk with no room left. *)
Definition env_disk_full : Env :=
  {| http_head := λ _, inr (a_response 200 (Some "10") [] None);
     http_get := λ _ _,
       inr (a_response 206 (Some "5")
              [ascii_bytes "56"; []; ascii_bytes "789"] None);
     open_error := λ _ _, None;
     write_error := λ _ _ _, Some (OSError ENOSPC) |}.

(** A server that serves the last three bytes to a request resuming at
    offset 7 and nothing else. *)
Definition env_from_7 : Env :=
  {| http_head := λ _, inr (a_response 200 (Some "10") [] None);
     http_get := λ _ hdrs,
       if bool_decide (hdrs = range_from 7)
       then inr (a_response 206 (Some "3") [ascii_bytes "789"] None)
       else inl (ConnectionError "unexpected request");
     open_error := λ _ _, None;
     write_error := λ _ _ _, None |}.

(** A server that cannot be reached at all. *)
Definition env_head_down : Env :=
  {| http_head := λ _, inl (ConnectionError "Network is unreachable");
     http_get := λ _ _, inl (ConnectionError "Network is unreachable");
     open_error := λ _ _, None;
     write_error := λ _ _ _, None |}.

(** A server whose [content-length] header is no number. *)
Definition env_bad_length : Env :=
  {| http_head := λ _, inr (a_response 200 (Some "ten") [] None);
     http_get := λ _ _,
       inr (a_response 200 (Some "ten")
              [ascii_bytes "01234"; ascii_bytes "56789"] None);
     open_error := λ _ _, None;
     write_error := λ _ _ _, None |}.

(** A server that honours the range request, and a disk that takes two
    more bytes and is full then. *)
Definition env_disk_fills : Env :=
  {| http_head := λ _, inr (a_response 200 (Some "10") [] None);
     http_get := λ _ _,
       inr (a_response 206 (Some "5")
              [ascii_bytes "56"; []; ascii_bytes "789"] None);
     open_error := λ _ _, None;
     write_error := λ _ content _,
       if (7 <=? len content) then Some (OSError ENOSPC) else None |}.

(** A file system with the partial download and a file beside it. *)
Definition fs_with_neighbour : gmap path bytes :=
  {["data.bin" := ascii_bytes "01234"; "notes.txt" := ascii_bytes "keep"]}.

(** A machine whose directories can be made, with paths joined by a slash
    and made absolute under [/home/user]. *)
Definition a_host (env : Env) : Host :=
  {| host_env := env;
     mkdir_error := λ _, None;
     path_join := λ p name, p +:+ "/" +:+ name;
     path_absolute := λ p, "/home/user/" +:+ p |}.

(** [--output data --verify] *)
Definition args_verify_parquet : Args :=
  {| args_format := Parquet; args_output := "data"; args_list := false;
     args_verify := true; args_all := false |}.

(** [--output data --all --verify] *)
Definition args_all_formats : Args :=
  {| args_format := Parquet; args_output := "data"; args_list := false;
     args_verify := true; args_all := true |}.

(** [--list --all --verify --output data] *)
Definition args_list_only : Args :=
  {| args_format := Parquet; args_output := "data"; args_list := true;
     args_verify := true; args_all := true |}.

(** A file system with no file. *)
Definition fs_empty : gmap path bytes := ∅.

(** A file system whose only file holds five bytes that are not a prefix of
    the remote content. *)
Definition fs_partial : gmap path bytes := {["data.bin" := ascii_bytes "abcde"]}.

(** A file system whose only file holds the first five remote bytes. *)
Definition fs_prefix : gmap path bytes := {["data.bin" := ascii_bytes "01234"]}.

(** A file system whose only file holds all ten remote bytes. *)
Definition fs_full : gmap path bytes := {["data.bin" := ascii_bytes "0123456789"]}.

(** A world with an empty file and a file of three bytes; the network plays
    no part. *)
Definition fs_two_files : gmap path bytes :=
  {["empty.bin" := []; "abc.txt" := ascii_bytes "abc"]}.

(** * Properties *)

(** ** Checks on concrete inputs *)

Example py_str_examples :
  (py_str 0, py_str 8192, py_str (-3)) = ("0", "8192", "-3").
Proof. reflexivity. Qed.

Example int_of_str_examples :
  int_of_str <$> ["10"; " 10 "; "+7"; "-5"; "007"; "1_000";
                  ""; "_1"; "1_"; "1__0"; "0x10"; "- 5"; "12a"]
  = [Some 10; Some 10; Some 7; Some (-5); Some 7; Some 1000;
     None; None; None; None; None; None; None].
Proof. reflexivity. Qed.

Example int_of_str_blanks :
  int_of_str <$> [String (ascii_of_nat 9) "10"; String (ascii_of_nat 160) "10";
                  "10" +:+ String (ascii_of_nat 133) "";
                  String (ascii_of_nat 28) "10";
                  "10" +:+ String (ascii_of_nat 29) "";
                  String (ascii_of_nat 31) "10"]
  = [Some 10; Some 10; Some 10; None; None; None].
Proof. reflexivity. Qed.

Example range_from_example :
  range_from 5 = {["Range" := "bytes=5-"]}.
Proof. reflexivity. Qed.

Example headers_get_ignores_case :
  headers_get {["content-length" := "42"]} "Content-Length" (PyInt 0)
  = PyStr "42".
Proof. reflexivity. Qed.

Example sha256_round_constants :
  take 4 SHA256.K = [0x428a2f98; 0x71374491; 0xb5c0fbcf; 0xe9b5dba5]
  ∧ last SHA256.K = Some 0xc67178f2
  ∧ SHA256.H0 = (0x6a09e667, 0xbb67ae85, 0x3c6ef372, 0xa54ff53a,
                 0x510e527f, 0x9b05688c, 0x1f83d9ab, 0x5be0cd19).
Proof. repeat split. Qed.

Example sha256_abc :
  SHA256.hex (SHA256.sha256 (ascii_bytes "abc"))
  = "ba7816bf8f01cfea414140de5dae2223b00361a396177a9cb410ff61f20015ad".
Proof. vm_compute. reflexivity. Qed.

Example sha256_two_blocks :
  SHA256.hex (SHA256.sha256 (ascii_bytes
    "abcdbcdecdefdefgefghfghighijhijkijkljklmklmnlmnomnopnopq"))
  = "248d6a61d20638b8e5c026930c3e6039a33ce45964ff2167f6ecedd419db06c1".
Proof. vm_compute. reflexivity. Qed.

Example sha256_in_pieces :
  SHA256.hexdigest
    (SHA256.update
       (SHA256.update SHA256.new (ascii_bytes
          "abcdbcdecdefdefgefghfghighijhijkijkljklmklmnlmnomno"))
       (ascii_bytes "pnopq"))
  = "248d6a61d20638b8e5c026930c3e6039a33ce45964ff2167f6ecedd419db06c1".
Proof. vm_compute. reflexivity. Qed.

(** A chunk size of 0 makes the first [f.read] return nothing, so the loop
    of [calculate_sha256] ends at once with the digest of no data. *)
Example calculate_sha256_chunk_size_0 :
  res (calculate_sha256 env_offline 4 "abc.txt" 0 fs_two_files) =
  Ret (Some "e3b0c44298fc1c149afbf4c8996fb92427ae41e4649b934ca495991b7852b855").
Proof. vm_compute. reflexivity. Qed.

(** A transfer that broke after seven bytes and the run that completes it. *)
Example resume_after_break :
  let o1 := download_file env_breaks "http://host/data.bin" "data.bin"
              default_chunk_size fs_prefix in
  let o2 := download_file env_from_7 "http://host/data.bin" "data.bin"
              default_chunk_size (fs_out o1) in
  res o1 = Ret false
  ∧ fs_out o1 !! "data.bin" = Some (ascii_bytes "0123456")
  ∧ res o2 = Ret true
  ∧ fs_out o2 !! "data.bin" = Some (ascii_bytes "0123456789").
Proof. vm_compute. repeat split. Qed.

(** ** Running the monad *)

Lemma bind_run {A B} (m : M A) (k : A → M B) fs :
  (m ≫= k) fs =
  match res (m fs) with
  | Ret a =>
      mkOut (res (k a (fs_out (m fs)))) (fs_out (k a (fs_out (m fs))))
            (events (m fs) ++ events (k a (fs_out (m fs))))
  | Exc e => mkOut (Exc e) (fs_out (m fs)) (events (m fs))
  end.
Proof. reflexivity. Qed.

Lemma ret_run {A} (a : A) fs : (mret a : M A) fs = mkOut (Ret a) fs [].
Proof. reflexivity. Qed.

Lemma bind_run_ret {A B} (m : M A) (k : A → M B) fs a fs' ev :
  m fs = mkOut (Ret a) fs' ev →
  (m ≫= k) fs = mkOut (res (k a fs')) (fs_out (k a fs')) (ev ++ events (k a fs')).
Proof. intros H. rewrite bind_run, H. reflexivity. Qed.

Lemma bind_run_exc {A B} (m : M A) (k : A → M B) fs e fs' ev :
  m fs = mkOut (Exc e) fs' ev →
  (m ≫= k) fs = mkOut (Exc e) fs' ev.
Proof. intros H. rewrite bind_run, H. reflexivity. Qed.

Lemma bind_ext {A B} (m : M A) (k1 k2 : A → M B) fs :
  (∀ a fs', k1 a fs' = k2 a fs') → (m ≫= k1) fs = (m ≫= k2) fs.
Proof.
  intros H. rewrite !bind_run. destruct (res (m fs)); [|done]. by rewrite H.
Qed.

Lemma try_except_ext {A} (b1 b2 : M A) caught handler fs :
  (∀ fs', b1 fs' = b2 fs') →
  try_except b1 caught handler fs = try_except b2 caught handler fs.
Proof. intros H. unfold try_except. by rewrite H. Qed.

Lemma print_then_ret {A} msg (a : A) fs :
  (print msg ;; mret a) fs = mkOut (Ret a) fs [EvPrint msg].
Proof. reflexivity. Qed.

Lemma Out_eta {A} (o : Out A) : mkOut (res o) (fs_out o) (events o) = o.
Proof. by destruct o. Qed.

(** A bind returns only if both of its halves do. *)
Lemma bind_ret_inv {A B} (m : M A) (k : A → M B) fs b :
  res ((m ≫= k) fs) = Ret b →
  ∃ a, res (m fs) = Ret a ∧ res (k a (fs_out (m fs))) = Ret b.
Proof.
  rewrite bind_run. destruct (res (m fs)) as [a|e]; simpl; [|done].
  intros H. by exists a.
Qed.

(** ** The size probe *)

Section ProbeFacts.

Context (env : Env).

(** The probe sends one HEAD request and leaves the file system alone,
    whatever comes back. *)
Lemma get_file_size_run url fs :
  get_file_size env url fs =
  mkOut (res (get_file_size env url ∅)) fs [EvHead url].
Proof.
  unfold get_file_size. rewrite !bind_run. unfold requests_head.
  destruct (http_head env url) as [e|r]; simpl; [done|].
  unfold py_int. destruct (headers_get _ _ _) as [z|s]; simpl; [done|].
  by destruct (int_of_str s).
Qed.

Lemma get_file_size_ret url fs total :
  res (get_file_size env url fs) = Ret total →
  get_file_size env url fs = mkOut (Ret total) fs [EvHead url].
Proof.
  rewrite (get_file_size_run url fs). simpl. by intros ->.
Qed.

End ProbeFacts.

(** ** The streaming loop *)

Lemma len_app (a b : bytes) : len (a ++ b) = len a + len b.
Proof. unfold len. rewrite length_app. lia. Qed.

Lemma len_nonneg (a : bytes) : 0 ≤ len a.
Proof. unfold len. lia. Qed.

Lemma len_pos_iff (a : bytes) : 0 < len a ↔ a ≠ [].
Proof. unfold len. destruct a; simpl; split; intros; try done; lia. Qed.

Lemma complete_test_false (k t : Z) :
  k < t ∨ t ≤ 0 → (k >=? t) && (t >? 0) = false.
Proof.
  intros H. rewrite Z.geb_leb, Z.gtb_ltb. apply andb_false_iff.
  rewrite Z.leb_gt, Z.ltb_ge. lia.
Qed.

Lemma complete_test_true (k t : Z) :
  t ≤ k → 0 < t → (k >=? t) && (t >? 0) = true.
Proof.
  intros H1 H2. rewrite Z.geb_leb, Z.gtb_ltb. apply andb_true_iff.
  rewrite Z.leb_le, Z.ltb_lt. lia.
Qed.

Section LoopFacts.

Context (env : Env) (dest_path : path).
Hypothesis write_ok : ∀ content chunk, write_error env dest_path content chunk = None.

Lemma f_write_run chunk fs content :
  fs !! dest_path = Some content →
  f_write env dest_path chunk fs =
  mkOut (Ret tt) (<[dest_path := content ++ chunk]> fs) [EvWrite dest_path chunk].
Proof. intros H. unfold f_write. by rewrite H, write_ok. Qed.

Lemma write_chunks_run total_size chunks n fs content :
  fs !! dest_path = Some content →
  write_chunks env dest_path total_size chunks n fs =
  mkOut (Ret (n + len (concat chunks)))
        (<[dest_path := content ++ concat chunks]> fs)
        (chunk_events dest_path total_size chunks n).
Proof.
  revert n fs content.
  induction chunks as [|chunk rest IH]; intros n fs content Hfs; simpl.
  - rewrite app_nil_r, insert_id, ret_run by done.
    replace (n + len []) with n by (unfold len; simpl; lia). done.
  - case_bool_decide as Hne.
    + rewrite (bind_run_ret _ _ _ _ _ _ (f_write_run chunk fs content Hfs)).
      rewrite bind_run. simpl.
      rewrite (IH _ _ (content ++ chunk)) by apply lookup_insert_eq. simpl.
      rewrite insert_insert_eq, len_app, <- app_assoc.
      f_equal. f_equal. lia.
    + subst chunk. simpl. by apply IH.
Qed.

Lemma for_iter_content_run total_size stream n fs content :
  fs !! dest_path = Some content →
  for_iter_content env dest_path total_size stream n fs =
  mkOut (match stream.2 with Some e => Exc e | None => Ret tt end)
        (<[dest_path := content ++ concat stream.1]> fs)
        (chunk_events dest_path total_size stream.1 n).
Proof.
  intros Hfs. unfold for_iter_content.
  rewrite (bind_run_ret _ _ _ _ _ _ (write_chunks_run total_size _ n fs content Hfs)).
  destruct stream.2; simpl; by rewrite app_nil_r.
Qed.

End LoopFacts.

(** ** The transfer *)

Section TransferFacts.

Context (env : Env) (dest_path : path).

Lemma py_open_run m fs :
  open_error env dest_path m = None →
  m ≠ rb →
  py_open env dest_path m fs =
  mkOut (Ret tt) (<[dest_path := opened m (fs !! dest_path)]> fs)
        [EvOpen dest_path m].
Proof.
  intros Hopen Hm. unfold py_open. rewrite Hopen.
  destruct m; [| done | done].
  simpl. destruct (fs !! dest_path) as [c|] eqn:E; simpl; [|done].
  by rewrite insert_id.
Qed.

Lemma py_open_fail m fs e :
  open_error env dest_path m = Some e →
  py_open env dest_path m fs = mkOut (Exc e) fs [].
Proof. intros Hopen. unfold py_open. by rewrite Hopen. Qed.

Hypothesis write_ok : ∀ content chunk, write_error env dest_path content chunk = None.

(** The [with open ... with tqdm ... for ...] block, when [open] and every
    [write] go through: the file ends as what [open] left of it followed by
    the chunks, and it is closed whether or not the stream broke. *)
Lemma transfer_run m total_size k0 stream fs :
  open_error env dest_path m = None →
  m ≠ rb →
  with_open env dest_path m
    (with_tqdm total_size k0
       (for_iter_content env dest_path total_size stream k0)) fs =
  mkOut (match stream.2 with Some e => Exc e | None => Ret tt end)
        (<[dest_path := opened m (fs !! dest_path) ++ concat stream.1]> fs)
        (EvOpen dest_path m :: EvPbar total_size k0
         :: chunk_events dest_path total_size stream.1 k0 ++ [EvClose dest_path]).
Proof.
  intros Hopen Hm. unfold with_open.
  rewrite (bind_run_ret _ _ _ _ _ _ (py_open_run m fs Hopen Hm)).
  unfold finally, with_tqdm. rewrite bind_run. simpl.
  rewrite (for_iter_content_run env dest_path write_ok total_size stream k0 _
             (opened m (fs !! dest_path))) by apply lookup_insert_eq.
  simpl. rewrite insert_insert_eq. done.
Qed.

End TransferFacts.

(** ** [download_file], phase by phase *)

Section DownloadFacts.

Context (env : Env) (url : string) (dest_path : path) (chunk_size : Z).

Lemma size_on_disk_run {B} (k : Z → M B) fs :
  (there ← path_exists dest_path;
   downloaded_size ← (if there : bool then stat_st_size dest_path else mret 0);
   k downloaded_size) fs = k (size_on_disk fs dest_path) fs.
Proof.
  rewrite bind_run. unfold path_exists, size_on_disk, stat_st_size. simpl.
  destruct (fs !! dest_path) as [c|] eqn:E.
  - rewrite bool_decide_eq_true_2 by eauto. rewrite bind_run, E. simpl.
    by rewrite Out_eta.
  - rewrite bool_decide_eq_false_2 by (by intros [? ?]). rewrite bind_run. simpl.
    by rewrite Out_eta.
Qed.

(** A failed probe ends the call before anything else happens. *)
Lemma download_file_probe_exc fs e :
  res (get_file_size env url fs) = Exc e →
  download_file env url dest_path chunk_size fs = mkOut (Exc e) fs [EvHead url].
Proof.
  intros Hp. unfold download_file. rewrite size_on_disk_run.
  apply bind_run_exc. rewrite get_file_size_run in Hp |- *. simpl in Hp.
  by rewrite Hp.
Qed.

(** The early return. *)
Lemma download_file_complete_run fs total_size :
  res (get_file_size env url fs) = Ret total_size →
  (size_on_disk fs dest_path >=? total_size) && (total_size >? 0) = true →
  download_file env url dest_path chunk_size fs =
  mkOut (Ret true) fs [EvHead url; EvPrint (MsgAlreadyDownloaded dest_path)].
Proof.
  intros Hp Hc. unfold download_file. rewrite size_on_disk_run.
  rewrite (bind_run_ret _ _ _ _ _ _ (get_file_size_ret env url fs _ Hp)).
  rewrite Hc. reflexivity.
Qed.

(** Past the early return: the [try] statement, after the probe and the
    line printed when resuming. *)
Lemma download_file_try_run fs total_size :
  res (get_file_size env url fs) = Ret total_size →
  (size_on_disk fs dest_path >=? total_size) && (total_size >? 0) = false →
  let k := size_on_disk fs dest_path in
  let o := try_except (try_block env url dest_path chunk_size total_size k)
             isinstance_RequestException except_block fs in
  download_file env url dest_path chunk_size fs =
  mkOut (res o) (fs_out o)
        (EvHead url :: (if k >? 0 then [EvPrint (MsgResuming k)] else [])
         ++ events o).
Proof.
  intros Hp Hc k o. unfold download_file. rewrite size_on_disk_run.
  rewrite (bind_run_ret _ _ _ _ _ _ (get_file_size_ret env url fs _ Hp)).
  rewrite Hc. fold k. subst o.
  unfold try_block, request_headers, transfer_mode, transfer_start, range_from.
  destruct (k >? 0) eqn:Ek.
  - erewrite bind_run_ret by (apply print_then_ret). cbv zeta.
    erewrite try_except_ext; [reflexivity|].
    intros fs1. apply bind_ext. intros response fs2. apply bind_ext.
    intros _ fs3. by destruct (status_code response =? 206).
  - rewrite (bind_run_ret _ _ _ _ _ _ (ret_run _ fs)). cbv zeta.
    erewrite try_except_ext; [reflexivity|].
    intros fs1. apply bind_ext. intros response fs2. apply bind_ext.
    intros _ fs3. by destruct (status_code response =? 206).
Qed.

(** *** The ways the [try] block ends *)

Lemma raise_for_status_ok r fs :
  (400 <=? status_code r) && (status_code r <? 600) = false →
  raise_for_status r fs = mkOut (Ret tt) fs [].
Proof. intros H. unfold raise_for_status. by rewrite H. Qed.

Lemma raise_for_status_exc r fs :
  (400 <=? status_code r) && (status_code r <? 600) = true →
  raise_for_status r fs = mkOut (Exc (HTTPError (status_code r))) fs [].
Proof. intros H. unfold raise_for_status. by rewrite H. Qed.

Lemma requests_get_ok hdrs r fs :
  http_get env url hdrs = inr r →
  requests_get env url hdrs fs = mkOut (Ret r) fs [EvGet url hdrs].
Proof. intros H. unfold requests_get. by rewrite H. Qed.

(** The request itself fails. *)
Lemma try_block_get_exc total_size k fs e :
  http_get env url (request_headers k) = inl e →
  try_block env url dest_path chunk_size total_size k fs =
  mkOut (Exc e) fs [EvGet url (request_headers k)].
Proof.
  intros H. unfold try_block. apply bind_run_exc.
  unfold requests_get. by rewrite H.
Qed.

(** The server answers with a 4xx or 5xx status. *)
Lemma try_block_status_exc total_size k fs r :
  http_get env url (request_headers k) = inr r →
  (400 <=? status_code r) && (status_code r <? 600) = true →
  try_block env url dest_path chunk_size total_size k fs =
  mkOut (Exc (HTTPError (status_code r))) fs [EvGet url (request_headers k)].
Proof.
  intros Hg Hs. unfold try_block.
  rewrite (bind_run_ret _ _ _ _ _ _ (requests_get_ok _ _ fs Hg)).
  rewrite (bind_run_exc _ _ _ _ _ _ (raise_for_status_exc r fs Hs)).
  reflexivity.
Qed.

(** [open] is refused. *)
Lemma try_block_open_exc total_size k fs r e :
  http_get env url (request_headers k) = inr r →
  (400 <=? status_code r) && (status_code r <? 600) = false →
  open_error env dest_path (transfer_mode k (status_code r)) = Some e →
  try_block env url dest_path chunk_size total_size k fs =
  mkOut (Exc e) fs [EvGet url (request_headers k)].
Proof.
  intros Hg Hs Ho. unfold try_block.
  rewrite (bind_run_ret _ _ _ _ _ _ (requests_get_ok _ _ fs Hg)).
  rewrite (bind_run_ret _ _ _ _ _ _ (raise_for_status_ok r fs Hs)).
  unfold with_open.
  rewrite (bind_run_exc _ _ _ _ _ _
             (bind_run_exc _ _ _ _ _ _ (py_open_fail env dest_path _ fs e Ho))).
  reflexivity.
Qed.

Lemma transfer_mode_not_rb k status : transfer_mode k status ≠ rb.
Proof. unfold transfer_mode. by repeat case_match. Qed.

(** The body is streamed, every write going through. *)
Lemma try_block_transfer total_size k fs r :
  http_get env url (request_headers k) = inr r →
  (400 <=? status_code r) && (status_code r <? 600) = false →
  open_error env dest_path (transfer_mode k (status_code r)) = None →
  (∀ content chunk, write_error env dest_path content chunk = None) →
  let m := transfer_mode k (status_code r) in
  let k0 := transfer_start k (status_code r) in
  let stream := iter_content r chunk_size in
  try_block env url dest_path chunk_size total_size k fs =
  mkOut (match stream.2 with Some e => Exc e | None => Ret true end)
        (<[dest_path := opened m (fs !! dest_path) ++ concat stream.1]> fs)
        (EvGet url (request_headers k) :: EvOpen dest_path m
         :: EvPbar total_size k0
         :: chunk_events dest_path total_size stream.1 k0
         ++ EvClose dest_path
         :: match stream.2 with
            | Some _ => []
            | None => [EvPrint (MsgDownloadComplete dest_path)]
            end).
Proof.
  intros Hg Hs Ho Hw m k0 stream. unfold try_block.
  rewrite (bind_run_ret _ _ _ _ _ _ (requests_get_ok _ _ fs Hg)).
  rewrite (bind_run_ret _ _ _ _ _ _ (raise_for_status_ok r fs Hs)).
  rewrite bind_run.
  rewrite (transfer_run env dest_path Hw _ total_size _ _ fs Ho
             (transfer_mode_not_rb _ _)).
  fold m k0 stream. simpl. destruct stream.2; simpl; [done|].
  by rewrite <- app_assoc.
Qed.

(** *** The [try] statement as a whole *)

Lemma try_except_ret {A} (body : M A) caught handler fs a fs' ev :
  body fs = mkOut (Ret a) fs' ev →
  try_except body caught handler fs = mkOut (Ret a) fs' ev.
Proof. intros H. unfold try_except. by rewrite H. Qed.

Lemma try_except_caught (body : M bool) fs e fs' ev :
  body fs = mkOut (Exc e) fs' ev →
  isinstance_RequestException e = true →
  try_except body isinstance_RequestException except_block fs =
  mkOut (Ret false) fs' (ev ++ [EvPrint (MsgDownloadError e)]).
Proof. intros H He. unfold try_except. rewrite H. simpl. by rewrite He. Qed.

Lemma try_except_uncaught {A} (body : M A) caught handler fs e fs' ev :
  body fs = mkOut (Exc e) fs' ev →
  caught e = false →
  try_except body caught handler fs = mkOut (Exc e) fs' ev.
Proof. intros H He. unfold try_except. rewrite H. simpl. by rewrite He. Qed.

(** *** Whole runs *)

(** A transfer that runs to its end. *)
Lemma download_file_transfer_ok fs total_size r chunks :
  res (get_file_size env url fs) = Ret total_size →
  (size_on_disk fs dest_path >=? total_size) && (total_size >? 0) = false →
  let k := size_on_disk fs dest_path in
  http_get env url (request_headers k) = inr r →
  (400 <=? status_code r) && (status_code r <? 600) = false →
  open_error env dest_path (transfer_mode k (status_code r)) = None →
  (∀ content chunk, write_error env dest_path content chunk = None) →
  iter_content r chunk_size = (chunks, None) →
  let m := transfer_mode k (status_code r) in
  let k0 := transfer_start k (status_code r) in
  download_file env url dest_path chunk_size fs =
  mkOut (Ret true)
        (<[dest_path := opened m (fs !! dest_path) ++ concat chunks]> fs)
        (EvHead url :: (if k >? 0 then [EvPrint (MsgResuming k)] else [])
         ++ EvGet url (request_headers k) :: EvOpen dest_path m
         :: EvPbar total_size k0
         :: chunk_events dest_path total_size chunks k0
         ++ [EvClose dest_path; EvPrint (MsgDownloadComplete dest_path)]).
Proof.
  intros Hp Hc k Hg Hs Ho Hw Hst m k0.
  rewrite (download_file_try_run fs total_size Hp Hc). fold k.
  pose proof (try_block_transfer total_size k fs r Hg Hs Ho Hw) as Ht.
  rewrite Hst in Ht. simpl in Ht.
  by rewrite (try_except_ret _ _ _ _ _ _ _ Ht).
Qed.

(** A transfer whose stream breaks with an exception of [requests]. *)
Lemma download_file_transfer_broken fs total_size r chunks e :
  res (get_file_size env url fs) = Ret total_size →
  (size_on_disk fs dest_path >=? total_size) && (total_size >? 0) = false →
  let k := size_on_disk fs dest_path in
  http_get env url (request_headers k) = inr r →
  (400 <=? status_code r) && (status_code r <? 600) = false →
  open_error env dest_path (transfer_mode k (status_code r)) = None →
  (∀ content chunk, write_error env dest_path content chunk = None) →
  iter_content r chunk_size = (chunks, Some e) →
  isinstance_RequestException e = true →
  let m := transfer_mode k (status_code r) in
  let k0 := transfer_start k (status_code r) in
  download_file env url dest_path chunk_size fs =
  mkOut (Ret false)
        (<[dest_path := opened m (fs !! dest_path) ++ concat chunks]> fs)
        (EvHead url :: (if k >? 0 then [EvPrint (MsgResuming k)] else [])
         ++ EvGet url (request_headers k) :: EvOpen dest_path m
         :: EvPbar total_size k0
         :: chunk_events dest_path total_size chunks k0
         ++ [EvClose dest_path; EvPrint (MsgDownloadError e)]).
Proof.
  intros Hp Hc k Hg Hs Ho Hw Hst He m k0.
  rewrite (download_file_try_run fs total_size Hp Hc). fold k.
  pose proof (try_block_transfer total_size k fs r Hg Hs Ho Hw) as Ht.
  rewrite Hst in Ht. simpl in Ht.
  rewrite (try_except_caught _ _ _ _ _ Ht He). simpl.
  by rewrite <- !app_assoc.
Qed.

End DownloadFacts.

(** ** More on the [try] statement *)

Section MoreDownloadFacts.

Context (env : Env) (url : string) (dest_path : path) (chunk_size : Z).

Lemma try_except_events {A} (body : M A) caught handler fs :
  ∃ tail, events (try_except body caught handler fs) = events (body fs) ++ tail.
Proof.
  unfold try_except. destruct (res (body fs)) as [a|e].
  - exists []. by rewrite app_nil_r.
  - destruct (caught e); [by eexists|]. exists []. by rewrite app_nil_r.
Qed.

(** The [try] block starts with the GET request, whatever follows. *)
Lemma try_block_sends_get total_size k fs :
  ∃ rest, events (try_block env url dest_path chunk_size total_size k fs) =
          EvGet url (request_headers k) :: rest.
Proof.
  unfold try_block. rewrite bind_run. unfold requests_get.
  destruct (http_get env url (request_headers k)) as [e|r];
    cbn [res events fs_out]; by eexists.
Qed.

Lemma bind_events {A B} (m : M A) (k : A → M B) fs :
  ∃ tail, events ((m ≫= k) fs) = events (m fs) ++ tail.
Proof.
  rewrite bind_run. destruct (res (m fs)); cbn [events]; [by eexists|].
  exists []. by rewrite app_nil_r.
Qed.

Lemma with_open_run {A} m (body : M A) fs :
  open_error env dest_path m = None →
  m ≠ rb →
  let fs1 := <[dest_path := opened m (fs !! dest_path)]> fs in
  with_open env dest_path m body fs =
  mkOut (res (body fs1)) (fs_out (body fs1))
        (EvOpen dest_path m :: events (body fs1) ++ [EvClose dest_path]).
Proof.
  intros Ho Hm fs1. unfold with_open.
  rewrite (bind_run_ret _ _ _ _ _ _ (py_open_run env dest_path m fs Ho Hm)).
  reflexivity.
Qed.

Lemma with_tqdm_run {A} total initial (body : M A) fs :
  with_tqdm total initial body fs =
  mkOut (res (body fs)) (fs_out (body fs))
        (EvPbar total initial :: events (body fs)).
Proof. reflexivity. Qed.

(** When the request and [open] go through, the destination is opened next
    and the progress bar is set up, whatever follows. *)
Lemma try_block_opens total_size k fs r :
  http_get env url (request_headers k) = inr r →
  (400 <=? status_code r) && (status_code r <? 600) = false →
  open_error env dest_path (transfer_mode k (status_code r)) = None →
  ∃ rest, events (try_block env url dest_path chunk_size total_size k fs) =
          EvGet url (request_headers k)
          :: EvOpen dest_path (transfer_mode k (status_code r))
          :: EvPbar total_size (transfer_start k (status_code r)) :: rest.
Proof.
  intros Hg Hs Ho. unfold try_block.
  rewrite (bind_run_ret _ _ _ _ _ _ (requests_get_ok env url _ _ fs Hg)).
  rewrite (bind_run_ret _ _ _ _ _ _ (raise_for_status_ok r fs Hs)).
  cbn [events app].
  match goal with |- context [events ((?m ≫= ?k) fs)] =>
    destruct (bind_events m k fs) as [tail ->] end.
  rewrite (with_open_run _ _ fs Ho (transfer_mode_not_rb _ _)).
  cbn [events]. rewrite with_tqdm_run. cbn [events app]. by eexists.
Qed.

Lemma try_block_ret_true total_size k fs b :
  res (try_block env url dest_path chunk_size total_size k fs) = Ret b →
  b = true.
Proof.
  unfold try_block. intros H.
  apply bind_ret_inv in H as (r & _ & H).
  apply bind_ret_inv in H as (? & _ & H).
  apply bind_ret_inv in H as (? & _ & H).
  apply bind_ret_inv in H as (? & _ & H).
  by injection H.
Qed.

(** No exception of [requests] leaves the [try] statement, and [False] comes
    only from the [except] clause, which prints the cause last. *)
Lemma try_except_exc_inv (body : M bool) fs e :
  res (try_except body isinstance_RequestException except_block fs) = Exc e →
  isinstance_RequestException e = false.
Proof.
  unfold try_except. destruct (res (body fs)) as [a|e'] eqn:E.
  - by rewrite E.
  - destruct (isinstance_RequestException e') eqn:Ee; [done|].
    rewrite E. by intros [= <-].
Qed.

Lemma try_except_false_inv (body : M bool) fs :
  (∀ b, res (body fs) = Ret b → b = true) →
  res (try_except body isinstance_RequestException except_block fs) = Ret false →
  ∃ e tail, isinstance_RequestException e = true
    ∧ events (try_except body isinstance_RequestException except_block fs) =
      tail ++ [EvPrint (MsgDownloadError e)].
Proof.
  intros Hb. unfold try_except. destruct (res (body fs)) as [a|e] eqn:E.
  - rewrite E. intros [= ->]. by specialize (Hb false eq_refl).
  - destruct (isinstance_RequestException e) eqn:Ee.
    + intros _. by exists e, (events (body fs)).
    + by rewrite E.
Qed.

(** A first chunk that cannot be written. *)
Lemma try_block_write_exc total_size k fs r chunk rest broken e :
  http_get env url (request_headers k) = inr r →
  (400 <=? status_code r) && (status_code r <? 600) = false →
  open_error env dest_path (transfer_mode k (status_code r)) = None →
  iter_content r chunk_size = (chunk :: rest, broken) →
  chunk ≠ [] →
  write_error env dest_path
    (opened (transfer_mode k (status_code r)) (fs !! dest_path)) chunk = Some e →
  res (try_block env url dest_path chunk_size total_size k fs) = Exc e.
Proof.
  intros Hg Hs Ho Hst Hne Hw. unfold try_block.
  rewrite (bind_run_ret _ _ _ _ _ _ (requests_get_ok env url _ _ fs Hg)).
  rewrite (bind_run_ret _ _ _ _ _ _ (raise_for_status_ok r fs Hs)).
  cbn [res]. rewrite bind_run.
  rewrite (with_open_run _ _ fs Ho (transfer_mode_not_rb _ _)).
  cbn [res]. rewrite with_tqdm_run. cbn [res]. rewrite Hst.
  unfold for_iter_content. cbn [fst snd]. rewrite bind_run.
  cbn [write_chunks]. rewrite bool_decide_eq_true_2 by done.
  rewrite bind_run. unfold f_write at 1. rewrite lookup_insert_eq.
  cbn [default id]. rewrite Hw. reflexivity.
Qed.

End MoreDownloadFacts.

(** ** Progress reports *)

Section ProgressFacts.

Context (env : Env) (url : string) (dest_path : path) (chunk_size : Z).

Lemma progress_of_app evs1 evs2 :
  progress_of (evs1 ++ evs2) = progress_of evs1 ++ progress_of evs2.
Proof. apply omap_app. Qed.

Lemma progress_of_bind {A B} (m : M A) (k : A → M B) fs :
  progress_of (events ((m ≫= k) fs)) =
  progress_of (events (m fs))
  ++ match res (m fs) with
     | Ret a => progress_of (events (k a (fs_out (m fs))))
     | Exc _ => []
     end.
Proof.
  rewrite bind_run. destruct (res (m fs)); cbn [events].
  - apply progress_of_app.
  - by rewrite app_nil_r.
Qed.

Lemma write_chunks_progress_cons total_size chunk rest n fs :
  progress_of
    (events (write_chunks env dest_path total_size (chunk :: rest) n fs)) =
  if bool_decide (chunk ≠ []) then
    match write_error env dest_path (default [] (fs !! dest_path)) chunk with
    | Some _ => []
    | None =>
        (n + len chunk, total_size)
        :: progress_of
             (events
                (write_chunks env dest_path total_size rest (n + len chunk)
                   (<[dest_path := default [] (fs !! dest_path) ++ chunk]> fs)))
    end
  else progress_of (events (write_chunks env dest_path total_size rest n fs)).
Proof.
  cbn [write_chunks]. case_bool_decide as Hne; [|done].
  rewrite progress_of_bind. unfold f_write.
  destruct (write_error env dest_path _ chunk) as [e|]; cbn [res events fs_out];
    [done|].
  rewrite progress_of_bind. reflexivity.
Qed.

(** Whether or not a write fails, the loop reports counts that start above
    the baseline [n] and never go down, each with [total_size]. *)
Lemma write_chunks_progress total_size chunks n fs :
  let ps := progress_of (events (write_chunks env dest_path total_size chunks n fs)) in
  Forall (λ p, n ≤ p.1 ∧ p.2 = total_size) ps
  ∧ StronglySorted Z.le ps.*1.
Proof.
  cbv zeta. revert n fs. induction chunks as [|chunk rest IH]; intros n fs.
  - split; [apply Forall_nil_2 | apply SSorted_nil].
  - rewrite write_chunks_progress_cons. case_bool_decide as Hne; [|apply IH].
    destruct (write_error env dest_path _ chunk) as [e|].
    { split; [apply Forall_nil_2 | apply SSorted_nil]. }
    match goal with |- context [write_chunks _ _ _ _ ?n' ?fs'] =>
      destruct (IH n' fs') as [IH1 IH2]
    end.
    pose proof (len_nonneg chunk) as Hlen. split.
    + apply Forall_cons. split; [cbn; lia|].
      eapply Forall_impl; [exact IH1|]. cbn. intros p [? ?]. lia.
    + rewrite fmap_cons. apply SSorted_cons; [done|].
      apply Forall_fmap. eapply Forall_impl; [exact IH1|]. cbn. tauto.
Qed.

Lemma py_open_quiet m fs : progress_of (events (py_open env dest_path m fs)) = [].
Proof. unfold py_open. by repeat case_match. Qed.

(** The reports of the [try] block are those of its loop, if it gets there:
    what holds of no report and of the reports of every loop holds of them. *)
Lemma try_block_progress (P : list (Z * Z) → Prop) total_size k fs :
  P [] →
  (∀ chunks n fs',
     P (progress_of (events (write_chunks env dest_path total_size chunks n fs')))) →
  P (progress_of (events (try_block env url dest_path chunk_size total_size k fs))).
Proof.
  intros Hnil Hloop.
  unfold try_block. rewrite progress_of_bind. unfold requests_get.
  destruct (http_get env url (request_headers k)) as [e|r];
    cbn [res events fs_out progress_of omap app]; [done|].
  rewrite progress_of_bind. unfold raise_for_status.
  destruct ((400 <=? status_code r) && (status_code r <? 600));
    cbn [res events fs_out raise mret M_ret progress_of omap app]; [done|].
  rewrite progress_of_bind. unfold with_open.
  rewrite progress_of_bind, py_open_quiet. rewrite bind_run.
  destruct (res (py_open env dest_path _ fs)) as [[]|e] eqn:Eo;
    cbn [res events fs_out app]; [|done].
  unfold finally. cbn [res events fs_out emit]. rewrite progress_of_app.
  unfold with_tqdm. rewrite progress_of_bind. cbn [emit res events fs_out].
  unfold for_iter_content. rewrite progress_of_bind.
  match goal with |- P ?l =>
    assert (l = progress_of
                  (events
                     (write_chunks env dest_path total_size
                        (iter_content r chunk_size).1
                        (transfer_start k (status_code r))
                        (fs_out (py_open env dest_path
                                   (transfer_mode k (status_code r)) fs)))))
      as ->; [|apply Hloop]
  end.
  rewrite !bind_run. cbn [emit res events fs_out].
  destruct (res (write_chunks _ _ _ _ _ _)) as [n'|e];
    [destruct (iter_content r chunk_size).2|];
    cbn -[write_chunks py_open request_headers transfer_mode transfer_start];
    by rewrite !app_nil_r.
Qed.

End ProgressFacts.

(** ** [str] and [int] *)

Lemma lstrip_id s : Forall (λ c, is_space c = false) s → lstrip s = s.
Proof. intros [|c s' Hc _]; [done|]. cbn. by rewrite Hc. Qed.

Lemma strip_id s : Forall (λ c, is_space c = false) s → strip s = s.
Proof.
  intros H. unfold strip. rewrite (lstrip_id s H).
  rewrite lstrip_id by (by apply Forall_rev). apply rev_involutive.
Qed.

Lemma chars_of_uint_no_space d :
  Forall (λ c, is_space c = false) (chars_of_uint d).
Proof.
  unfold chars_of_uint.
  induction d; cbn [NilEmpty.string_of_uint String.list_ascii_of_string];
    constructor; done.
Qed.

Lemma parse_digits_chars d : parse_digits true (chars_of_uint d) = Some d.
Proof.
  unfold chars_of_uint.
  induction d; cbn [NilEmpty.string_of_uint String.list_ascii_of_string];
    [done|..]; cbn; by rewrite IHd.
Qed.

Lemma length_chars_of_uint d : length (chars_of_uint d) = Decimal.nb_digits d.
Proof.
  unfold chars_of_uint.
  induction d; cbn [NilEmpty.string_of_uint String.list_ascii_of_string
                    length Decimal.nb_digits]; by rewrite ?IHd.
Qed.

Lemma length_list_ascii_of_string s :
  length (String.list_ascii_of_string s) = String.length s.
Proof. induction s as [|c s IH]; [done|]. cbn. by rewrite IH. Qed.

(** The digits of a decimal numeral parse back to its value, as the first
    characters of a literal too, one digit for each character. *)
Lemma parse_digits_numeral d :
  ∃ d', parse_digits false
          (String.list_ascii_of_string (NilZero.string_of_uint d)) = Some d'
    ∧ Z.of_uint d' = Z.of_uint d
    ∧ Decimal.nb_digits d' = String.length (NilZero.string_of_uint d).
Proof.
  destruct d; [by exists (Decimal.D0 Decimal.Nil)|..];
    (eexists; split; [|split; [reflexivity|]]);
    try (cbn [NilZero.string_of_uint NilEmpty.string_of_uint
              String.list_ascii_of_string];
         cbn [parse_digits Ascii.eqb Bool.eqb digit_of];
         fold (chars_of_uint d); by rewrite parse_digits_chars);
    cbn [NilZero.string_of_uint NilEmpty.string_of_uint String.length
         Decimal.nb_digits];
    f_equal; rewrite <- length_chars_of_uint; unfold chars_of_uint;
    apply length_list_ascii_of_string.
Qed.

Lemma numeral_no_space d :
  Forall (λ c, is_space c = false)
    (String.list_ascii_of_string (NilZero.string_of_uint d)).
Proof.
  destruct d; [by repeat constructor|..]; apply (chars_of_uint_no_space).
Qed.

Lemma numeral_starts_with_digit d :
  ∃ c cs, String.list_ascii_of_string (NilZero.string_of_uint d) = c :: cs
    ∧ is_Some (digit_of c).
Proof.
  destruct d; cbn [NilZero.string_of_uint NilEmpty.string_of_uint
                   String.list_ascii_of_string];
    eexists _, _; (split; [reflexivity|]); by eexists.
Qed.

Lemma int_of_digits_numeral d :
  (String.length (NilZero.string_of_uint d) ≤ int_max_str_digits)%nat →
  int_of_digits (String.list_ascii_of_string (NilZero.string_of_uint d))
  = Some (Z.of_uint d).
Proof.
  intros Hlen. unfold int_of_digits.
  destruct (parse_digits_numeral d) as (d' & -> & Hv & Hn).
  rewrite Hn. apply Nat.leb_le in Hlen. by rewrite Hlen, Hv.
Qed.

Lemma int_of_str_numeral d :
  (String.length (NilZero.string_of_uint d) ≤ int_max_str_digits)%nat →
  int_of_str (NilZero.string_of_uint d) = Some (Z.of_uint d).
Proof.
  intros Hlen.
  unfold int_of_str. rewrite strip_id by apply numeral_no_space.
  pose proof (int_of_digits_numeral d Hlen) as Hd.
  destruct (numeral_starts_with_digit d) as (c & cs & Hc & Hdig).
  rewrite Hc in *.
  assert (c ≠ "-"%char ∧ c ≠ "+"%char) as [H1 H2].
  { split; intros ->; by destruct Hdig. }
  transitivity (int_of_digits (c :: cs)); [|done].
  destruct c as [[] [] [] [] [] [] [] []]; try reflexivity; congruence.
Qed.

(** A numeral of more digits than [int_max_str_digits] is refused. *)
Lemma int_of_str_long_numeral d :
  (int_max_str_digits < String.length (NilZero.string_of_uint d))%nat →
  int_of_str (NilZero.string_of_uint d) = None.
Proof.
  intros Hlen.
  unfold int_of_str. rewrite strip_id by apply numeral_no_space.
  assert (int_of_digits
            (String.list_ascii_of_string (NilZero.string_of_uint d)) = None)
    as Hd.
  { unfold int_of_digits.
    destruct (parse_digits_numeral d) as (d' & -> & _ & Hn).
    rewrite Hn. apply Nat.leb_gt in Hlen. by rewrite Hlen. }
  destruct (numeral_starts_with_digit d) as (c & cs & Hc & Hdig).
  rewrite Hc in *.
  assert (c ≠ "-"%char ∧ c ≠ "+"%char) as [H1 H2].
  { split; intros ->; by destruct Hdig. }
  transitivity (int_of_digits (c :: cs)); [|done].
  destruct c as [[] [] [] [] [] [] [] []]; try reflexivity; congruence.
Qed.

Lemma int_of_str_minus_numeral d :
  (String.length (NilZero.string_of_uint d) ≤ int_max_str_digits)%nat →
  int_of_str (String "-" (NilZero.string_of_uint d)) = Some (- Z.of_uint d).
Proof.
  intros Hlen.
  unfold int_of_str. cbn [String.list_ascii_of_string].
  rewrite strip_id
    by (constructor; [done | apply numeral_no_space]).
  by rewrite (int_of_digits_numeral d Hlen).
Qed.

(** [int(str(z))] is [z], for a [z] whose text is within the limit on the
    number of digits. *)
Lemma int_of_str_py_str z :
  (String.length (py_str z) ≤ int_max_str_digits)%nat →
  int_of_str (py_str z) = Some z.
Proof.
  unfold py_str. rewrite <- (DecimalZ.of_to z) at 3.
  destruct (Z.to_int z) as [d|d]; cbn [NilZero.string_of_int Z.of_int].
  - apply int_of_str_numeral.
  - intros Hlen. apply int_of_str_minus_numeral.
    cbn [String.length] in Hlen. lia.
Qed.

(** ** The incremental hash object against the one-shot function *)

Section HashFacts.

Import SHA256.

Lemma absorb_add n m hv data :
  absorb (n + m) hv data = absorb m (absorb n hv data) (drop (64 * n) data).
Proof.
  revert hv data. induction n as [|n IH]; intros hv data.
  - by rewrite Nat.mul_0_r, drop_0.
  - cbn [Nat.add absorb]. rewrite IH, drop_drop.
    by replace (64 + 64 * n)%nat with (64 * S n)%nat by lia.
Qed.

Lemma absorb_prefix n hv (a b : bytes) :
  (64 * n ≤ length a)%nat → absorb n hv (a ++ b) = absorb n hv a.
Proof.
  revert hv a. induction n as [|n IH]; intros hv a Hn; [done|].
  cbn [absorb]. rewrite take_app_le, drop_app_le by lia.
  apply IH. rewrite length_drop. lia.
Qed.

Lemma fed_new : fed new [].
Proof. split; [done|]. exists 0%nat. by repeat split. Qed.

Lemma fed_update h msg data : fed h msg → fed (update h data) (msg ++ data).
Proof.
  intros (Hlen & q & Hq & Hst & Hbuf). split.
  - cbn [update h_len]. rewrite Hlen, len_app. done.
  - set (n := (length (h_buf h ++ data) / 64)%nat).
    assert (h_buf h ++ data = drop (64 * q) (msg ++ data)) as Hcat
      by (by rewrite drop_app_le, Hbuf by lia).
    assert (64 * n ≤ length (h_buf h ++ data))%nat as Hn
      by (subst n; apply Nat.Div0.mul_div_le).
    exists (q + n)%nat. split; [|split].
    + rewrite Hcat, length_drop, length_app in Hn. rewrite length_app. lia.
    + cbn [update h_state]. fold n.
      by rewrite absorb_add, (absorb_prefix q H0 msg data Hq), <- Hst, <- Hcat.
    + cbn [update h_buf]. fold n. rewrite Hcat, drop_drop.
      f_equal. lia.
Qed.

Lemma fed_digest h msg : fed h msg → digest h = sha256 msg.
Proof.
  intros (Hlen & q & Hq & Hst & Hbuf). unfold digest, sha256.
  rewrite Hlen, Hst, Hbuf. f_equal.
  set (pad := padding (len msg)).
  assert (drop (64 * q) msg ++ pad = drop (64 * q) (msg ++ pad)) as Hcat
    by (by rewrite drop_app_le by lia).
  assert ((length (msg ++ pad) / 64 = q + length (drop (64 * q) msg ++ pad) / 64)%nat)
    as ->.
  { rewrite Hcat, length_drop.
    replace (length (msg ++ pad)) with (q * 64 + (length (msg ++ pad) - 64 * q))%nat
      at 1 by (rewrite length_app; lia).
    by rewrite Nat.div_add_l by done. }
  by rewrite absorb_add, (absorb_prefix q H0 msg pad Hq), Hcat.
Qed.

(** Feeding a message in pieces gives the digest of the whole message. *)
Lemma digest_foldl_update chunks :
  digest (foldl update new chunks) = sha256 (concat chunks).
Proof.
  apply fed_digest.
  assert (∀ h msg, fed h msg → fed (foldl update h chunks) (msg ++ concat chunks))
    as H.
  { induction chunks as [|c cs IH]; intros h msg Hf; cbn [foldl concat].
    - by rewrite app_nil_r.
    - rewrite app_assoc. by apply IH, fed_update. }
  apply (H new [] fed_new).
Qed.

Lemma length_be_bytes n z : length (be_bytes n z) = n.
Proof. induction n; cbn [be_bytes length]; congruence. Qed.

Lemma length_sha256 msg : length (sha256 msg) = 32%nat.
Proof.
  unfold sha256.
  destruct (absorb _ _ _) as [[[[[[[a b] c] d] e] f] g] h].
  unfold bytes_of_hash. by rewrite !length_app, !length_be_bytes.
Qed.

Lemma length_hex bs : String.length (hex bs) = (2 * length bs)%nat.
Proof. induction bs as [|b bs IH]; cbn [hex String.length length]; lia. Qed.

Lemma hex_lower bs : string_forall is_lower_hex (hex bs) = true.
Proof.
  induction bs as [|b bs IH]; [done|]. cbn [hex string_forall].
  rewrite IH.
  assert (is_lower_hex (hex_digit (Z_of_byte b / 16)) = true) as ->
    by (by destruct b).
  assert (is_lower_hex (hex_digit (Z_of_byte b mod 16)) = true) as ->
    by (by destruct b).
  done.
Qed.

End HashFacts.

(** ** The loop of [calculate_sha256] *)

Lemma pbar_update_run total n k fs :
  pbar_update total n k fs = mkOut (Ret (n + k)) fs [EvProgress (n + k) total].
Proof. reflexivity. Qed.

Lemma hash_chunks_run fuel chunk_size total unread h n fs msg :
  chunk_size = -1 ∨ 0 < chunk_size →
  (length unread < fuel)%nat →
  fed h msg →
  ∃ h' evs,
    hash_chunks fuel chunk_size total unread h n fs = mkOut (Ret (Some h')) fs evs
    ∧ fed h' (msg ++ unread).
Proof.
  intros Hcs. revert unread h n msg.
  induction fuel as [|fuel IH]; intros unread h n msg Hfuel Hfed; [lia|].
  cbn [hash_chunks].
  assert (∃ chunk unread', f_read chunk_size unread = inr (chunk, unread')
          ∧ unread = chunk ++ unread'
          ∧ (chunk = [] → unread = [])
          ∧ (chunk ≠ [] → length unread' < length unread)%nat)
    as (chunk & unread' & -> & Hsplit & Hempty & Hless).
  { unfold f_read. destruct Hcs as [-> | Hpos].
    - cbn. eexists _, _. split; [reflexivity|]. rewrite app_nil_r.
      repeat split; [done|]. destruct unread; [done|]. cbn. lia.
    - assert ((chunk_size <? -1) = false) as -> by (apply Z.ltb_ge; lia).
      assert ((chunk_size =? -1) = false) as -> by (apply Z.eqb_neq; lia).
      eexists _, _. split; [reflexivity|].
      rewrite take_drop. split; [done|].
      assert (0 < Z.to_nat chunk_size)%nat by lia.
      destruct unread as [|b unread]; [by rewrite take_nil|].
      destruct (Z.to_nat chunk_size) as [|c]; [lia|].
      split; [done|]. intros _. cbn [drop length].
      pose proof (length_drop unread c). lia. }
  case_bool_decide as Hc.
  - exists h, []. rewrite (Hempty Hc), app_nil_r. done.
  - rewrite (bind_run_ret _ _ _ _ _ _ (pbar_update_run total n (len chunk) fs)).
    destruct (IH unread' (SHA256.update h chunk) (n + len chunk) (msg ++ chunk))
      as (h' & evs & Hrun & Hfed').
    + specialize (Hless Hc). lia.
    + by apply fed_update.
    + rewrite Hrun. cbn [res events fs_out].
      eexists _, _. split; [reflexivity|].
      by rewrite Hsplit, app_assoc.
Qed.

(** ** The loop of [download_file] under any environment *)

Section LoopShape.

Context (env : Env) (dest_path : path).

(** Whatever the writes do, the loop gets through some first [j] chunks: its
    events are those of these chunks, the file holds them after what it held,
    and the loop returns only when they are all the chunks. *)
Lemma write_chunks_shape total_size chunks n fs content :
  fs !! dest_path = Some content →
  ∃ j : nat,
    (j ≤ length chunks)%nat
    ∧ events (write_chunks env dest_path total_size chunks n fs) =
      chunk_events dest_path total_size (take j chunks) n
    ∧ fs_out (write_chunks env dest_path total_size chunks n fs) =
      <[dest_path := content ++ concat (take j chunks)]> fs
    ∧ (∀ n', res (write_chunks env dest_path total_size chunks n fs) = Ret n' →
         take j chunks = chunks).
Proof.
  revert n fs content.
  induction chunks as [|chunk rest IH]; intros n fs content Hfs.
  - exists 0%nat. cbn [write_chunks take chunk_events concat length].
    rewrite ret_run, app_nil_r, insert_id by done. done.
  - cbn [write_chunks]. case_bool_decide as Hne.
    + rewrite bind_run. unfold f_write. rewrite Hfs.
      cbn [default id].
      destruct (write_error env dest_path content chunk) as [e|];
        cbn [res events fs_out].
      { exists 0%nat. cbn [take chunk_events concat length].
        rewrite app_nil_r, insert_id by done.
        split; [lia|]. done. }
      rewrite (bind_run_ret _ _ _ _ _ _
                 (pbar_update_run total_size n (len chunk) _)).
      cbn [res events fs_out].
      destruct (IH (n + len chunk)
                  (<[dest_path := content ++ chunk]> fs) (content ++ chunk))
        as (j & Hj & Hev & Hfs' & Hret); [apply lookup_insert_eq|].
      exists (S j). cbn [take chunk_events concat length].
      rewrite bool_decide_eq_true_2 by done.
      rewrite Hev, Hfs', insert_insert_eq, <- app_assoc.
      split; [lia|]. split; [done|]. split; [done|].
      intros n' Hn'. f_equal. by apply (Hret n').
    + subst chunk.
      destruct (IH n fs content Hfs) as (j & Hj & Hev & Hfs' & Hret).
      exists (S j). cbn [take chunk_events concat length app].
      rewrite bool_decide_eq_false_2 by (by intros H; apply H).
      split; [lia|]. split; [done|]. split; [done|].
      intros n' Hn'. f_equal. by apply (Hret n').
Qed.

End LoopShape.

(** ** Every way a call of [download_file] can go *)

Section Cases.

Context (env : Env) (url : string) (dest_path : path) (chunk_size : Z).

(** The [try] block once the request and [open] went through, whatever the
    writes and the stream do: some first [j] chunks were written after what
    [open] left, the file was closed, and the block returns only if
    these were all the chunks and the stream did not break. *)
Lemma try_block_streams total_size k fs r :
  http_get env url (request_headers k) = inr r →
  (400 <=? status_code r) && (status_code r <? 600) = false →
  open_error env dest_path (transfer_mode k (status_code r)) = None →
  let m := transfer_mode k (status_code r) in
  let k0 := transfer_start k (status_code r) in
  let chunks := (iter_content r chunk_size).1 in
  let o := try_block env url dest_path chunk_size total_size k fs in
  ∃ j : nat,
    (j ≤ length chunks)%nat
    ∧ fs_out o =
      <[dest_path := opened m (fs !! dest_path) ++ concat (take j chunks)]> fs
    ∧ ((res o = Ret true ∧ take j chunks = chunks
        ∧ (iter_content r chunk_size).2 = None
        ∧ events o =
          EvGet url (request_headers k) :: EvOpen dest_path m
          :: EvPbar total_size k0
          :: chunk_events dest_path total_size (take j chunks) k0
          ++ [EvClose dest_path; EvPrint (MsgDownloadComplete dest_path)])
       ∨ (∃ e, res o = Exc e
          ∧ events o =
            EvGet url (request_headers k) :: EvOpen dest_path m
            :: EvPbar total_size k0
            :: chunk_events dest_path total_size (take j chunks) k0
            ++ [EvClose dest_path])).
Proof.
  intros Hg Hs Ho m k0 chunks o. subst o. unfold try_block.
  rewrite (bind_run_ret _ _ _ _ _ _ (requests_get_ok env url _ _ fs Hg)).
  rewrite (bind_run_ret _ _ _ _ _ _ (raise_for_status_ok r fs Hs)).
  rewrite bind_run.
  rewrite (with_open_run env dest_path _ _ fs Ho (transfer_mode_not_rb _ _)).
  fold m k0. cbn [res events fs_out]. rewrite with_tqdm_run.
  cbn [res events fs_out]. unfold for_iter_content. fold chunks.
  rewrite bind_run.
  destruct (write_chunks_shape env dest_path total_size chunks k0
              (<[dest_path := opened m (fs !! dest_path)]> fs)
              (opened m (fs !! dest_path)) (lookup_insert_eq _ _ _))
    as (j & Hj & Hev & Hfs & Hret).
  exists j. split; [done|].
  destruct (res (write_chunks _ _ _ _ _ _)) as [n'|e] eqn:Er;
    cbn [res events fs_out].
  - rewrite Hfs, Hev, insert_insert_eq.
    destruct (iter_content r chunk_size).2 as [e|];
      cbn [raise mret M_ret res events fs_out app].
    + split; [done|]. right. exists e. by rewrite !app_nil_r.
    + split; [done|]. left. rewrite !app_nil_r.
      split; [done|]. split; [by apply (Hret n')|]. split; [done|].
      by rewrite <- app_assoc.
  - rewrite Hfs, Hev, insert_insert_eq. split; [done|].
    right. by exists e.
Qed.

(** A call of [download_file] goes one of four ways: the probe raises; the
    file is already complete; the [try] block raises before the destination
    is opened; or the destination is opened, some first [j] chunks are
    written after what [open] left and the file is closed. *)
Lemma download_file_cases fs :
  let k := size_on_disk fs dest_path in
  let o := download_file env url dest_path chunk_size fs in
  let pre := EvHead url :: (if k >? 0 then [EvPrint (MsgResuming k)] else [])
             ++ [EvGet url (request_headers k)] in
  (∃ e, res (get_file_size env url fs) = Exc e
     ∧ o = mkOut (Exc e) fs [EvHead url])
  ∨ (∃ total_size, res (get_file_size env url fs) = Ret total_size
       ∧ (k >=? total_size) && (total_size >? 0) = true
       ∧ o = mkOut (Ret true) fs
               [EvHead url; EvPrint (MsgAlreadyDownloaded dest_path)])
  ∨ (∃ total_size e, res (get_file_size env url fs) = Ret total_size
       ∧ (k >=? total_size) && (total_size >? 0) = false
       ∧ o = if isinstance_RequestException e
             then mkOut (Ret false) fs (pre ++ [EvPrint (MsgDownloadError e)])
             else mkOut (Exc e) fs pre)
  ∨ (∃ total_size r (j : nat) fin,
       res (get_file_size env url fs) = Ret total_size
       ∧ (k >=? total_size) && (total_size >? 0) = false
       ∧ http_get env url (request_headers k) = inr r
       ∧ (400 <=? status_code r) && (status_code r <? 600) = false
       ∧ (j ≤ length (iter_content r chunk_size).1)%nat
       ∧ fs_out o =
           <[dest_path :=
               opened (transfer_mode k (status_code r)) (fs !! dest_path)
               ++ concat (take j (iter_content r chunk_size).1)]> fs
       ∧ events o =
           pre
           ++ EvOpen dest_path (transfer_mode k (status_code r))
           :: EvPbar total_size (transfer_start k (status_code r))
           :: chunk_events dest_path total_size
                (take j (iter_content r chunk_size).1)
                (transfer_start k (status_code r))
           ++ EvClose dest_path :: fin
       ∧ ((res o = Ret true
           ∧ take j (iter_content r chunk_size).1 = (iter_content r chunk_size).1
           ∧ (iter_content r chunk_size).2 = None
           ∧ fin = [EvPrint (MsgDownloadComplete dest_path)])
          ∨ (∃ e, isinstance_RequestException e = true
               ∧ res o = Ret false ∧ fin = [EvPrint (MsgDownloadError e)])
          ∨ (∃ e, isinstance_RequestException e = false
               ∧ res o = Exc e ∧ fin = []))).
Proof.
  intros k o pre.
  destruct (res (get_file_size env url fs)) as [total_size|e] eqn:Hp.
  2: { left. exists e. split; [done|].
       by apply download_file_probe_exc. }
  right.
  destruct ((k >=? total_size) && (total_size >? 0)) eqn:Hc.
  { left. exists total_size. split; [done|]. split; [done|].
    by apply (download_file_complete_run env url dest_path chunk_size fs
                total_size). }
  right.
  assert (o = let t := try_except
                         (try_block env url dest_path chunk_size total_size k)
                         isinstance_RequestException except_block fs in
              mkOut (res t) (fs_out t)
                (EvHead url
                 :: (if k >? 0 then [EvPrint (MsgResuming k)] else [])
                 ++ events t)) as Ho
    by (subst o k; by apply download_file_try_run).
  cbv zeta in Ho.
  assert (∀ e, try_block env url dest_path chunk_size total_size k fs
               = mkOut (Exc e) fs [EvGet url (request_headers k)] →
          o = if isinstance_RequestException e
              then mkOut (Ret false) fs (pre ++ [EvPrint (MsgDownloadError e)])
              else mkOut (Exc e) fs pre) as Hearly.
  { intros e Ht. rewrite Ho. subst pre.
    destruct (isinstance_RequestException e) eqn:He.
    - rewrite (try_except_caught _ _ _ _ _ Ht He). cbn [res fs_out events].
      cbn [app]. by rewrite <- ?app_assoc.
    - by rewrite (try_except_uncaught _ _ _ _ _ _ _ Ht He). }
  destruct (http_get env url (request_headers k)) as [e|r] eqn:Hg.
  { left. exists total_size, e. split; [done|]. split; [done|].
    apply Hearly. by apply try_block_get_exc. }
  destruct ((400 <=? status_code r) && (status_code r <? 600)) eqn:Hs.
  { left. exists total_size, (HTTPError (status_code r)).
    split; [done|]. split; [done|].
    apply Hearly. by apply try_block_status_exc. }
  destruct (open_error env dest_path (transfer_mode k (status_code r)))
    as [e|] eqn:Hopen.
  { left. exists total_size, e. split; [done|]. split; [done|].
    apply Hearly. by apply (try_block_open_exc env url dest_path chunk_size
                              total_size k fs r e). }
  right.
  destruct (try_block_streams total_size k fs r Hg Hs Hopen)
    as (j & Hj & Hfs & Hres).
  assert (∀ tl : list event,
            EvHead url :: (if k >? 0 then [EvPrint (MsgResuming k)] else [])
            ++ EvGet url (request_headers k) :: tl = pre ++ tl) as Hpre.
  { intros tl. subst pre. cbn [app]. by rewrite <- ?app_assoc. }
  destruct Hres as [(Hr & Htake & Hbroken & Hev) | (e & Hr & Hev)].
  - exists total_size, r, j, [EvPrint (MsgDownloadComplete dest_path)].
    rewrite Ho. unfold try_except. rewrite Hr. cbn [res fs_out events].
    rewrite Hr, Hfs, Hev, Hpre.
    do 7 (split; [done|]). by left.
  - destruct (isinstance_RequestException e) eqn:He.
    + exists total_size, r, j, [EvPrint (MsgDownloadError e)].
      rewrite Ho. unfold try_except. rewrite Hr, He.
      cbn [except_block res fs_out events].
      rewrite Hfs, Hev.
      do 6 (split; [done|]). split.
      * cbn [app]. rewrite Hpre. f_equal. cbn [app].
        do 2 f_equal. rewrite <- ?app_assoc. done.
      * right. left. by exists e.
    + exists total_size, r, j, [].
      rewrite Ho. unfold try_except. rewrite Hr, He.
      cbn [res fs_out events]. rewrite Hr, Hfs, Hev, Hpre.
      do 6 (split; [done|]). split; [done|].
      right. right. by exists e.
Qed.

End Cases.

(** ** What the events of the loop contain *)

Section LoopEvents.

Context (dest_path : path) (total_size : Z).

Lemma requests_of_chunk_events chunks n :
  requests_of (chunk_events dest_path total_size chunks n) = [].
Proof.
  revert n. induction chunks as [|c rest IH]; intros n; [done|].
  cbn [chunk_events]. case_bool_decide; [|apply IH].
  unfold requests_of. cbn [omap list_omap]. apply IH.
Qed.

Lemma handles_of_chunk_events chunks n :
  handles_of (chunk_events dest_path total_size chunks n) = [].
Proof.
  revert n. induction chunks as [|c rest IH]; intros n; [done|].
  cbn [chunk_events]. case_bool_decide; [|apply IH].
  unfold handles_of. cbn [omap list_omap]. apply IH.
Qed.

(** The loop writes the chunks that are not empty, all to the destination,
    and nothing else. *)
Lemma writes_of_chunk_events chunks n :
  writes_of (chunk_events dest_path total_size chunks n) =
  (λ c, (dest_path, c)) <$> filter (λ c, c ≠ []) chunks.
Proof.
  revert n. induction chunks as [|c rest IH]; intros n; [done|].
  cbn [chunk_events]. rewrite filter_cons.
  destruct (decide (c ≠ [])) as [Hc|Hc].
  - rewrite bool_decide_eq_true_2 by done. unfold writes_of.
    cbn [omap list_omap fmap list_fmap]. f_equal. apply IH.
  - rewrite bool_decide_eq_false_2 by done. apply IH.
Qed.

Lemma concat_filter_nonempty (chunks : list bytes) :
  concat (filter (λ c, c ≠ []) chunks) = concat chunks.
Proof.
  induction chunks as [|c rest IH]; [done|]. rewrite filter_cons.
  destruct (decide (c ≠ [])) as [Hc|Hc]; cbn [concat]; [by rewrite IH|].
  apply dec_stable in Hc as ->. done.
Qed.

(** Each report of the loop is above the one before it, and the first is
    above the baseline. *)
Lemma progress_of_chunk_events chunks n :
  let ps := progress_of (chunk_events dest_path total_size chunks n) in
  Forall (λ p, n < p.1) ps ∧ StronglySorted Z.lt ps.*1.
Proof.
  cbv zeta. revert n. induction chunks as [|c rest IH]; intros n.
  - split; [apply Forall_nil_2 | apply SSorted_nil].
  - cbn [chunk_events]. case_bool_decide as Hc; [|apply IH].
    unfold progress_of. cbn [omap list_omap]. fold (progress_of).
    destruct (IH (n + len c)) as [IH1 IH2].
    assert (0 < len c) as Hlen by (by apply len_pos_iff).
    split.
    + apply Forall_cons. split; [cbn; lia|].
      eapply Forall_impl; [exact IH1|]. cbn. intros p ?. lia.
    + rewrite fmap_cons. apply SSorted_cons; [done|].
      apply Forall_fmap. eapply Forall_impl; [exact IH1|]. done.
Qed.

Lemma writes_and_reports_chunk_events chunks n :
  writes_and_reports (chunk_events dest_path total_size chunks n) =
  chunk_events dest_path total_size chunks n.
Proof.
  revert n. induction chunks as [|c rest IH]; intros n; [done|].
  cbn [chunk_events]. case_bool_decide; [|apply IH].
  unfold writes_and_reports. cbn [omap list_omap]. do 2 f_equal. apply IH.
Qed.

(** The empty chunks of a stream leave no trace in the events. *)
Lemma chunk_events_filter chunks n :
  chunk_events dest_path total_size (filter (λ c, c ≠ []) chunks) n =
  chunk_events dest_path total_size chunks n.
Proof.
  revert n. induction chunks as [|c rest IH]; intros n; [done|].
  rewrite filter_cons. destruct (decide (c ≠ [])) as [Hc|Hc].
  - cbn [chunk_events]. rewrite bool_decide_eq_true_2 by done.
    by rewrite IH.
  - cbn [chunk_events]. rewrite bool_decide_eq_false_2 by done. apply IH.
Qed.

(** Over chunks that are not empty there is one report for each chunk, and
    each report stands at the baseline plus the bytes written so far. *)
Lemma progress_of_written written n :
  Forall (λ c, c ≠ []) written →
  let ps := progress_of (chunk_events dest_path total_size written n) in
  length ps = length written
  ∧ ∀ (i : nat) m, ps.*1 !! i = Some m →
      m = n + len (concat (take (S i) written)).
Proof.
  cbv zeta. intros Hne. revert n.
  induction Hne as [|c rest Hc Hrest IH]; intros n.
  { split; [done|]. intros i m Hi. done. }
  cbn [chunk_events]. rewrite bool_decide_eq_true_2 by done.
  unfold progress_of. cbn [omap list_omap]. fold progress_of.
  destruct (IH (n + len c)) as [IH1 IH2].
  split; [cbn [length]; f_equal; exact IH1|].
  intros [|i] m Hi.
  - cbn in Hi. injection Hi as <-. cbn [take concat].
    by rewrite app_nil_r.
  - rewrite fmap_cons in Hi. cbn [lookup list_lookup] in Hi.
    rewrite (IH2 i m Hi).
    change (take (S (S i)) (c :: rest)) with (c :: take (S i) rest).
    cbn [concat]. rewrite len_app. lia.
Qed.

End LoopEvents.

(** ** The writes and the reports of a call *)

(** Past a probe that returned, the writes and the reports of a call of
    [download_file] are those of the loop over some first chunks of the
    stream, with the bar starting where the response puts it. *)
Lemma download_file_loop_events env url dest_path chunk_size fs total_size :
  res (get_file_size env url fs) = Ret total_size →
  let k := size_on_disk fs dest_path in
  let evs := events (download_file env url dest_path chunk_size fs) in
  let start := match http_get env url (request_headers k) with
               | inr r => transfer_start k (status_code r)
               | inl _ => 0
               end in
  ∃ chunks,
    writes_of evs = (λ c, (dest_path, c)) <$> filter (λ c, c ≠ []) chunks
    ∧ progress_of evs =
        progress_of (chunk_events dest_path total_size chunks start)
    ∧ writes_and_reports evs =
        chunk_events dest_path total_size chunks start.
Proof.
  intros Hp k evs start. subst evs.
  assert (∀ tl,
            let pre := EvHead url
                       :: (if k >? 0 then [EvPrint (MsgResuming k)] else [])
                       ++ [EvGet url (request_headers k)] in
            writes_of (pre ++ tl) = writes_of tl
            ∧ progress_of (pre ++ tl) = progress_of tl
            ∧ writes_and_reports (pre ++ tl) = writes_and_reports tl)
    as Hpre.
  { intros tl. by destruct (k >? 0). }
  destruct (download_file_cases env url dest_path chunk_size fs)
    as [(e & Hp' & _) | [(t & _ & _ & ->) | [(t & e & _ & _ & ->)
       | (t & r & j & fin & Hp' & _ & Hg & _ & _ & _ & -> & Hfin)]]];
    fold k.
  - congruence.
  - by exists [].
  - exists []. destruct (isinstance_RequestException e); cbn [events].
    + destruct (Hpre [EvPrint (MsgDownloadError e)]) as (-> & -> & ->). done.
    + rewrite <- (app_nil_r (_ :: _)).
      destruct (Hpre []) as (-> & -> & ->). done.
  - assert (t = total_size) as -> by congruence.
    subst start. fold k in Hg. rewrite Hg.
    set (chunks := take j (iter_content r chunk_size).1).
    set (k0 := transfer_start k (status_code r)).
    exists chunks.
    destruct (Hpre (EvOpen dest_path (transfer_mode k (status_code r))
                    :: EvPbar total_size k0
                    :: chunk_events dest_path total_size chunks k0
                    ++ EvClose dest_path :: fin)) as (-> & -> & ->).
    assert (writes_of (EvClose dest_path :: fin) = []
            ∧ progress_of (EvClose dest_path :: fin) = []
            ∧ writes_and_reports (EvClose dest_path :: fin) = [])
      as (Hw & Hq & Hwr).
    { destruct Hfin as [(_ & _ & _ & ->) | [(e & _ & _ & ->) | (e & _ & _ & ->)]];
        done. }
    change (writes_of (EvOpen ?p ?m :: EvPbar ?a ?b :: ?l)) with (writes_of l).
    change (progress_of (EvOpen ?p ?m :: EvPbar ?a ?b :: ?l))
      with (progress_of l).
    change (writes_and_reports (EvOpen ?p ?m :: EvPbar ?a ?b :: ?l))
      with (writes_and_reports l).
    unfold writes_of, progress_of, writes_and_reports. rewrite !omap_app.
    fold writes_of progress_of writes_and_reports.
    fold (writes_of (EvClose dest_path :: fin)).
    fold (progress_of (EvClose dest_path :: fin)).
    fold (writes_and_reports (EvClose dest_path :: fin)).
    rewrite Hw, Hq, Hwr, !app_nil_r.
    by rewrite writes_of_chunk_events, writes_and_reports_chunk_events.
Qed.

(** ** A write that is refused *)

Section RefusedWrite.

Context (env : Env) (url : string) (dest_path : path) (chunk_size : Z).

(** The loop over chunks of which the first ones are written and the next
    one is refused: the exception of that write ends the loop, after the
    chunks before it. *)
Lemma write_chunks_refused total_size pre chunk rest n fs content e :
  fs !! dest_path = Some content →
  (∀ i c, pre !! i = Some c → c ≠ [] →
     write_error env dest_path (content ++ concat (take i pre)) c = None) →
  chunk ≠ [] →
  write_error env dest_path (content ++ concat pre) chunk = Some e →
  write_chunks env dest_path total_size (pre ++ chunk :: rest) n fs =
  mkOut (Exc e) (<[dest_path := content ++ concat pre]> fs)
        (chunk_events dest_path total_size pre n).
Proof.
  intros Hfs Hpre Hne Hw. revert n fs content Hfs Hpre Hw.
  induction pre as [|c pre IH]; intros n fs content Hfs Hpre Hw.
  - cbn [app write_chunks chunk_events concat].
    rewrite bool_decide_eq_true_2 by done.
    assert (f_write env dest_path chunk fs = mkOut (Exc e) fs []) as Hrun.
    { unfold f_write. rewrite Hfs. cbn [default id].
      cbn [concat] in Hw. rewrite app_nil_r in Hw. by rewrite Hw. }
    rewrite bind_run, Hrun. cbn [res fs_out events].
    by rewrite app_nil_r, insert_id.
  - cbn [app write_chunks chunk_events].
    case_bool_decide as Hc.
    + assert (f_write env dest_path c fs =
              mkOut (Ret tt) (<[dest_path := content ++ c]> fs)
                    [EvWrite dest_path c]) as Hrun.
      { unfold f_write. rewrite Hfs. cbn [default id].
        pose proof (Hpre 0%nat c eq_refl Hc) as H0.
        cbn [take concat] in H0. rewrite app_nil_r in H0. by rewrite H0. }
      rewrite (bind_run_ret _ _ _ _ _ _ Hrun).
      rewrite (bind_run_ret _ _ _ _ _ _
                 (pbar_update_run total_size n (len c) _)).
      rewrite (IH (n + len c) _ (content ++ c)).
      * cbn [res fs_out events app]. rewrite insert_insert_eq.
        cbn [concat]. by rewrite app_assoc.
      * apply lookup_insert_eq.
      * intros i c' Hi Hc'. rewrite <- app_assoc.
        apply (Hpre (S i) c' Hi Hc').
      * rewrite <- app_assoc. exact Hw.
    + assert (c = []) as -> by (by destruct c).
      apply IH; [done| |done].
      intros i c' Hi Hc'. apply (Hpre (S i) c' Hi Hc').
Qed.

Lemma try_block_write_refused total_size k fs r pre chunk rest broken e :
  http_get env url (request_headers k) = inr r →
  (400 <=? status_code r) && (status_code r <? 600) = false →
  open_error env dest_path (transfer_mode k (status_code r)) = None →
  iter_content r chunk_size = (pre ++ chunk :: rest, broken) →
  (∀ i c, pre !! i = Some c → c ≠ [] →
     write_error env dest_path
       (opened (transfer_mode k (status_code r)) (fs !! dest_path)
        ++ concat (take i pre)) c = None) →
  chunk ≠ [] →
  write_error env dest_path
    (opened (transfer_mode k (status_code r)) (fs !! dest_path) ++ concat pre)
    chunk = Some e →
  res (try_block env url dest_path chunk_size total_size k fs) = Exc e.
Proof.
  intros Hg Hs Ho Hst Hpre Hne Hw. unfold try_block.
  rewrite (bind_run_ret _ _ _ _ _ _ (requests_get_ok env url _ _ fs Hg)).
  rewrite (bind_run_ret _ _ _ _ _ _ (raise_for_status_ok r fs Hs)).
  cbn [res]. rewrite bind_run.
  rewrite (with_open_run _ _ _ _ fs Ho (transfer_mode_not_rb _ _)).
  cbn [res]. rewrite with_tqdm_run. cbn [res]. rewrite Hst.
  unfold for_iter_content. cbn [fst snd]. rewrite bind_run.
  rewrite (write_chunks_refused total_size pre chunk rest _ _
             (opened (transfer_mode k (status_code r)) (fs !! dest_path)) e
             (lookup_insert_eq _ _ _) Hpre Hne Hw).
  reflexivity.
Qed.

End RefusedWrite.

(** * The claims *)

(** ** A full response to a range request *)

(** C1: a range request was sent (the destination held [k > 0] bytes) and
    the server answers 200 with the full content: the progress baseline is
    reset to 0, the destination is opened with ['wb'] and not with ['ab'],
    and the file ends up as exactly the body of the response, whatever it
    held before. *)
Theorem C1_full_response_overwrites env url dest_path chunk_size fs old
    total_size r chunks :
  fs !! dest_path = Some old →
  0 < len old →
  res (get_file_size env url fs) = Ret total_size →
  len old < total_size ∨ total_size ≤ 0 →
  http_get env url (range_from (len old)) = inr r →
  status_code r = 200 →
  iter_content r chunk_size = (chunks, None) →
  open_error env dest_path wb = None →
  (∀ content chunk, write_error env dest_path content chunk = None) →
  download_file env url dest_path chunk_size fs =
  mkOut (Ret true)
        (<[dest_path := concat chunks]> fs)
        ([EvHead url; EvPrint (MsgResuming (len old));
          EvGet url (range_from (len old));
          EvOpen dest_path wb; EvPbar total_size 0]
         ++ chunk_events dest_path total_size chunks 0
         ++ [EvClose dest_path; EvPrint (MsgDownloadComplete dest_path)]).
Proof.
  intros Hfs Hk Hp Hnc Hg Hs Hst Ho Hw.
  assert (size_on_disk fs dest_path = len old) as Hsz
    by (unfold size_on_disk; by rewrite Hfs).
  assert ((len old >? 0) = true) as Hk' by (apply Z.gtb_lt; lia).
  pose proof (download_file_transfer_ok env url dest_path chunk_size fs
                total_size r chunks Hp) as H.
  rewrite Hsz in H. unfold request_headers, transfer_mode, transfer_start in H.
  rewrite Hk', Hs in H. simpl in H. apply H; try done.
  by apply complete_test_false.
Qed.

Lemma C1_witness :
  download_file env_ignores_range "http://host/data.bin" "data.bin" 8192
    fs_partial =
  mkOut (Ret true)
        (<["data.bin" := ascii_bytes "0123456789"]> fs_partial)
        [EvHead "http://host/data.bin"; EvPrint (MsgResuming 5);
         EvGet "http://host/data.bin" (range_from 5);
         EvOpen "data.bin" wb; EvPbar 10 0;
         EvWrite "data.bin" (ascii_bytes "01234"); EvProgress 5 10;
         EvWrite "data.bin" (ascii_bytes "56789"); EvProgress 10 10;
         EvClose "data.bin"; EvPrint (MsgDownloadComplete "data.bin")].
Proof.
  apply (C1_full_response_overwrites env_ignores_range "http://host/data.bin"
           "data.bin" 8192 fs_partial (ascii_bytes "abcde") 10
           (a_response 200 (Some "10")
              [ascii_bytes "01234"; ascii_bytes "56789"] None)
           [ascii_bytes "01234"; ascii_bytes "56789"]).
  - reflexivity.
  - reflexivity.
  - reflexivity.
  - left. reflexivity.
  - reflexivity.
  - reflexivity.
  - reflexivity.
  - reflexivity.
  - intros; reflexivity.
Defined.

(** ** Which errors come back as [False] *)

(** C2 as first stated fails: when [open] is refused, the [OSError] leaves
    [download_file] as an exception instead of coming back as [False]. *)
Lemma C2_counterexample :
  let o := download_file env_denied "http://host/data.bin" "data.bin" 8192 ∅ in
  res (get_file_size env_denied "http://host/data.bin" ∅) = Ret 10
  ∧ open_error env_denied "data.bin" wb = Some (OSError EACCES)
  ∧ res o = Exc (OSError EACCES)
  ∧ res o ≠ Ret false.
Proof. vm_compute. repeat split. discriminate. Qed.

(** C2, amended: once the size probe has returned, every exception of
    [requests] raised under [try:], be it by the GET request, by
    [raise_for_status] on a 4xx or 5xx status or while streaming, comes back
    as [False] with the cause printed last, and none leaves [download_file];
    [False] is returned in no other way.  An exception of the file system
    raised by [open] or by [write] is not caught: it leaves [download_file]
    as it is, whichever chunk of the stream the refused [write] is for. *)
Theorem C2_requests_errors_fail env url dest_path chunk_size fs total_size :
  res (get_file_size env url fs) = Ret total_size →
  let k := size_on_disk fs dest_path in
  let o := download_file env url dest_path chunk_size fs in
  (∀ e, res o = Exc e → isinstance_RequestException e = false)
  ∧ (res o = Ret false →
       ∃ e, isinstance_RequestException e = true
         ∧ last (events o) = Some (EvPrint (MsgDownloadError e)))
  ∧ (k < total_size ∨ total_size ≤ 0 →
       (∀ e fs' evs,
          try_block env url dest_path chunk_size total_size k fs
            = mkOut (Exc e) fs' evs →
          isinstance_RequestException e = true →
          res o = Ret false ∧ fs_out o = fs'
          ∧ last (events o) = Some (EvPrint (MsgDownloadError e)))
       ∧ (∀ e, http_get env url (request_headers k) = inl e →
            isinstance_RequestException e = true →
            res o = Ret false ∧ fs_out o = fs
            ∧ last (events o) = Some (EvPrint (MsgDownloadError e)))
       ∧ (∀ r, http_get env url (request_headers k) = inr r →
            400 ≤ status_code r < 600 →
            res o = Ret false ∧ fs_out o = fs
            ∧ last (events o) =
                Some (EvPrint (MsgDownloadError (HTTPError (status_code r)))))
       ∧ (∀ r e, http_get env url (request_headers k) = inr r →
            ¬ (400 ≤ status_code r < 600) →
            open_error env dest_path (transfer_mode k (status_code r)) = Some e →
            isinstance_RequestException e = false →
            res o = Exc e)
       ∧ (∀ r e pre chunk rest broken,
            http_get env url (request_headers k) = inr r →
            ¬ (400 ≤ status_code r < 600) →
            open_error env dest_path (transfer_mode k (status_code r)) = None →
            iter_content r chunk_size = (pre ++ chunk :: rest, broken) →
            (∀ i c, pre !! i = Some c → c ≠ [] →
               write_error env dest_path
                 (opened (transfer_mode k (status_code r)) (fs !! dest_path)
                  ++ concat (take i pre)) c = None) →
            chunk ≠ [] →
            write_error env dest_path
              (opened (transfer_mode k (status_code r)) (fs !! dest_path)
               ++ concat pre)
              chunk = Some e →
            isinstance_RequestException e = false →
            res o = Exc e)).
Proof.
  intros Hp k o.
  destruct ((k >=? total_size) && (total_size >? 0)) eqn:Hc.
  { (* the early return: no error at all *)
    subst o k.
    rewrite (download_file_complete_run env url dest_path chunk_size fs
               total_size Hp Hc).
    cbn [res]. split; [done|]. split; [done|].
    intros Hnc. apply complete_test_false in Hnc. congruence. }
  assert (o = let t := try_except
                         (try_block env url dest_path chunk_size total_size k)
                         isinstance_RequestException except_block fs in
              mkOut (res t) (fs_out t)
                (EvHead url
                 :: (if k >? 0 then [EvPrint (MsgResuming k)] else [])
                 ++ events t)) as Ho
    by (subst o k; by apply download_file_try_run).
  cbv zeta in Ho. rewrite Ho. cbn [res fs_out events]. clear Ho.
  assert (∀ e fs' ev,
            try_block env url dest_path chunk_size total_size k fs
              = mkOut (Exc e) fs' ev →
            isinstance_RequestException e = true →
            let t := try_except
                       (try_block env url dest_path chunk_size total_size k)
                       isinstance_RequestException except_block fs in
            res t = Ret false ∧ fs_out t = fs'
            ∧ last (EvHead url
                    :: (if k >? 0 then [EvPrint (MsgResuming k)] else [])
                    ++ events t) = Some (EvPrint (MsgDownloadError e)))
    as Hcaught.
  { intros e fs' ev Ht He t. subst t.
    rewrite (try_except_caught _ _ _ _ _ Ht He). cbn [res fs_out events].
    split; [done|]. split; [done|].
    by rewrite app_comm_cons, !app_assoc, last_snoc. }
  split; [|split; [|intros _; split; [|split; [|split; [|split]]]]].
  - apply try_except_exc_inv.
  - intros Hf.
    destruct (try_except_false_inv _ fs
                (try_block_ret_true env url dest_path chunk_size total_size k fs)
                Hf) as (e & tail & He & Hev).
    exists e. split; [done|].
    by rewrite Hev, app_comm_cons, !app_assoc, last_snoc.
  - exact Hcaught.
  - intros e Hg He.
    apply (Hcaught e fs _
             (try_block_get_exc env url dest_path chunk_size total_size k fs e Hg)
             He).
  - intros r Hg Hs.
    assert ((400 <=? status_code r) && (status_code r <? 600) = true) as Hs'
      by (apply andb_true_iff; rewrite Z.leb_le, Z.ltb_lt; lia).
    apply (Hcaught _ fs _
             (try_block_status_exc env url dest_path chunk_size total_size k
                fs r Hg Hs') eq_refl).
  - intros r e Hg Hs Hopen He.
    assert ((400 <=? status_code r) && (status_code r <? 600) = false) as Hs'
      by (apply andb_false_iff; rewrite Z.leb_gt, Z.ltb_ge; lia).
    by rewrite (try_except_uncaught _ _ _ _ _ _ _
                  (try_block_open_exc env url dest_path chunk_size total_size k
                     fs r e Hg Hs' Hopen) He).
  - intros r e pre chunk rest broken Hg Hs Hopen Hst Hpre Hne Hw He.
    assert ((400 <=? status_code r) && (status_code r <? 600) = false) as Hs'
      by (apply andb_false_iff; rewrite Z.leb_gt, Z.ltb_ge; lia).
    pose proof (try_block_write_refused env url dest_path chunk_size
                  total_size k fs r pre chunk rest broken e Hg Hs' Hopen Hst
                  Hpre Hne Hw) as Ht.
    unfold try_except. rewrite Ht, He. done.
Qed.

Lemma C2_witness :
  (let o := download_file env_offline "http://host/data.bin" "data.bin" 8192
              fs_prefix in
   res o = Ret false ∧ fs_out o = fs_prefix
   ∧ last (events o) =
       Some (EvPrint (MsgDownloadError
                        (ConnectionError "Network is unreachable"))))
  ∧ (let o := download_file env_not_found "http://host/data.bin" "data.bin"
                8192 fs_prefix in
     res o = Ret false ∧ fs_out o = fs_prefix
     ∧ last (events o) = Some (EvPrint (MsgDownloadError (HTTPError 404))))
  ∧ res (download_file env_denied "http://host/data.bin" "data.bin" 8192
           fs_prefix) = Exc (OSError EACCES)
  ∧ res (download_file env_disk_full "http://host/data.bin" "data.bin" 8192
           fs_prefix) = Exc (OSError ENOSPC)
  ∧ res (download_file env_disk_fills "http://host/data.bin" "data.bin" 8192
           fs_prefix) = Exc (OSError ENOSPC).
Proof.
  split; [|split; [|split; [|split]]].
  - destruct (C2_requests_errors_fail env_offline "http://host/data.bin"
                "data.bin" 8192 fs_prefix 10 eq_refl) as (_ & _ & H).
    destruct (H (or_introl eq_refl)) as (_ & Hget & _).
    exact (Hget (ConnectionError "Network is unreachable") eq_refl eq_refl).
  - destruct (C2_requests_errors_fail env_not_found "http://host/data.bin"
                "data.bin" 8192 fs_prefix 10 eq_refl) as (_ & _ & H).
    destruct (H (or_introl eq_refl)) as (_ & _ & Hstatus & _).
    exact (Hstatus (a_response 404 None [] None) eq_refl
             ltac:(simpl; lia)).
  - destruct (C2_requests_errors_fail env_denied "http://host/data.bin"
                "data.bin" 8192 fs_prefix 10 eq_refl) as (_ & _ & H).
    destruct (H (or_introl eq_refl)) as (_ & _ & _ & Hopen & _).
    exact (Hopen (a_response 200 (Some "10")
                    [ascii_bytes "01234"; ascii_bytes "56789"] None)
             (OSError EACCES) eq_refl ltac:(simpl; lia) eq_refl eq_refl).
  - destruct (C2_requests_errors_fail env_disk_full "http://host/data.bin"
                "data.bin" 8192 fs_prefix 10 eq_refl) as (_ & _ & H).
    destruct (H (or_introl eq_refl)) as (_ & _ & _ & _ & Hwrite).
    exact (Hwrite (a_response 206 (Some "5")
                     [ascii_bytes "56"; []; ascii_bytes "789"] None)
             (OSError ENOSPC) [] (ascii_bytes "56") [[]; ascii_bytes "789"]
             None eq_refl ltac:(simpl; lia) eq_refl eq_refl
             ltac:(intros i c Hi; discriminate) ltac:(discriminate)
             eq_refl eq_refl).
  - destruct (C2_requests_errors_fail env_disk_fills "http://host/data.bin"
                "data.bin" 8192 fs_prefix 10 eq_refl) as (_ & _ & H).
    destruct (H (or_introl eq_refl)) as (_ & _ & _ & _ & Hwrite).
    refine (Hwrite (a_response 206 (Some "5")
                      [ascii_bytes "56"; []; ascii_bytes "789"] None)
              (OSError ENOSPC) [ascii_bytes "56"; []] (ascii_bytes "789") []
              None eq_refl ltac:(simpl; lia) eq_refl eq_refl _
              ltac:(discriminate) eq_refl eq_refl).
    intros [|[|i]] c Hi Hc; [by injection Hi as <- | | discriminate].
    injection Hi as <-. by destruct Hc.
Defined.

(** ** Resuming *)

(** C3: the destination holds [k] bytes with [0 < k < total_size] and the
    server honours the range request (status 206, body of the
    [total_size - k] remaining bytes): the GET carries [Range: bytes=k-],
    the destination is opened with ['ab'], and after the transfer its first
    [k] bytes are the old content and its size is [total_size]. *)
Theorem C3_resume_appends env url dest_path chunk_size fs old total_size r
    chunks :
  fs !! dest_path = Some old →
  0 < len old →
  len old < total_size →
  res (get_file_size env url fs) = Ret total_size →
  http_get env url (range_from (len old)) = inr r →
  status_code r = 206 →
  iter_content r chunk_size = (chunks, None) →
  len (concat chunks) = total_size - len old →
  open_error env dest_path ab = None →
  (∀ content chunk, write_error env dest_path content chunk = None) →
  let o := download_file env url dest_path chunk_size fs in
  res o = Ret true
  ∧ events o =
      [EvHead url; EvPrint (MsgResuming (len old));
       EvGet url (range_from (len old));
       EvOpen dest_path ab; EvPbar total_size (len old)]
      ++ chunk_events dest_path total_size chunks (len old)
      ++ [EvClose dest_path; EvPrint (MsgDownloadComplete dest_path)]
  ∧ ∃ new, fs_out o !! dest_path = Some new
      ∧ take (length old) new = old
      ∧ drop (length old) new = concat chunks
      ∧ len new = total_size.
Proof.
  intros Hfs Hk Hlt Hp Hg Hs Hst Hlen Ho Hw o.
  assert (size_on_disk fs dest_path = len old) as Hsz
    by (unfold size_on_disk; by rewrite Hfs).
  assert ((len old >? 0) = true) as Hk' by (apply Z.gtb_lt; lia).
  pose proof (download_file_transfer_ok env url dest_path chunk_size fs
                total_size r chunks Hp) as H.
  rewrite Hsz in H. unfold request_headers, transfer_mode, transfer_start in H.
  rewrite Hk', Hs, Hfs in H. simpl in H.
  subst o. rewrite H; try done; [|apply complete_test_false; lia].
  simpl. split; [done|]. split; [done|].
  exists (old ++ concat chunks). rewrite lookup_insert_eq.
  split; [done|]. split; [by rewrite take_app_length|].
  split; [by rewrite drop_app_length|]. rewrite len_app. lia.
Qed.

Lemma C3_witness :
  let o := download_file env_ranges "http://host/data.bin" "data.bin" 8192
             fs_prefix in
  res o = Ret true
  ∧ events o =
      [EvHead "http://host/data.bin"; EvPrint (MsgResuming 5);
       EvGet "http://host/data.bin" (range_from 5);
       EvOpen "data.bin" ab; EvPbar 10 5;
       EvWrite "data.bin" (ascii_bytes "56"); EvProgress 7 10;
       EvWrite "data.bin" (ascii_bytes "789"); EvProgress 10 10;
       EvClose "data.bin"; EvPrint (MsgDownloadComplete "data.bin")]
  ∧ ∃ new, fs_out o !! "data.bin" = Some new
      ∧ take 5 new = ascii_bytes "01234"
      ∧ drop 5 new = ascii_bytes "56789"
      ∧ len new = 10.
Proof.
  refine (C3_resume_appends env_ranges "http://host/data.bin" "data.bin" 8192
            fs_prefix (ascii_bytes "01234") 10
            (a_response 206 (Some "5")
               [ascii_bytes "56"; []; ascii_bytes "789"] None)
            [ascii_bytes "56"; []; ascii_bytes "789"] _ _ _ _ _ _ _ _ _ _).
  - reflexivity.
  - reflexivity.
  - reflexivity.
  - reflexivity.
  - reflexivity.
  - reflexivity.
  - reflexivity.
  - reflexivity.
  - reflexivity.
  - intros; reflexivity.
Defined.

(** ** Nothing left to fetch *)

(** C4: when the destination exists with at least [total_size] bytes and
    [total_size > 0], [download_file] returns [True] at once: the only
    request is the HEAD probe, no GET is sent, the destination is neither
    opened nor written, and the file system is as it was. *)
Theorem C4_already_complete env url dest_path chunk_size fs content total_size :
  fs !! dest_path = Some content →
  res (get_file_size env url fs) = Ret total_size →
  total_size ≤ len content →
  0 < total_size →
  download_file env url dest_path chunk_size fs =
  mkOut (Ret true) fs [EvHead url; EvPrint (MsgAlreadyDownloaded dest_path)].
Proof.
  intros Hfs Hp Hle Hpos.
  apply (download_file_complete_run env url dest_path chunk_size fs total_size Hp).
  unfold size_on_disk. rewrite Hfs.
  apply andb_true_iff. split; [apply Z.geb_le | apply Z.gtb_lt]; lia.
Qed.

Lemma C4_witness :
  download_file env_ranges "http://host/data.bin" "data.bin" 8192 fs_full =
  mkOut (Ret true) fs_full
    [EvHead "http://host/data.bin"; EvPrint (MsgAlreadyDownloaded "data.bin")].
Proof.
  apply (C4_already_complete env_ranges _ _ _ _ (ascii_bytes "0123456789") 10).
  - reflexivity.
  - reflexivity.
  - vm_compute. discriminate.
  - lia.
Defined.

(** ** A stream that breaks *)

(** C5 as first stated fails: a resumed call whose range request the server
    answers with 200 reopens the destination with ['wb']; when the stream
    then breaks before its first chunk, [False] is returned and the five
    bytes that were on disk are gone, the file being left empty. *)
Lemma C5_counterexample :
  let o := download_file env_restarts_and_breaks "http://host/data.bin"
             "data.bin" 8192 fs_prefix in
  fs_prefix !! "data.bin" = Some (ascii_bytes "01234")
  ∧ http_get env_restarts_and_breaks "http://host/data.bin" (range_from 5)
    = inr (a_response 200 (Some "10") []
             (Some (ChunkedEncodingError "Connection broken")))
  ∧ res o = Ret false
  ∧ fs_out o !! "data.bin" = Some []
  ∧ last (events o) =
      Some (EvPrint (MsgDownloadError
                       (ChunkedEncodingError "Connection broken"))).
Proof. vm_compute. repeat split. Qed.

(** C5, amended: an exception of [requests] raised while the body is
    streamed, after the chunks [chunks] were received and written:
    [download_file] returns [False] right after closing the file and
    printing the cause, and the destination is still there, holding what
    [open] left of it followed by every byte written.  What [open] left is
    the old content when the response is a 206, and nothing when it is not:
    a full response to a resumed request starts the file again. *)
Theorem C5_stream_error_keeps_partial env url dest_path chunk_size fs
    total_size r chunks e :
  let k := size_on_disk fs dest_path in
  res (get_file_size env url fs) = Ret total_size →
  k < total_size ∨ total_size ≤ 0 →
  http_get env url (request_headers k) = inr r →
  ¬ (400 ≤ status_code r < 600) →
  iter_content r chunk_size = (chunks, Some e) →
  isinstance_RequestException e = true →
  open_error env dest_path (transfer_mode k (status_code r)) = None →
  (∀ content chunk, write_error env dest_path content chunk = None) →
  let o := download_file env url dest_path chunk_size fs in
  res o = Ret false
  ∧ (∃ before, events o =
       before
       ++ chunk_events dest_path total_size chunks
            (transfer_start k (status_code r))
       ++ [EvClose dest_path; EvPrint (MsgDownloadError e)])
  ∧ fs_out o !! dest_path =
      Some (opened (transfer_mode k (status_code r)) (fs !! dest_path)
            ++ concat chunks)
  ∧ (∀ old, fs !! dest_path = Some old → status_code r = 206 →
       fs_out o !! dest_path = Some (old ++ concat chunks))
  ∧ (status_code r ≠ 206 → fs_out o !! dest_path = Some (concat chunks)).
Proof.
  intros k Hp Hnc Hg Hs Hst He Ho Hw o.
  assert ((400 <=? status_code r) && (status_code r <? 600) = false) as Hs'
    by (apply andb_false_iff; rewrite Z.leb_gt, Z.ltb_ge; lia).
  subst o.
  rewrite (download_file_transfer_broken env url dest_path chunk_size fs
             total_size r chunks e Hp (complete_test_false _ _ Hnc)
             Hg Hs' Ho Hw Hst He).
  cbn [res events fs_out]. split; [done|]. split.
  - exists (EvHead url :: (if k >? 0 then [EvPrint (MsgResuming k)] else [])
            ++ [EvGet url (request_headers k);
                EvOpen dest_path (transfer_mode k (status_code r));
                EvPbar total_size (transfer_start k (status_code r))]).
    rewrite <- app_comm_cons, <- app_assoc. reflexivity.
  - rewrite lookup_insert_eq. split; [done|]. split.
    + intros old Hfs H206. do 2 f_equal. fold k.
      unfold transfer_mode. rewrite H206. simpl.
      destruct (k >? 0) eqn:Ek; rewrite Hfs; simpl; [done|].
      subst k. unfold size_on_disk in Ek. rewrite Hfs in Ek.
      destruct old; [done|]. unfold len in Ek. simpl length in Ek.
      rewrite Z.gtb_ltb in Ek. apply Z.ltb_ge in Ek. lia.
    + intros Hn. do 2 f_equal. fold k. unfold transfer_mode.
      apply Z.eqb_neq in Hn. by rewrite Hn.
Qed.

Lemma C5_witness :
  let o := download_file env_breaks "http://host/data.bin" "data.bin" 8192
             fs_prefix in
  res o = Ret false
  ∧ (∃ before, events o =
       before
       ++ [EvWrite "data.bin" (ascii_bytes "56"); EvProgress 7 10]
       ++ [EvClose "data.bin";
           EvPrint (MsgDownloadError (ChunkedEncodingError "Connection broken"))])
  ∧ fs_out o !! "data.bin" = Some (ascii_bytes "0123456")
  ∧ fs_out o !! "data.bin" = Some (ascii_bytes "01234" ++ ascii_bytes "56").
Proof.
  destruct (C5_stream_error_keeps_partial env_breaks "http://host/data.bin"
              "data.bin" 8192 fs_prefix 10
              (a_response 206 (Some "5") [ascii_bytes "56"]
                 (Some (ChunkedEncodingError "Connection broken")))
              [ascii_bytes "56"] (ChunkedEncodingError "Connection broken")
              eq_refl (or_introl eq_refl) eq_refl ltac:(simpl; lia) eq_refl
              eq_refl eq_refl (λ _ _, eq_refl))
    as (Hres & Hev & Hfile & Hold & _).
  exact (conj Hres (conj Hev (conj Hfile
           (Hold (ascii_bytes "01234") eq_refl eq_refl)))).
Defined.

(** ** The checksum *)

(** C6: for a file that is there and may be read, and a chunk size that is
    positive (or -1, which reads the file at once), [calculate_sha256]
    returns the SHA-256 digest of the whole content of the file as 64
    lower-case hexadecimal digits, whatever the chunk size, as soon as the
    fuel exceeds the length of the file; it leaves the file system as it
    was, so that a second call returns the same text; for an empty file the
    text is the digest of the empty message. *)
Theorem C6_calculate_sha256 env fuel file_path chunk_size fs content :
  fs !! file_path = Some content →
  open_error env file_path rb = None →
  chunk_size = -1 ∨ 0 < chunk_size →
  (length content < fuel)%nat →
  let o := calculate_sha256 env fuel file_path chunk_size fs in
  res o = Ret (Some (SHA256.hex (SHA256.sha256 content)))
  ∧ fs_out o = fs
  ∧ res (calculate_sha256 env fuel file_path chunk_size (fs_out o)) = res o
  ∧ String.length (SHA256.hex (SHA256.sha256 content)) = 64%nat
  ∧ string_forall is_lower_hex (SHA256.hex (SHA256.sha256 content)) = true
  ∧ (content = [] →
     res o = Ret (Some
       "e3b0c44298fc1c149afbf4c8996fb92427ae41e4649b934ca495991b7852b855")).
Proof.
  intros Hfs Ho Hcs Hfuel o.
  assert (calculate_sha256 env fuel file_path chunk_size fs =
          mkOut (Ret (Some (SHA256.hex (SHA256.sha256 content)))) fs
                (events (calculate_sha256 env fuel file_path chunk_size fs)))
    as Hrun.
  { unfold calculate_sha256, with_open_rb. rewrite !bind_run.
    unfold py_open. rewrite Ho, Hfs. cbn [res events fs_out].
    rewrite Hfs. cbn [default id]. unfold finally.
    cbn [res events fs_out emit]. rewrite !bind_run.
    unfold stat_st_size. rewrite Hfs. cbn [res events fs_out].
    unfold with_tqdm. rewrite !bind_run. cbn [res events fs_out emit].
    destruct (hash_chunks_run fuel chunk_size (len content) content SHA256.new
                0 fs [] Hcs Hfuel fed_new) as (h' & evs & -> & Hfed).
    cbn [res events fs_out mret M_ret fmap option_fmap option_map].
    unfold SHA256.hexdigest. by rewrite (fed_digest h' _ Hfed). }
  subst o. rewrite Hrun. cbn [res fs_out].
  split; [done|]. split; [done|]. split; [by rewrite Hrun|].
  split; [by rewrite length_hex, length_sha256|].
  split; [apply hex_lower|].
  intros ->. vm_compute. reflexivity.
Qed.

Lemma C6_witness :
  (let o := calculate_sha256 env_offline 4 "abc.txt" 2 fs_two_files in
   res o = Ret (Some (SHA256.hex (SHA256.sha256 (ascii_bytes "abc"))))
   ∧ fs_out o = fs_two_files
   ∧ res (calculate_sha256 env_offline 4 "abc.txt" 2 (fs_out o)) = res o)
  ∧ res (calculate_sha256 env_offline 1 "empty.bin" 8192 fs_two_files) =
      Ret (Some
        "e3b0c44298fc1c149afbf4c8996fb92427ae41e4649b934ca495991b7852b855").
Proof.
  split.
  - destruct (C6_calculate_sha256 env_offline 4 "abc.txt" 2 fs_two_files
                (ascii_bytes "abc") eq_refl eq_refl (or_intror eq_refl)
                ltac:(vm_compute; lia))
      as (Hres & Hfs & Hagain & _).
    exact (conj Hres (conj Hfs Hagain)).
  - destruct (C6_calculate_sha256 env_offline 1 "empty.bin" 8192 fs_two_files
                [] eq_refl eq_refl (or_intror eq_refl) ltac:(vm_compute; lia))
      as (_ & _ & _ & _ & _ & Hempty).
    exact (Hempty eq_refl).
Defined.

(** ** A fresh download *)

(** C7: the destination does not exist: the GET request carries no [Range]
    header; when it succeeds, the destination is opened with ['wb'] and the
    progress bar starts at 0; and when the server then delivers the
    [total_size] bytes it declared, whether with status 200 or 206, the file
    ends up holding exactly those bytes, so its size is [total_size]. *)
Theorem C7_fresh_download env url dest_path chunk_size fs total_size :
  fs !! dest_path = None →
  res (get_file_size env url fs) = Ret total_size →
  let o := download_file env url dest_path chunk_size fs in
  (∃ rest, events o = EvHead url :: EvGet url ∅ :: rest)
  ∧ (∀ r, http_get env url ∅ = inr r →
       ¬ (400 ≤ status_code r < 600) →
       open_error env dest_path wb = None →
       (∃ rest, events o =
          EvHead url :: EvGet url ∅ :: EvOpen dest_path wb
          :: EvPbar total_size 0 :: rest)
       ∧ (∀ chunks,
            iter_content r chunk_size = (chunks, None) →
            len (concat chunks) = total_size →
            (∀ content chunk, write_error env dest_path content chunk = None) →
            res o = Ret true
            ∧ events o =
                [EvHead url; EvGet url ∅; EvOpen dest_path wb;
                 EvPbar total_size 0]
                ++ chunk_events dest_path total_size chunks 0
                ++ [EvClose dest_path; EvPrint (MsgDownloadComplete dest_path)]
            ∧ ∃ new, fs_out o !! dest_path = Some new
                ∧ new = concat chunks
                ∧ len new = total_size)).
Proof.
  intros Hfs Hp o.
  assert (size_on_disk fs dest_path = 0) as Hsz
    by (unfold size_on_disk; by rewrite Hfs).
  assert ((size_on_disk fs dest_path >=? total_size) && (total_size >? 0)
          = false) as Hc by (apply complete_test_false; lia).
  assert (∀ st, transfer_mode 0 st = wb) as Hm
    by (intros st; unfold transfer_mode; by destruct (st =? 206)).
  assert (∀ st, transfer_start 0 st = 0) as Hk0
    by (intros st; unfold transfer_start; by destruct (st =? 206)).
  split.
  - subst o.
    rewrite (download_file_try_run env url dest_path chunk_size fs total_size
               Hp Hc).
    rewrite Hsz. cbn [events app].
    destruct (try_except_events
                (try_block env url dest_path chunk_size total_size 0)
                isinstance_RequestException except_block fs) as [tail ->].
    destruct (try_block_sends_get env url dest_path chunk_size total_size 0 fs)
      as [rest ->].
    by eexists.
  - intros r Hg Hs Ho.
    assert ((400 <=? status_code r) && (status_code r <? 600) = false) as Hs'
      by (apply andb_false_iff; rewrite Z.leb_gt, Z.ltb_ge; lia).
    split.
    + subst o.
      rewrite (download_file_try_run env url dest_path chunk_size fs total_size
                 Hp Hc).
      rewrite Hsz. cbn [events app].
      destruct (try_except_events
                  (try_block env url dest_path chunk_size total_size 0)
                  isinstance_RequestException except_block fs) as [tail ->].
      destruct (try_block_opens env url dest_path chunk_size total_size 0 fs r
                  Hg Hs') as [rest Hr]; [by rewrite Hm|].
      rewrite Hr, Hm, Hk0. by eexists.
    + intros chunks Hst Hlen Hw.
      pose proof (download_file_transfer_ok env url dest_path chunk_size fs
                    total_size r chunks Hp Hc) as H.
      cbv zeta in H. rewrite Hsz in H. rewrite !Hm, !Hk0, Hfs in H. subst o.
      rewrite (H Hg Hs' Ho Hw Hst). cbn [res events fs_out opened app].
      split; [done|]. split; [done|].
      exists (concat chunks). by rewrite lookup_insert_eq.
Qed.

Lemma C7_witness :
  let o := download_file env_ranges "http://host/data.bin" "data.bin" 8192
             fs_empty in
  res o = Ret true
  ∧ events o =
      [EvHead "http://host/data.bin"; EvGet "http://host/data.bin" ∅;
       EvOpen "data.bin" wb; EvPbar 10 0;
       EvWrite "data.bin" (ascii_bytes "01234"); EvProgress 5 10;
       EvWrite "data.bin" (ascii_bytes "56789"); EvProgress 10 10;
       EvClose "data.bin"; EvPrint (MsgDownloadComplete "data.bin")]
  ∧ ∃ new, fs_out o !! "data.bin" = Some new
      ∧ new = ascii_bytes "0123456789"
      ∧ len new = 10.
Proof.
  destruct (C7_fresh_download env_ranges "http://host/data.bin" "data.bin"
              8192 fs_empty 10 eq_refl eq_refl) as (_ & H).
  destruct (H (a_response 200 (Some "10")
                 [ascii_bytes "01234"; ascii_bytes "56789"] None)
              eq_refl ltac:(simpl; lia) eq_refl) as (_ & Hdone).
  exact (Hdone [ascii_bytes "01234"; ascii_bytes "56789"] eq_refl eq_refl
           (λ _ _, eq_refl)).
Defined.

(** ** The size probe *)

(** C8: [get_file_size] sends one HEAD request for the URL and touches
    nothing else; when the response carries no [content-length] header it
    returns 0, and when the header holds the decimal text of an integer, of
    no more characters than [int] accepts digits, it returns that integer. *)
Theorem C8_get_file_size env url fs r :
  http_head env url = inr r →
  let o := get_file_size env url fs in
  events o = [EvHead url]
  ∧ fs_out o = fs
  ∧ (headers r !! "content-length" = None → res o = Ret 0)
  ∧ (∀ n, headers r !! "content-length" = Some (py_str n) →
          (String.length (py_str n) ≤ int_max_str_digits)%nat →
          res o = Ret n).
Proof.
  intros Hh o. subst o. rewrite get_file_size_run. cbn [res events fs_out].
  split; [done|]. split; [done|].
  unfold get_file_size. rewrite bind_run. unfold requests_head. rewrite Hh.
  cbn [res events fs_out]. unfold headers_get.
  change (str_lower "content-length") with "content-length".
  split.
  - intros ->. reflexivity.
  - intros n -> Hlen. unfold py_int. by rewrite int_of_str_py_str.
Qed.

Lemma C8_witness :
  (let o := get_file_size env_ranges "http://host/data.bin" fs_prefix in
   events o = [EvHead "http://host/data.bin"] ∧ fs_out o = fs_prefix
   ∧ res o = Ret 10)
  ∧ (let o := get_file_size env_no_length "http://host/data.bin" fs_prefix in
     events o = [EvHead "http://host/data.bin"] ∧ fs_out o = fs_prefix
     ∧ res o = Ret 0).
Proof.
  split.
  - destruct (C8_get_file_size env_ranges "http://host/data.bin" fs_prefix
                (a_response 200 (Some "10") [] None) eq_refl)
      as (Hev & Hfs & _ & Hn).
    exact (conj Hev (conj Hfs (Hn 10 eq_refl ltac:(vm_compute; lia)))).
  - destruct (C8_get_file_size env_no_length "http://host/data.bin" fs_prefix
                (a_response 200 None [] None) eq_refl)
      as (Hev & Hfs & H0 & _).
    exact (conj Hev (conj Hfs (H0 eq_refl))).
Defined.

(** ** Progress reports *)

(** C9: in every run of [download_file] past a successful probe, each
    written chunk is followed by one report of the cumulative count, which
    is the baseline of the bar plus the bytes written so far: the counts
    never decrease, and each report carries [total_size] as the total, 0
    included. *)
Theorem C9_progress_monotone env url dest_path chunk_size fs total_size :
  res (get_file_size env url fs) = Ret total_size →
  let k := size_on_disk fs dest_path in
  let evs := events (download_file env url dest_path chunk_size fs) in
  let ps := progress_of evs in
  let written := (writes_of evs).*2 in
  let start := match http_get env url (request_headers k) with
               | inr r => transfer_start k (status_code r)
               | inl _ => 0
               end in
  StronglySorted Z.le ps.*1
  ∧ Forall (λ p, p.2 = total_size) ps
  ∧ writes_and_reports evs = chunk_events dest_path total_size written start
  ∧ Forall (λ chunk, chunk ≠ []) written
  ∧ length ps = length written
  ∧ (∀ (i : nat) n, ps.*1 !! i = Some n →
       n = start + len (concat (take (S i) written))).
Proof.
  intros Hp.
  assert (let ps := progress_of
                      (events (download_file env url dest_path chunk_size fs)) in
          StronglySorted Z.le ps.*1 ∧ Forall (λ p, p.2 = total_size) ps)
    as [Hsorted Htotal].
  { cbv zeta.

  destruct ((size_on_disk fs dest_path >=? total_size) && (total_size >? 0))
    eqn:Hc.
  { rewrite (download_file_complete_run env url dest_path chunk_size fs
               total_size Hp Hc).
    cbn. split; [apply SSorted_nil | apply Forall_nil_2]. }
  rewrite (download_file_try_run env url dest_path chunk_size fs total_size Hp Hc).
  cbn [events]. 
  set (k := size_on_disk fs dest_path).
  assert (progress_of
            (EvHead url :: (if k >? 0 then [EvPrint (MsgResuming k)] else [])
             ++ events (try_except
                          (try_block env url dest_path chunk_size total_size k)
                          isinstance_RequestException except_block fs))
          = progress_of
              (events (try_block env url dest_path chunk_size total_size k fs)))
    as ->.
  { change (EvHead url :: ?l) with ([EvHead url] ++ l).
    rewrite !progress_of_app.
    assert (progress_of (if k >? 0 then [EvPrint (MsgResuming k)] else []) = [])
      as -> by (by destruct (k >? 0)).
    unfold try_except.
    destruct (res (try_block _ _ _ _ _ _ _)) as [b|e]; [done|].
    destruct (isinstance_RequestException e); [|done].
    cbn [events]. rewrite progress_of_app. cbn. by rewrite app_nil_r. }
  apply (try_block_progress env url dest_path chunk_size
           (λ ps, StronglySorted Z.le ps.*1 ∧ Forall (λ p, p.2 = total_size) ps)).
  { split; [apply SSorted_nil | apply Forall_nil_2]. }
  intros chunks n fs'.
  destruct (write_chunks_progress env dest_path total_size chunks n fs')
    as [H1 H2].
  split; [done|]. eapply Forall_impl; [exact H1|]. cbn. tauto. }
  intros k evs ps written start.
  split; [exact Hsorted|]. split; [exact Htotal|].
  destruct (download_file_loop_events env url dest_path chunk_size fs
              total_size Hp) as (chunks & Hw & Hq & Hwr).
  fold k evs start in Hw, Hq, Hwr.
  assert (written = filter (λ c, c ≠ []) chunks) as Hwritten.
  { subst written. rewrite Hw, <- list_fmap_compose. apply list_fmap_id. }
  assert (Forall (λ c : bytes, c ≠ []) written) as Hne.
  { rewrite Hwritten. apply Forall_forall. intros c Hc.
    by apply list_elem_of_filter in Hc as [Hc _]. }
  assert (ps = progress_of (chunk_events dest_path total_size written start))
    as Hps.
  { subst ps. by rewrite Hq, Hwritten, chunk_events_filter. }
  destruct (progress_of_written dest_path total_size written start Hne)
    as [Hlen Hat].
  split; [by rewrite Hwr, Hwritten, chunk_events_filter|].
  split; [exact Hne|]. rewrite Hps. split; [exact Hlen | exact Hat].
Qed.

Lemma C9_witness :
  let evs := events (download_file env_ranges "http://host/data.bin"
                       "data.bin" 8192 fs_prefix) in
  let ps := progress_of evs in
  let written := (writes_of evs).*2 in
  StronglySorted Z.le ps.*1
  ∧ Forall (λ p, p.2 = 10) ps
  ∧ writes_and_reports evs = chunk_events "data.bin" 10 written 5
  ∧ Forall (λ chunk, chunk ≠ []) written
  ∧ length ps = length written
  ∧ (∀ (i : nat) n, ps.*1 !! i = Some n →
       n = 5 + len (concat (take (S i) written))).
Proof.
  exact (C9_progress_monotone env_ranges "http://host/data.bin" "data.bin"
           8192 fs_prefix 10 eq_refl).
Defined.

(** ** Unknown size and a file already there *)

(** C10 as first stated fails: with an unknown size and a non-empty
    destination, a server that ignores the [Range] header makes
    [download_file] open the destination with ['wb'], not with ['ab']. *)
Lemma C10_counterexample :
  let o := download_file env_no_length "http://host/data.bin" "data.bin" 8192
             fs_partial in
  res (get_file_size env_no_length "http://host/data.bin" fs_partial) = Ret 0
  ∧ size_on_disk fs_partial "data.bin" = 5
  ∧ res o = Ret true
  ∧ opened_with (events o) = [("data.bin", wb)]
  ∧ fs_out o !! "data.bin" = Some (ascii_bytes "0123456789").
Proof. vm_compute. repeat split. Qed.

(** C10, amended: the probe yields [total_size = 0] and the destination
    holds [k > 0] bytes: [download_file] does not return early; it prints
    that it resumes and sends a GET with [Range: bytes=k-]; when the request
    succeeds, the destination is opened with ['ab'] and the bar starts at
    [k] if the server answers 206, and it is opened with ['wb'] and the bar
    starts at 0 if it answers with another success status. *)
Theorem C10_unknown_size_resumes env url dest_path chunk_size fs old :
  fs !! dest_path = Some old →
  0 < len old →
  res (get_file_size env url fs) = Ret 0 →
  let k := len old in
  let o := download_file env url dest_path chunk_size fs in
  (∃ rest, events o =
     EvHead url :: EvPrint (MsgResuming k) :: EvGet url (range_from k) :: rest)
  ∧ (∀ r, http_get env url (range_from k) = inr r →
       ¬ (400 ≤ status_code r < 600) →
       open_error env dest_path (if status_code r =? 206 then ab else wb)
         = None →
       ∃ rest, events o =
         EvHead url :: EvPrint (MsgResuming k) :: EvGet url (range_from k)
         :: EvOpen dest_path (if status_code r =? 206 then ab else wb)
         :: EvPbar 0 (if status_code r =? 206 then k else 0) :: rest).
Proof.
  intros Hfs Hk Hp k o.
  assert (size_on_disk fs dest_path = k) as Hsz
    by (unfold size_on_disk; by rewrite Hfs).
  assert ((k >? 0) = true) as Hk' by (apply Z.gtb_lt; subst k; lia).
  assert ((size_on_disk fs dest_path >=? 0) && (0 >? 0) = false) as Hc
    by (apply complete_test_false; lia).
  subst o. rewrite (download_file_try_run env url dest_path chunk_size fs 0 Hp Hc).
  rewrite Hsz, Hk'. cbn [events app].
  destruct (try_except_events
              (try_block env url dest_path chunk_size 0 k)
              isinstance_RequestException except_block fs) as [tail Ht].
  rewrite Ht. split.
  - destruct (try_block_sends_get env url dest_path chunk_size 0 k fs)
      as [rest Hr].
    rewrite Hr. unfold request_headers. rewrite Hk'. by eexists.
  - intros r Hg Hs Ho.
    assert ((400 <=? status_code r) && (status_code r <? 600) = false) as Hs'
      by (apply andb_false_iff; rewrite Z.leb_gt, Z.ltb_ge; lia).
    destruct (try_block_opens env url dest_path chunk_size 0 k fs r)
      as [rest Hr].
    + unfold request_headers. by rewrite Hk'.
    + done.
    + unfold transfer_mode. by rewrite Hk'.
    + rewrite Hr. unfold request_headers, transfer_mode, transfer_start.
      rewrite Hk'. by eexists.
Qed.

Lemma C10_witness :
  (∃ rest,
     events (download_file env_no_length "http://host/data.bin" "data.bin"
               8192 fs_partial) =
     EvHead "http://host/data.bin" :: EvPrint (MsgResuming 5)
     :: EvGet "http://host/data.bin" (range_from 5)
     :: EvOpen "data.bin" wb :: EvPbar 0 0 :: rest)
  ∧ (∃ rest,
       events (download_file env_no_length_ranges "http://host/data.bin"
                 "data.bin" 8192 fs_partial) =
       EvHead "http://host/data.bin" :: EvPrint (MsgResuming 5)
       :: EvGet "http://host/data.bin" (range_from 5)
       :: EvOpen "data.bin" ab :: EvPbar 0 5 :: rest).
Proof.
  split.
  - exact (proj2 (C10_unknown_size_resumes env_no_length
                    "http://host/data.bin" "data.bin" 8192 fs_partial
                    (ascii_bytes "abcde") eq_refl eq_refl eq_refl)
             (a_response 200 None
                [ascii_bytes "01234"; ascii_bytes "56789"] None)
             eq_refl ltac:(simpl; lia) eq_refl).
  - exact (proj2 (C10_unknown_size_resumes env_no_length_ranges
                    "http://host/data.bin" "data.bin" 8192 fs_partial
                    (ascii_bytes "abcde") eq_refl eq_refl eq_refl)
             (a_response 206 None [ascii_bytes "56789"] None)
             eq_refl ltac:(simpl; lia) eq_refl).
Defined.

(** * Beyond the claims *)

(** ** [download_file] on every path *)

(** An exception of the size probe is not caught: [get_file_size] is called
    before the [try] statement, so a HEAD request that fails, or a
    [content-length] header that [int] refuses, leaves [download_file] as an
    exception right after the HEAD request, before anything is printed,
    requested or written. *)
Theorem download_file_probe_error env url dest_path chunk_size fs :
  let o := download_file env url dest_path chunk_size fs in
  (∀ e, http_head env url = inl e → o = mkOut (Exc e) fs [EvHead url])
  ∧ (∀ r s, http_head env url = inr r →
       headers r !! "content-length" = Some s →
       int_of_str s = None →
       o = mkOut (Exc (ValueError s)) fs [EvHead url]).
Proof.
  intros o. split.
  - intros e Hh. apply download_file_probe_exc.
    unfold get_file_size. rewrite bind_run. unfold requests_head.
    by rewrite Hh.
  - intros r s Hh Hs Hi. apply download_file_probe_exc.
    unfold get_file_size. rewrite bind_run. unfold requests_head.
    rewrite Hh. cbn [res events fs_out]. unfold headers_get.
    change (str_lower "content-length") with "content-length".
    rewrite Hs. unfold py_int. by rewrite Hi.
Qed.

Lemma download_file_probe_error_witness :
  download_file env_head_down "http://host/data.bin" "data.bin" 8192 fs_prefix
  = mkOut (Exc (ConnectionError "Network is unreachable")) fs_prefix
      [EvHead "http://host/data.bin"]
  ∧ download_file env_bad_length "http://host/data.bin" "data.bin" 8192
      fs_prefix
    = mkOut (Exc (ValueError "ten")) fs_prefix [EvHead "http://host/data.bin"].
Proof.
  split.
  - exact (proj1 (download_file_probe_error env_head_down
                    "http://host/data.bin" "data.bin" 8192 fs_prefix)
             (ConnectionError "Network is unreachable") eq_refl).
  - exact (proj2 (download_file_probe_error env_bad_length
                    "http://host/data.bin" "data.bin" 8192 fs_prefix)
             (a_response 200 (Some "ten") [] None) "ten"
             eq_refl eq_refl eq_refl).
Defined.

Lemma download_file_other_files env url dest_path chunk_size fs p :
  p ≠ dest_path →
  fs_out (download_file env url dest_path chunk_size fs) !! p = fs !! p.
Proof.
  intros Hp.
  destruct (download_file_cases env url dest_path chunk_size fs)
    as [(e & _ & ->) | [(t & _ & _ & ->) | [(t & e & _ & _ & ->)
       | (t & r & j & fin & _ & _ & _ & _ & _ & -> & _)]]];
    try done.
  - by destruct (isinstance_RequestException e).
  - by rewrite lookup_insert_ne.
Qed.

(** Whatever the server and the operating system do, [download_file] leaves
    every file other than the destination as it was. *)
Theorem download_file_frame env url dest_path chunk_size fs p :
  p ≠ dest_path →
  fs_out (download_file env url dest_path chunk_size fs) !! p = fs !! p.
Proof. exact (download_file_other_files env url dest_path chunk_size fs p). Qed.

Lemma download_file_frame_witness :
  fs_out (download_file env_ranges "http://host/data.bin" "data.bin" 8192
            fs_with_neighbour) !! "notes.txt"
  = fs_with_neighbour !! "notes.txt".
Proof.
  refine (download_file_frame env_ranges "http://host/data.bin" "data.bin"
            8192 fs_with_neighbour "notes.txt" _).
  discriminate.
Defined.

Lemma requests_of_download_file env url dest_path chunk_size fs :
  let k := size_on_disk fs dest_path in
  requests_of (events (download_file env url dest_path chunk_size fs)) =
  EvHead url
  :: match res (get_file_size env url fs) with
     | Ret total_size =>
         if (k >=? total_size) && (total_size >? 0) then []
         else [EvGet url (request_headers k)]
     | Exc _ => []
     end.
Proof.
  intros k.
  assert (∀ tl, requests_of
                  ((EvHead url
                    :: (if k >? 0 then [EvPrint (MsgResuming k)] else [])
                    ++ [EvGet url (request_headers k)]) ++ tl)
                = EvHead url :: EvGet url (request_headers k) :: requests_of tl)
    as Hpre.
  { intros tl. by destruct (k >? 0). }
  destruct (download_file_cases env url dest_path chunk_size fs)
    as [(e & -> & ->) | [(t & -> & Hc & ->) | [(t & e & -> & Hc & ->)
       | (t & r & j & fin & -> & Hc & _ & _ & _ & _ & -> & Hfin)]]].
  - done.
  - fold k in Hc. by rewrite Hc.
  - fold k in Hc |- *. rewrite Hc.
    destruct (isinstance_RequestException e); cbn [events].
    + by rewrite Hpre.
    + rewrite <- (app_nil_r (_ :: _)). by rewrite Hpre.
  - fold k in Hc |- *. rewrite Hc, Hpre. do 2 f_equal.
    unfold requests_of at 1. cbn [omap list_omap]. fold requests_of.
    unfold requests_of. rewrite omap_app. fold requests_of.
    rewrite requests_of_chunk_events. cbn [app omap list_omap].
    destruct Hfin as [(_ & _ & _ & ->) | [(e & _ & _ & ->) | (e & _ & _ & ->)]];
      done.
Qed.

(** [download_file] never retries: whatever happens, a call sends the HEAD
    request and then at most one GET request, which is sent exactly when the
    probe returned and the file is not already complete, with the [Range]
    header exactly when the destination is not empty. *)
Theorem download_file_requests env url dest_path chunk_size fs :
  let k := size_on_disk fs dest_path in
  requests_of (events (download_file env url dest_path chunk_size fs)) =
  EvHead url
  :: match res (get_file_size env url fs) with
     | Ret total_size =>
         if (k >=? total_size) && (total_size >? 0) then []
         else [EvGet url (request_headers k)]
     | Exc _ => []
     end.
Proof. exact (requests_of_download_file env url dest_path chunk_size fs). Qed.

Lemma handles_of_download_file env url dest_path chunk_size fs :
  let hs := handles_of (events (download_file env url dest_path chunk_size fs)) in
  hs = []
  ∨ ∃ m, m ≠ rb ∧ hs = [EvOpen dest_path m; EvClose dest_path].
Proof.
  intros hs. subst hs.
  set (k := size_on_disk fs dest_path).
  assert (∀ tl, handles_of
                  ((EvHead url
                    :: (if k >? 0 then [EvPrint (MsgResuming k)] else [])
                    ++ [EvGet url (request_headers k)]) ++ tl)
                = handles_of tl) as Hpre.
  { intros tl. by destruct (k >? 0). }
  destruct (download_file_cases env url dest_path chunk_size fs)
    as [(e & _ & ->) | [(t & _ & _ & ->) | [(t & e & _ & _ & ->)
       | (t & r & j & fin & _ & _ & _ & _ & _ & _ & -> & Hfin)]]];
    fold k.
  - by left.
  - by left.
  - left. destruct (isinstance_RequestException e); cbn [events].
    + by rewrite Hpre.
    + rewrite <- (app_nil_r (_ :: _)). by rewrite Hpre.
  - right. exists (transfer_mode k (status_code r)).
    split; [apply transfer_mode_not_rb|]. rewrite Hpre.
    unfold handles_of at 1. cbn [omap list_omap]. fold handles_of.
    f_equal. unfold handles_of. rewrite omap_app. fold handles_of.
    rewrite handles_of_chunk_events. cbn [app omap list_omap].
    destruct Hfin as [(_ & _ & _ & ->) | [(e & _ & _ & ->) | (e & _ & _ & ->)]];
      done.
Qed.

(** On every path the destination is closed again: a call opens it at most
    once, for appending or for writing, and closes it before it returns or
    raises. *)
Theorem download_file_closes env url dest_path chunk_size fs :
  let hs := handles_of (events (download_file env url dest_path chunk_size fs)) in
  hs = []
  ∨ ∃ m, m ≠ rb ∧ hs = [EvOpen dest_path m; EvClose dest_path].
Proof. exact (handles_of_download_file env url dest_path chunk_size fs). Qed.

(** On every path, what [download_file] writes goes to the destination in
    chunks that are not empty, each write is followed by one progress
    report, and each report is above the one before it. *)
Theorem download_file_writes env url dest_path chunk_size fs :
  let evs := events (download_file env url dest_path chunk_size fs) in
  Forall (λ w, w.1 = dest_path ∧ w.2 ≠ []) (writes_of evs)
  ∧ length (progress_of evs) = length (writes_of evs)
  ∧ StronglySorted Z.lt (progress_of evs).*1.
Proof.
  intros evs. subst evs.
  set (k := size_on_disk fs dest_path).
  assert (∀ tl, writes_of
                  ((EvHead url
                    :: (if k >? 0 then [EvPrint (MsgResuming k)] else [])
                    ++ [EvGet url (request_headers k)]) ++ tl)
                = writes_of tl
                ∧ progress_of
                    ((EvHead url
                      :: (if k >? 0 then [EvPrint (MsgResuming k)] else [])
                      ++ [EvGet url (request_headers k)]) ++ tl)
                  = progress_of tl) as Hpre.
  { intros tl. by destruct (k >? 0). }
  assert (Forall (λ w : path * bytes, w.1 = dest_path ∧ w.2 ≠ []) []
          ∧ length (@nil (Z * Z)) = length (@nil (path * bytes))
          ∧ StronglySorted Z.lt (@nil (Z * Z)).*1) as Hnil.
  { split; [apply Forall_nil_2|]. split; [done | apply SSorted_nil]. }
  destruct (download_file_cases env url dest_path chunk_size fs)
    as [(e & _ & ->) | [(t & _ & _ & ->) | [(t & e & _ & _ & ->)
       | (t & r & j & fin & _ & _ & _ & _ & _ & _ & -> & Hfin)]]];
    fold k.
  - exact Hnil.
  - exact Hnil.
  - destruct (isinstance_RequestException e); cbn [events].
    + destruct (Hpre [EvPrint (MsgDownloadError e)]) as [-> ->]. exact Hnil.
    + rewrite <- (app_nil_r (_ :: _)). destruct (Hpre []) as [-> ->].
      exact Hnil.
  - destruct (Hpre (EvOpen dest_path (transfer_mode k (status_code r))
                    :: EvPbar t (transfer_start k (status_code r))
                    :: chunk_events dest_path t
                         (take j (iter_content r chunk_size).1)
                         (transfer_start k (status_code r))
                    ++ EvClose dest_path :: fin)) as [-> ->].
    set (chunks := take j (iter_content r chunk_size).1).
    set (k0 := transfer_start k (status_code r)).
    assert (writes_of (EvClose dest_path :: fin) = []
            ∧ progress_of (EvClose dest_path :: fin) = []) as [Hw Hp].
    { destruct Hfin as [(_ & _ & _ & ->) | [(e & _ & _ & ->) | (e & _ & _ & ->)]];
        done. }
    assert (writes_of (EvOpen dest_path (transfer_mode k (status_code r))
                       :: EvPbar t k0
                       :: chunk_events dest_path t chunks k0
                       ++ EvClose dest_path :: fin)
            = (λ c, (dest_path, c)) <$> filter (λ c, c ≠ []) chunks) as ->.
    { unfold writes_of at 1. cbn [omap list_omap]. rewrite omap_app.
      fold writes_of. fold (writes_of (EvClose dest_path :: fin)).
      by rewrite Hw, app_nil_r, writes_of_chunk_events. }
    assert (progress_of (EvOpen dest_path (transfer_mode k (status_code r))
                         :: EvPbar t k0
                         :: chunk_events dest_path t chunks k0
                         ++ EvClose dest_path :: fin)
            = progress_of (chunk_events dest_path t chunks k0)) as ->.
    { unfold progress_of at 1. cbn [omap list_omap]. rewrite omap_app.
      fold progress_of. fold (progress_of (EvClose dest_path :: fin)).
      by rewrite Hp, app_nil_r. }
    split; [|split].
    + apply Forall_fmap, Forall_forall. intros c Hc.
      apply list_elem_of_filter in Hc as [Hc _]. done.
    + rewrite length_fmap.
      clear. generalize k0. induction chunks as [|c rest IH]; intros n; [done|].
      cbn [chunk_events]. rewrite filter_cons.
      destruct (decide (c ≠ [])) as [Hc|Hc].
      * rewrite bool_decide_eq_true_2 by done.
        unfold progress_of. cbn [omap list_omap length]. fold progress_of.
        by rewrite IH.
      * rewrite bool_decide_eq_false_2 by done. apply IH.
    + apply progress_of_chunk_events.
Qed.

(** [True] is returned only when the work is done: either the destination
    already had at least the [total_size > 0] bytes the probe declared and
    nothing was touched, or the GET request was answered, the stream ended
    without breaking and every chunk of it was written, so that the
    destination holds what [open] left of it followed by the whole body. *)
Theorem download_file_true_inv env url dest_path chunk_size fs :
  let k := size_on_disk fs dest_path in
  let o := download_file env url dest_path chunk_size fs in
  res o = Ret true →
  (∃ total_size, res (get_file_size env url fs) = Ret total_size
     ∧ 0 < total_size ≤ k ∧ fs_out o = fs)
  ∨ (∃ r, http_get env url (request_headers k) = inr r
       ∧ ¬ (400 ≤ status_code r < 600)
       ∧ (iter_content r chunk_size).2 = None
       ∧ fs_out o !! dest_path =
           Some (opened (transfer_mode k (status_code r)) (fs !! dest_path)
                 ++ concat (iter_content r chunk_size).1)).
Proof.
  intros k o Ht. subst o.
  destruct (download_file_cases env url dest_path chunk_size fs)
    as [(e & _ & Ho) | [(t & Hp & Hc & Ho) | [(t & e & _ & _ & Ho)
       | (t & r & j & fin & _ & _ & Hg & Hs & _ & Hfs & _ & Hfin)]]].
  - by rewrite Ho in Ht.
  - left. exists t. rewrite Ho. split; [done|]. split; [|done].
    fold k in Hc. apply andb_true_iff in Hc as [Hc1 Hc2].
    rewrite Z.geb_leb in Hc1. rewrite Z.gtb_ltb in Hc2.
    apply Z.leb_le in Hc1. apply Z.ltb_lt in Hc2. lia.
  - rewrite Ho in Ht. by destruct (isinstance_RequestException e).
  - right. exists r. split; [done|]. split.
    { apply andb_false_iff in Hs. rewrite Z.leb_gt, Z.ltb_ge in Hs. lia. }
    destruct Hfin as [(_ & Htake & Hb & _) | [(e & _ & Hr & _) | (e & _ & Hr & _)]];
      [|congruence..].
    split; [done|]. by rewrite Hfs, lookup_insert_eq, Htake.
Qed.

Lemma download_file_true_inv_witness :
  (∃ total_size,
     res (get_file_size env_ranges "http://host/data.bin" fs_prefix)
       = Ret total_size
     ∧ 0 < total_size ≤ size_on_disk fs_prefix "data.bin"
     ∧ fs_out (download_file env_ranges "http://host/data.bin" "data.bin" 8192
                 fs_prefix) = fs_prefix)
  ∨ (∃ r, http_get env_ranges "http://host/data.bin"
            (request_headers (size_on_disk fs_prefix "data.bin")) = inr r
       ∧ ¬ (400 ≤ status_code r < 600)
       ∧ (iter_content r 8192).2 = None
       ∧ fs_out (download_file env_ranges "http://host/data.bin" "data.bin"
                   8192 fs_prefix) !! "data.bin" =
           Some (opened (transfer_mode (size_on_disk fs_prefix "data.bin")
                           (status_code r)) (fs_prefix !! "data.bin")
                 ++ concat (iter_content r 8192).1)).
Proof.
  exact (download_file_true_inv env_ranges "http://host/data.bin" "data.bin"
           8192 fs_prefix eq_refl).
Defined.

(** Bytes already downloaded are never lost to a failure: when the
    destination holds [old] and the server answers the GET request, if at
    all, with 206 or with an error status, then on every path, whether
    writes fail, the stream breaks or [open] is refused, the destination
    still exists afterwards and [old] is a prefix of what it holds. *)
Theorem download_file_keeps_prefix env url dest_path chunk_size fs old :
  let k := size_on_disk fs dest_path in
  fs !! dest_path = Some old →
  (∀ r, http_get env url (request_headers k) = inr r →
        status_code r = 206 ∨ 400 ≤ status_code r < 600) →
  ∃ new,
    fs_out (download_file env url dest_path chunk_size fs) !! dest_path
      = Some new
    ∧ old `prefix_of` new.
Proof.
  intros k Hfs Hsrv.
  destruct (download_file_cases env url dest_path chunk_size fs)
    as [(e & _ & ->) | [(t & _ & _ & ->) | [(t & e & _ & _ & ->)
       | (t & r & j & fin & _ & _ & Hg & Hs & _ & -> & _)]]].
  - by exists old.
  - by exists old.
  - exists old. by destruct (isinstance_RequestException e).
  - rewrite lookup_insert_eq. eexists. split; [reflexivity|].
    destruct (Hsrv r Hg) as [H206 | Herr].
    2: { apply andb_false_iff in Hs. rewrite Z.leb_gt, Z.ltb_ge in Hs. lia. }
    unfold transfer_mode. rewrite H206, Hfs. cbn [Z.eqb Pos.eqb].
    fold k. destruct (k >? 0) eqn:Ek; cbn [opened default id].
    + by apply prefix_app_r.
    + subst k. unfold size_on_disk in Ek. rewrite Hfs in Ek.
      destruct old; [apply prefix_nil|].
      unfold len in Ek. cbn [length] in Ek. rewrite Z.gtb_ltb in Ek.
      apply Z.ltb_ge in Ek. lia.
Qed.

Lemma download_file_keeps_prefix_witness :
  ∃ new,
    fs_out (download_file env_disk_fills "http://host/data.bin" "data.bin"
              8192 fs_prefix) !! "data.bin" = Some new
    ∧ ascii_bytes "01234" `prefix_of` new.
Proof.
  refine (download_file_keeps_prefix env_disk_fills "http://host/data.bin"
            "data.bin" 8192 fs_prefix (ascii_bytes "01234") eq_refl _).
  intros r Hr. left. injection Hr as <-. reflexivity.
Defined.

(** ** Calls in a row *)

(** A second call after a transfer that ran to its end does nothing: when
    the first call wrote the whole body and the destination then holds at
    least the [total_size > 0] bytes the server declares, the next call with
    the same server returns [True] after the HEAD probe alone and leaves
    the file as it is. *)
Theorem download_file_twice env url dest_path chunk_size fs total_size r
    chunks :
  let k := size_on_disk fs dest_path in
  let m := transfer_mode k (status_code r) in
  res (get_file_size env url fs) = Ret total_size →
  k < total_size →
  http_get env url (request_headers k) = inr r →
  ¬ (400 ≤ status_code r < 600) →
  open_error env dest_path m = None →
  (∀ content chunk, write_error env dest_path content chunk = None) →
  iter_content r chunk_size = (chunks, None) →
  total_size ≤ len (opened m (fs !! dest_path) ++ concat chunks) →
  let o1 := download_file env url dest_path chunk_size fs in
  res o1 = Ret true
  ∧ download_file env url dest_path chunk_size (fs_out o1) =
    mkOut (Ret true) (fs_out o1)
      [EvHead url; EvPrint (MsgAlreadyDownloaded dest_path)].
Proof.
  intros k m Hp Hk Hg Hs Ho Hw Hst Hlen o1.
  assert ((400 <=? status_code r) && (status_code r <? 600) = false) as Hs'
    by (apply andb_false_iff; rewrite Z.leb_gt, Z.ltb_ge; lia).
  pose proof (download_file_transfer_ok env url dest_path chunk_size fs
                total_size r chunks Hp
                (complete_test_false _ _ (or_introl Hk)) Hg Hs' Ho Hw Hst)
    as H1.
  cbv zeta in H1. fold k m in H1. subst o1. rewrite H1. cbn [res fs_out].
  split; [done|].
  apply (download_file_complete_run env url dest_path chunk_size _ total_size).
  - rewrite get_file_size_run. rewrite get_file_size_run in Hp. exact Hp.
  - unfold size_on_disk. rewrite lookup_insert_eq.
    assert (0 ≤ k).
    { subst k. unfold size_on_disk. destruct (fs !! dest_path); [|done].
      apply len_nonneg. }
    apply complete_test_true; lia.
Qed.

Lemma download_file_twice_witness :
  let o1 := download_file env_ranges "http://host/data.bin" "data.bin" 8192
              fs_prefix in
  res o1 = Ret true
  ∧ download_file env_ranges "http://host/data.bin" "data.bin" 8192
      (fs_out o1) =
    mkOut (Ret true) (fs_out o1)
      [EvHead "http://host/data.bin"; EvPrint (MsgAlreadyDownloaded "data.bin")].
Proof.
  exact (download_file_twice env_ranges "http://host/data.bin" "data.bin"
           8192 fs_prefix 10
           (a_response 206 (Some "5")
              [ascii_bytes "56"; []; ascii_bytes "789"] None)
           [ascii_bytes "56"; []; ascii_bytes "789"]
           eq_refl eq_refl eq_refl ltac:(simpl; lia) eq_refl (λ _ _, eq_refl)
           eq_refl ltac:(vm_compute; discriminate)).
Defined.

(** A broken transfer and the call that resumes it give the remote file:
    when the first call is cut by an exception of [requests] after it left
    the first [n] bytes of [content] in the destination, with
    [0 < n < len content], and the next call's server honours
    [Range: bytes=n-] with a 206 and the rest of [content], then the first
    call returns [False], the second returns [True], and the destination
    holds exactly [content]. *)
Theorem download_file_resume_after_break env1 env2 url dest_path chunk_size
    fs total_size content r1 chunks1 e r2 chunks2 (n : nat) :
  let k := size_on_disk fs dest_path in
  let m1 := transfer_mode k (status_code r1) in
  (* the first call *)
  res (get_file_size env1 url fs) = Ret total_size →
  k < total_size ∨ total_size ≤ 0 →
  http_get env1 url (request_headers k) = inr r1 →
  ¬ (400 ≤ status_code r1 < 600) →
  open_error env1 dest_path m1 = None →
  (∀ c chunk, write_error env1 dest_path c chunk = None) →
  iter_content r1 chunk_size = (chunks1, Some e) →
  isinstance_RequestException e = true →
  opened m1 (fs !! dest_path) ++ concat chunks1 = take n content →
  (0 < n < length content)%nat →
  (* the second call *)
  res (get_file_size env2 url fs) = Ret (len content) →
  http_get env2 url (range_from (Z.of_nat n)) = inr r2 →
  status_code r2 = 206 →
  open_error env2 dest_path ab = None →
  (∀ c chunk, write_error env2 dest_path c chunk = None) →
  iter_content r2 chunk_size = (chunks2, None) →
  concat chunks2 = drop n content →
  let o1 := download_file env1 url dest_path chunk_size fs in
  let o2 := download_file env2 url dest_path chunk_size (fs_out o1) in
  res o1 = Ret false
  ∧ res o2 = Ret true
  ∧ fs_out o2 !! dest_path = Some content.
Proof.
  intros k m1 Hp1 Hnc Hg1 Hs1 Ho1 Hw1 Hst1 He Hpart Hn Hp2 Hg2 Hs2 Ho2 Hw2
    Hst2 Hrest o1 o2.
  assert ((400 <=? status_code r1) && (status_code r1 <? 600) = false) as Hs1'
    by (apply andb_false_iff; rewrite Z.leb_gt, Z.ltb_ge; lia).
  pose proof (download_file_transfer_broken env1 url dest_path chunk_size fs
                total_size r1 chunks1 e Hp1 (complete_test_false _ _ Hnc)
                Hg1 Hs1' Ho1 Hw1 Hst1 He) as H1.
  cbv zeta in H1. fold k m1 in H1. rewrite Hpart in H1.
  subst o2 o1. rewrite H1. cbn [res fs_out]. split; [done|].
  set (fs1 := <[dest_path := take n content]> fs).
  assert (fs1 !! dest_path = Some (take n content)) as Hfs1
    by apply lookup_insert_eq.
  assert (len (take n content) = Z.of_nat n) as Hlen
    by (unfold len; rewrite length_take; lia).
  assert (size_on_disk fs1 dest_path = Z.of_nat n) as Hsz
    by (unfold size_on_disk; by rewrite Hfs1).
  assert (res (get_file_size env2 url fs1) = Ret (len content)) as Hp2'.
  { rewrite get_file_size_run. rewrite get_file_size_run in Hp2. exact Hp2. }
  assert ((Z.of_nat n >? 0) = true) as Hpos by (apply Z.gtb_lt; lia).
  pose proof (download_file_transfer_ok env2 url dest_path chunk_size fs1
                (len content) r2 chunks2 Hp2') as H2.
  cbv zeta in H2. rewrite Hsz in H2.
  unfold request_headers, transfer_mode in H2.
  rewrite Hpos, Hs2, Hfs1 in H2. cbn [Z.eqb Pos.eqb opened default id] in H2.
  rewrite H2; try done.
  - cbn [res fs_out]. split; [done|].
    by rewrite lookup_insert_eq, Hrest, take_drop.
  - apply complete_test_false. left. unfold len. lia.
Qed.

Lemma download_file_resume_after_break_witness :
  let o1 := download_file env_breaks "http://host/data.bin" "data.bin" 8192
              fs_prefix in
  let o2 := download_file env_from_7 "http://host/data.bin" "data.bin" 8192
              (fs_out o1) in
  res o1 = Ret false
  ∧ res o2 = Ret true
  ∧ fs_out o2 !! "data.bin" = Some (ascii_bytes "0123456789").
Proof.
  exact (download_file_resume_after_break env_breaks env_from_7
           "http://host/data.bin" "data.bin" 8192 fs_prefix 10
           (ascii_bytes "0123456789")
           (a_response 206 (Some "5") [ascii_bytes "56"]
              (Some (ChunkedEncodingError "Connection broken")))
           [ascii_bytes "56"] (ChunkedEncodingError "Connection broken")
           (a_response 206 (Some "3") [ascii_bytes "789"] None)
           [ascii_bytes "789"] 7%nat
           eq_refl (or_introl eq_refl) eq_refl ltac:(simpl; lia) eq_refl
           (λ _ _, eq_refl) eq_refl eq_refl eq_refl ltac:(vm_compute; lia)
           eq_refl eq_refl eq_refl eq_refl (λ _ _, eq_refl) eq_refl eq_refl).
Defined.

(** ** [calculate_sha256] at its edges and its events *)

(** With a chunk size of 0 the first [f.read] returns no bytes, which is the
    sentinel of the loop: [calculate_sha256] then returns the digest of the
    empty message, whatever the file holds. *)
Theorem calculate_sha256_zero_chunk_size env fuel file_path fs content :
  fs !! file_path = Some content →
  open_error env file_path rb = None →
  (0 < fuel)%nat →
  res (calculate_sha256 env fuel file_path 0 fs) =
  Ret (Some "e3b0c44298fc1c149afbf4c8996fb92427ae41e4649b934ca495991b7852b855").
Proof.
  intros Hfs Ho Hfuel. destruct fuel as [|fuel]; [lia|].
  unfold calculate_sha256, with_open_rb. rewrite !bind_run.
  unfold py_open. rewrite Ho, Hfs. cbn [res events fs_out].
  rewrite Hfs. cbn [default id]. unfold finally.
  cbn [res events fs_out emit]. rewrite !bind_run.
  unfold stat_st_size. rewrite Hfs. cbn [res events fs_out].
  unfold with_tqdm. rewrite !bind_run. cbn [res events fs_out emit].
  cbn [hash_chunks]. unfold f_read. cbn [Z.ltb Z.eqb Z.compare Z.to_nat take].
  rewrite bool_decide_eq_true_2 by done.
  cbn [res events fs_out mret M_ret fmap option_fmap option_map].
  vm_compute. reflexivity.
Qed.

Lemma calculate_sha256_zero_chunk_size_witness :
  res (calculate_sha256 env_offline 1 "abc.txt" 0 fs_two_files) =
  Ret (Some "e3b0c44298fc1c149afbf4c8996fb92427ae41e4649b934ca495991b7852b855").
Proof.
  refine (calculate_sha256_zero_chunk_size env_offline 1 "abc.txt"
            fs_two_files (ascii_bytes "abc") _ _ _).
  - reflexivity.
  - reflexivity.
  - lia.
Defined.

Lemma f_read_valid chunk_size unread :
  chunk_size = -1 ∨ 0 < chunk_size →
  ∃ chunk unread',
    f_read chunk_size unread = inr (chunk, unread')
    ∧ unread = chunk ++ unread'
    ∧ (chunk = [] → unread = [])
    ∧ (chunk ≠ [] → length unread' < length unread)%nat.
Proof.
  intros Hcs. unfold f_read. destruct Hcs as [-> | Hpos].
  - cbn. eexists _, _. split; [reflexivity|]. rewrite app_nil_r.
    split; [done|]. split; [done|]. destruct unread; [done|]. cbn. lia.
  - assert ((chunk_size <? -1) = false) as -> by (apply Z.ltb_ge; lia).
    assert ((chunk_size =? -1) = false) as -> by (apply Z.eqb_neq; lia).
    eexists _, _. split; [reflexivity|].
    rewrite take_drop. split; [done|].
    assert (0 < Z.to_nat chunk_size)%nat by lia.
    destruct unread as [|b unread]; [by rewrite take_nil|].
    destruct (Z.to_nat chunk_size) as [|c]; [lia|].
    split; [done|]. intros _. cbn [drop length].
    pose proof (length_drop unread c). lia.
Qed.

(** The loop of [calculate_sha256] does nothing but report progress: each
    report is above the one before it and carries the total, and the last
    one stands at the baseline plus the number of bytes that were unread. *)
Lemma hash_chunks_events fuel chunk_size total unread h n fs :
  chunk_size = -1 ∨ 0 < chunk_size →
  (length unread < fuel)%nat →
  ∃ ps : list (Z * Z),
    events (hash_chunks fuel chunk_size total unread h n fs) =
      (λ p, EvProgress p.1 p.2) <$> ps
    ∧ Forall (λ p, p.2 = total) ps
    ∧ StronglySorted Z.lt (n :: ps.*1)
    ∧ last (n :: ps.*1) = Some (n + len unread).
Proof.
  intros Hcs. revert unread h n.
  induction fuel as [|fuel IH]; intros unread h n Hfuel; [lia|].
  cbn [hash_chunks].
  destruct (f_read_valid chunk_size unread Hcs)
    as (chunk & unread' & -> & Hsplit & Hempty & Hless).
  case_bool_decide as Hc.
  - exists []. rewrite (Hempty Hc). cbn.
    split; [done|]. split; [apply Forall_nil_2|].
    split; [apply SSorted_cons; [apply SSorted_nil | apply Forall_nil_2]|].
    f_equal. unfold len. cbn. lia.
  - rewrite (bind_run_ret _ _ _ _ _ _ (pbar_update_run total n (len chunk) fs)).
    cbn [res events fs_out].
    destruct (IH unread' (SHA256.update h chunk) (n + len chunk))
      as (ps & Hev & Htot & Hsort & Hlast).
    { specialize (Hless Hc). lia. }
    exists ((n + len chunk, total) :: ps). rewrite Hev.
    assert (0 < len chunk) as Hpos by (by apply len_pos_iff).
    split; [done|]. split; [by apply Forall_cons|]. split.
    + rewrite fmap_cons. cbn [fst]. apply SSorted_cons; [done|].
      apply Forall_cons. split; [lia|].
      apply StronglySorted_inv in Hsort as [_ Hall].
      eapply Forall_impl; [exact Hall|]. cbn. intros. lia.
    + rewrite fmap_cons. cbn [fst].
      rewrite last_cons_cons, Hlast, Hsplit, len_app. f_equal. lia.
Qed.

(** [calculate_sha256] only reads: for a file that is there and a chunk
    size that is positive (or -1), its events are the opening of the file
    for reading, a progress bar whose total is the size of the file, reports
    that rise from 0 to exactly that size, and the closing of the file; it
    sends no request and writes nothing. *)
Theorem calculate_sha256_events env fuel file_path chunk_size fs content :
  fs !! file_path = Some content →
  open_error env file_path rb = None →
  chunk_size = -1 ∨ 0 < chunk_size →
  (length content < fuel)%nat →
  ∃ ps : list (Z * Z),
    events (calculate_sha256 env fuel file_path chunk_size fs) =
      EvOpen file_path rb :: EvPbar (len content) 0
      :: ((λ p, EvProgress p.1 p.2) <$> ps) ++ [EvClose file_path]
    ∧ Forall (λ p, p.2 = len content) ps
    ∧ StronglySorted Z.lt (0 :: ps.*1)
    ∧ last (0 :: ps.*1) = Some (len content).
Proof.
  intros Hfs Ho Hcs Hfuel.
  destruct (hash_chunks_events fuel chunk_size (len content) content
              SHA256.new 0 fs Hcs Hfuel) as (ps & Hev & Htot & Hsort & Hlast).
  destruct (hash_chunks_run fuel chunk_size (len content) content SHA256.new
              0 fs [] Hcs Hfuel fed_new) as (h' & evs & Hrun & _).
  exists ps. split; [|done].
  unfold calculate_sha256, with_open_rb. rewrite !bind_run.
  unfold py_open. rewrite Ho, Hfs. cbn [res events fs_out].
  rewrite Hfs. cbn [default id]. unfold finally.
  cbn [res events fs_out emit]. rewrite !bind_run.
  unfold stat_st_size. rewrite Hfs. cbn [res events fs_out].
  unfold with_tqdm. rewrite !bind_run. cbn [res events fs_out emit].
  rewrite Hrun in Hev |- *. cbn [res events fs_out] in Hev |- *.
  rewrite Hev. cbn [app]. by rewrite !app_nil_r.
Qed.

Lemma calculate_sha256_events_witness :
  ∃ ps : list (Z * Z),
    events (calculate_sha256 env_offline 4 "abc.txt" 2 fs_two_files) =
      EvOpen "abc.txt" rb :: EvPbar (len (ascii_bytes "abc")) 0
      :: ((λ p, EvProgress p.1 p.2) <$> ps) ++ [EvClose "abc.txt"]
    ∧ Forall (λ p, p.2 = len (ascii_bytes "abc")) ps
    ∧ StronglySorted Z.lt (0 :: ps.*1)
    ∧ last (0 :: ps.*1) = Some (len (ascii_bytes "abc")).
Proof.
  refine (calculate_sha256_events env_offline 4 "abc.txt" 2 fs_two_files
            (ascii_bytes "abc") _ _ _ _).
  - reflexivity.
  - reflexivity.
  - right. reflexivity.
  - vm_compute. lia.
Defined.

(** ** [calculate_sha256] under any environment *)

Lemma projections_of_progress (ps : list (Z * Z)) tl :
  requests_of (((λ p, EvProgress p.1 p.2) <$> ps) ++ tl) = requests_of tl
  ∧ writes_of (((λ p, EvProgress p.1 p.2) <$> ps) ++ tl) = writes_of tl
  ∧ handles_of (((λ p, EvProgress p.1 p.2) <$> ps) ++ tl) = handles_of tl.
Proof. induction ps as [|p ps IH]; [done|]. exact IH. Qed.

(** The loop of [calculate_sha256] leaves every file as it is and does
    nothing but report progress, whatever the chunk size. *)
Lemma hash_chunks_quiet fuel chunk_size total unread h n fs :
  fs_out (hash_chunks fuel chunk_size total unread h n fs) = fs
  ∧ ∃ ps : list (Z * Z),
      events (hash_chunks fuel chunk_size total unread h n fs) =
      (λ p, EvProgress p.1 p.2) <$> ps.
Proof.
  revert unread h n.
  induction fuel as [|fuel IH]; intros unread h n; cbn [hash_chunks].
  - split; [done|]. by exists [].
  - destruct (f_read chunk_size unread) as [e | [chunk unread']].
    + split; [done|]. by exists [].
    + case_bool_decide.
      * split; [done|]. by exists [].
      * rewrite (bind_run_ret _ _ _ _ _ _
                   (pbar_update_run total n (len chunk) fs)).
        cbn [res events fs_out].
        destruct (IH unread' (SHA256.update h chunk) (n + len chunk))
          as (Hfs & ps & Hev).
        split; [done|]. exists ((n + len chunk, total) :: ps).
        by rewrite Hev.
Qed.

(** [calculate_sha256] by what [open] finds. *)
Lemma calculate_sha256_run env fuel file_path chunk_size fs :
  calculate_sha256 env fuel file_path chunk_size fs =
  match open_error env file_path rb, fs !! file_path with
  | Some e, _ => mkOut (Exc e) fs []
  | None, None => mkOut (Exc (OSError ENOENT)) fs []
  | None, Some content =>
      let o := hash_chunks fuel chunk_size (len content) content SHA256.new 0
                 fs in
      mkOut match res o with
            | Ret h => Ret (SHA256.hexdigest <$> h)
            | Exc e => Exc e
            end
            (fs_out o)
            (EvOpen file_path rb :: EvPbar (len content) 0
             :: events o ++ [EvClose file_path])
  end.
Proof.
  unfold calculate_sha256, with_open_rb. rewrite !bind_run.
  unfold py_open. destruct (open_error env file_path rb) as [e|]; [done|].
  destruct (fs !! file_path) as [content|] eqn:Hfs; [|done].
  cbn [res events fs_out]. rewrite Hfs. cbn [default id]. unfold finally.
  cbn [res events fs_out emit]. rewrite !bind_run.
  unfold stat_st_size. rewrite Hfs. cbn [res events fs_out].
  unfold with_tqdm. rewrite !bind_run. cbn [res events fs_out emit].
  cbv zeta.
  destruct (hash_chunks fuel chunk_size (len content) content SHA256.new 0 fs)
    as [[h|e] fs' evs]; cbn [res events fs_out mret M_ret app];
    by rewrite ?app_nil_r.
Qed.

Lemma calculate_sha256_shape env fuel file_path chunk_size fs :
  let o := calculate_sha256 env fuel file_path chunk_size fs in
  fs_out o = fs
  ∧ requests_of (events o) = []
  ∧ writes_of (events o) = []
  ∧ (handles_of (events o) = []
     ∨ handles_of (events o) = [EvOpen file_path rb; EvClose file_path]).
Proof.
  cbv zeta. rewrite calculate_sha256_run.
  destruct (open_error env file_path rb) as [e|].
  { repeat split; try done. by left. }
  destruct (fs !! file_path) as [content|].
  2: { repeat split; try done. by left. }
  cbv zeta. cbn [res events fs_out].
  destruct (hash_chunks_quiet fuel chunk_size (len content) content SHA256.new
              0 fs) as (Hfs & ps & ->).
  destruct (projections_of_progress ps [EvClose file_path]) as (Hr & Hw & Hh).
  split; [done|]. split; [|split; [|right]].
  - change (requests_of (_ :: _ :: ?l)) with (requests_of l).
    by rewrite Hr.
  - change (writes_of (_ :: _ :: ?l)) with (writes_of l).
    by rewrite Hw.
  - change (handles_of (?a :: _ :: ?l)) with (a :: handles_of l).
    by rewrite Hh.
Qed.

(** [calculate_sha256] only reads, whatever the file system, the operating
    system and the chunk size are, and whether it returns or raises: it
    leaves every file as it is, sends no request, writes nothing, and the
    only file it opens is [file_path], for reading, which it closes again. *)
Theorem calculate_sha256_read_only env fuel file_path chunk_size fs :
  let o := calculate_sha256 env fuel file_path chunk_size fs in
  fs_out o = fs
  ∧ requests_of (events o) = []
  ∧ writes_of (events o) = []
  ∧ (handles_of (events o) = []
     ∨ handles_of (events o) = [EvOpen file_path rb; EvClose file_path]).
Proof. exact (calculate_sha256_shape env fuel file_path chunk_size fs). Qed.

(** The digest [calculate_sha256] returns for a file that is there. *)
Lemma calculate_sha256_ret env fuel file_path chunk_size fs content :
  fs !! file_path = Some content →
  open_error env file_path rb = None →
  chunk_size = -1 ∨ 0 < chunk_size →
  (length content < fuel)%nat →
  res (calculate_sha256 env fuel file_path chunk_size fs) =
  Ret (Some (SHA256.hex (SHA256.sha256 content))).
Proof.
  intros Hfs Ho Hcs Hfuel. rewrite calculate_sha256_run, Ho, Hfs. cbv zeta.
  destruct (hash_chunks_run fuel chunk_size (len content) content SHA256.new
              0 fs [] Hcs Hfuel fed_new) as (h' & evs & -> & Hfed).
  cbn [res fmap option_fmap option_map].
  unfold SHA256.hexdigest. by rewrite (fed_digest h' _ Hfed).
Qed.

(** ** Running [main] *)

Lemma script_heads_app l1 l2 :
  script_heads (l1 ++ l2) = script_heads l1 ++ script_heads l2.
Proof. apply omap_app. Qed.

Lemma script_heads_stdout lines : script_heads (EvStdout <$> lines) = [].
Proof. induction lines as [|l lines IH]; [done|]. exact IH. Qed.

Lemma script_heads_call evs :
  script_heads (EvCall <$> evs) =
  omap (λ ev, match ev with EvHead u => Some u | _ => None end)
       (requests_of evs).
Proof.
  induction evs as [|ev evs IH]; [done|].
  destruct ev; cbn [fmap list_fmap]; unfold script_heads, requests_of in *;
    cbn [omap list_omap]; by rewrite ?IH.
Qed.

Lemma script_opened_app l1 l2 :
  script_opened (l1 ++ l2) = script_opened l1 ++ script_opened l2.
Proof. apply omap_app. Qed.

Lemma script_opened_stdout lines : script_opened (EvStdout <$> lines) = [].
Proof. induction lines as [|l lines IH]; [done|]. exact IH. Qed.

Lemma script_opened_call evs :
  script_opened (EvCall <$> evs) =
  omap (λ ev, match ev with EvOpen p m => Some (p, m) | _ => None end)
       (handles_of evs).
Proof.
  induction evs as [|ev evs IH]; [done|].
  destruct ev; cbn [fmap list_fmap]; unfold script_opened, handles_of in *;
    cbn [omap list_omap]; by rewrite ?IH.
Qed.

Lemma script_heads_download_file env url dest_path chunk_size fs :
  script_heads (EvCall <$> events (download_file env url dest_path chunk_size fs))
  = [url].
Proof.
  rewrite script_heads_call, requests_of_download_file.
  destruct (res (get_file_size env url fs)) as [t|e]; [|done].
  by destruct (_ && _).
Qed.

Lemma script_heads_calculate_sha256 env fuel file_path chunk_size fs :
  script_heads
    (EvCall <$> events (calculate_sha256 env fuel file_path chunk_size fs))
  = [].
Proof.
  rewrite script_heads_call.
  destruct (calculate_sha256_shape env fuel file_path chunk_size fs)
    as (_ & -> & _). done.
Qed.

Lemma script_opened_download_file env url dest_path chunk_size fs :
  Forall (λ o, o.1 = dest_path ∧ o.2 ≠ rb)
    (script_opened
       (EvCall <$> events (download_file env url dest_path chunk_size fs))).
Proof.
  rewrite script_opened_call.
  destruct (handles_of_download_file env url dest_path chunk_size fs)
    as [-> | (m & Hm & ->)]; [apply Forall_nil_2|].
  cbn [omap list_omap]. apply Forall_cons. split; [done | apply Forall_nil_2].
Qed.

Lemma script_opened_calculate_sha256 env fuel file_path chunk_size fs :
  Forall (λ o, o = (file_path, rb))
    (script_opened
       (EvCall <$> events (calculate_sha256 env fuel file_path chunk_size fs))).
Proof.
  rewrite script_opened_call.
  destruct (calculate_sha256_shape env fuel file_path chunk_size fs)
    as (_ & _ & _ & [-> | ->]); [apply Forall_nil_2|].
  cbn [omap list_omap]. apply Forall_cons. split; [done | apply Forall_nil_2].
Qed.

Lemma script_bind_run {A B} (m : Script A) (k : A → Script B) fs :
  (m ≫= k) fs =
  match sres (m fs) with
  | Ret a =>
      mkSOut (sres (k a (sfs (m fs)))) (sfs (k a (sfs (m fs))))
             (sevents (m fs) ++ sevents (k a (sfs (m fs))))
  | Exc e => mkSOut (Exc e) (sfs (m fs)) (sevents (m fs))
  end.
Proof. reflexivity. Qed.

Ltac script_events :=
  first [ done
        | f_equal; cbn [fmap list_fmap app block_lines];
          rewrite <- ?app_assoc; cbn [app]; rewrite ?app_nil_r; done ].

Section MainFacts.

Context (host : Host).

(** One turn of the loop of [main], by the outcome of the download and of
    the checksum. *)
Lemma download_each_cons fuel args fmt rest fs :
  let o1 := download_file (host_env host) (url_of fmt) (dest_of host args fmt)
              default_chunk_size fs in
  let o2 := calculate_sha256 (host_env host) fuel (dest_of host args fmt)
              default_chunk_size (fs_out o1) in
  let blk := (EvStdout <$> block_lines fmt) ++ (EvCall <$> events o1) in
  let chk := EvStdout (nl +:+ "Verifying file integrity...")
             :: (EvCall <$> events o2) in
  download_each host fuel args (fmt :: rest) fs =
  match res o1 with
  | Exc e => mkSOut (Exc e) (fs_out o1) blk
  | Ret false =>
      mkSOut (Ret (Some (SysExit 1))) (fs_out o1)
        (blk ++ [EvStdout ("Failed to download " +:+ fi_filename (FILES fmt))])
  | Ret true =>
      if args_verify args then
        match res o2 with
        | Exc e => mkSOut (Exc e) (fs_out o2) (blk ++ chk)
        | Ret None => mkSOut (Ret None) (fs_out o2) (blk ++ chk)
        | Ret (Some checksum) =>
            let o3 := download_each host fuel args rest (fs_out o2) in
            mkSOut (sres o3) (sfs o3)
              (blk ++ chk ++ EvStdout ("SHA-256: " +:+ checksum) :: sevents o3)
        end
      else
        let o3 := download_each host fuel args rest (fs_out o1) in
        mkSOut (sres o3) (sfs o3) (blk ++ sevents o3)
  end.
Proof.
  cbv zeta. cbn [download_each].
  set (m1 := download_file _ _ _ _).
  set (m2 := calculate_sha256 _ _ _ _).
  set (rec := download_each host fuel args rest).
  clearbody m1 m2 rec.
  rewrite !script_bind_run. unfold print_line, call.
  cbn [sres sfs sevents].
  destruct (m1 fs) as [[[]|e] fs1 ev1]; cbn [res fs_out events andb negb].
  - destruct (args_verify args); cbn [negb].
    + rewrite !script_bind_run. cbn [sres sfs sevents].
      destruct (m2 fs1) as [[[c|]|e] fs2 ev2]; cbn [res fs_out events];
        rewrite ?script_bind_run; cbn [sres sfs sevents mret Script_ret negb];
        script_events.
    + cbn [sres sfs sevents mret Script_ret negb app]. script_events.
  - destruct (args_verify args); cbn [sres sfs sevents mret Script_ret negb app];
      rewrite !script_bind_run; cbn [sres sfs sevents mret Script_ret negb app];
      script_events.
  - script_events.
Qed.

(** [main] after [--list] has been ruled out. *)
Lemma main_run fuel args fs :
  args_list args = false →
  main host fuel args fs =
  match mkdir_error host (args_output args) with
  | Some e => mkSOut (Exc e) fs []
  | None =>
      let o := download_each host fuel args (formats_to_download args) fs in
      mkSOut (sres o) (sfs o)
        (EvMkdir (args_output args)
         :: (EvStdout <$> banner_lines host args) ++ sevents o
         ++ match sres o with
            | Ret (Some Returned) => EvStdout <$> closing_lines
            | _ => []
            end)
  end.
Proof.
  intros Hlist. unfold main. rewrite Hlist.
  fold (formats_to_download args).
  set (rec := download_each host fuel args (formats_to_download args)).
  clearbody rec.
  cbv [mbind Script_bind mkdir print_line sres sfs sevents mret Script_ret].
  destruct (mkdir_error host (args_output args)) as [e|]; [done|].
  cbv [mbind Script_bind mkdir print_line sres sfs sevents mret Script_ret].
  destruct (rec fs) as [[[[|c]|]|e] fs' evs];
    f_equal; cbn [fmap list_fmap app banner_lines closing_lines];
    by rewrite ?app_nil_r.
Qed.

Lemma download_each_heads fuel args formats fs :
  let o := download_each host fuel args formats fs in
  let j := leading_successes host args formats fs in
  script_heads (sevents o) `prefix_of` url_of <$> take (S j) formats
  ∧ (args_verify args = false →
     script_heads (sevents o) = url_of <$> take (S j) formats)
  ∧ (sres o = Ret (Some Returned) →
     j = length formats ∧ script_heads (sevents o) = url_of <$> formats)
  ∧ (∀ code, sres o = Ret (Some (SysExit code)) →
     code = 1 ∧ (j < length formats)%nat).
Proof.
  cbv zeta. revert fs. induction formats as [|fmt rest IH]; intros fs.
  { cbn. split; [done|]. split; [done|]. split; [done|].
    intros code Hc. discriminate. }
  rewrite download_each_cons. cbv zeta. cbn [leading_successes].
  pose proof (script_heads_download_file (host_env host) (url_of fmt)
                (dest_of host args fmt) default_chunk_size fs) as H1.
  set (o1 := download_file _ _ _ _ _) in *.
  pose proof (script_heads_calculate_sha256 (host_env host) fuel
                (dest_of host args fmt) default_chunk_size (fs_out o1)) as H2.
  destruct (calculate_sha256_shape (host_env host) fuel
              (dest_of host args fmt) default_chunk_size (fs_out o1))
    as (Hfs2 & _).
  set (o2 := calculate_sha256 _ _ _ _ _) in *.
  assert (∀ tl, script_heads
                  (((EvStdout <$> block_lines fmt) ++ (EvCall <$> events o1))
                   ++ tl) = url_of fmt :: script_heads tl) as Hblk.
  { intros tl.
    by rewrite !script_heads_app, script_heads_stdout, H1. }
  assert (∀ tl, script_heads
                  ((EvStdout (nl +:+ "Verifying file integrity...")
                    :: (EvCall <$> events o2)) ++ tl) = script_heads tl)
    as Hchk.
  { intros tl. rewrite script_heads_app.
    change (script_heads (EvStdout ?l :: ?evs)) with (script_heads evs).
    by rewrite H2. }
  assert (∀ A (x : A) l, [x] `prefix_of` x :: l) as Hone.
  { intros A x l. by apply prefix_cons, prefix_nil. }
  destruct (res o1) as [[]|e].
  - change (take (S (S ?n)) (fmt :: rest)) with (fmt :: take (S n) rest).
    rewrite !fmap_cons. cbn [length].
    destruct (IH (fs_out o1)) as (Hp & Hv & Hr & Hx).
    destruct (args_verify args).
    + destruct (res o2) as [[checksum|]|e]; cbn [sres sevents].
      * rewrite Hblk, Hchk.
        change (script_heads (EvStdout ?l :: ?evs)) with (script_heads evs).
        rewrite Hfs2.
        split; [by apply prefix_cons|]. split; [done|]. split.
        -- intros Hres. destruct (Hr Hres) as [-> ->]. done.
        -- intros code Hc. destruct (Hx code Hc) as [-> Hlt].
           split; [done | lia].
      * rewrite Hblk, <- (app_nil_r (EvStdout _ :: _)), Hchk.
        cbn [script_heads omap list_omap].
        split; [apply Hone|]. split; [done|]. split; [done|].
        intros code Hc. discriminate.
      * rewrite Hblk, <- (app_nil_r (EvStdout _ :: _)), Hchk.
        cbn [script_heads omap list_omap].
        split; [apply Hone|]. split; [done|]. split; [done|].
        intros code Hc. discriminate.
    + cbn [sres sevents]. rewrite Hblk.
      split; [by apply prefix_cons|]. split.
      { intros _. by rewrite (Hv eq_refl). }
      split.
      * intros Hres. destruct (Hr Hres) as [-> ->]. done.
      * intros code Hc. destruct (Hx code Hc) as [-> Hlt]. split; [done | lia].
  - cbn [sres sevents take fmap list_fmap length]. rewrite Hblk.
    cbn [script_heads omap list_omap].
    split; [done|]. split; [done|]. split; [done|].
    intros code Hc. split; [congruence | lia].
  - cbn [sres sevents take fmap list_fmap length].
    rewrite <- (app_nil_r (_ ++ _)), Hblk.
    cbn [script_heads omap list_omap].
    split; [done|]. split; [done|]. split; [done|].
    intros code Hc. discriminate.
Qed.

Lemma download_each_other_files fuel args formats fs p :
  (∀ fmt, fmt ∈ formats → p ≠ dest_of host args fmt) →
  sfs (download_each host fuel args formats fs) !! p = fs !! p.
Proof.
  revert fs. induction formats as [|fmt rest IH]; intros fs Hp; [done|].
  rewrite download_each_cons. cbv zeta.
  pose proof (download_file_other_files (host_env host) (url_of fmt)
                (dest_of host args fmt) default_chunk_size fs p
                (Hp fmt ltac:(left))) as H1.
  set (o1 := download_file _ _ _ _ _) in *.
  destruct (calculate_sha256_shape (host_env host) fuel
              (dest_of host args fmt) default_chunk_size (fs_out o1))
    as (H2 & _).
  set (o2 := calculate_sha256 _ _ _ _ _) in *.
  assert (∀ fs', sfs (download_each host fuel args rest fs') !! p = fs' !! p)
    as Hrest.
  { intros fs'. apply IH. intros f Hf. apply Hp. by right. }
  destruct (res o1) as [[]|e]; [|done..].
  destruct (args_verify args).
  - destruct (res o2) as [[checksum|]|e]; cbn [sfs].
    + by rewrite Hrest, H2.
    + by rewrite H2.
    + by rewrite H2.
  - cbn [sfs]. by rewrite Hrest.
Qed.

Lemma download_each_opened fuel args formats fs :
  Forall (λ o, o.1 ∈ dest_of host args <$> formats
               ∧ (args_verify args = false → o.2 ≠ rb))
    (script_opened (sevents (download_each host fuel args formats fs))).
Proof.
  revert fs. induction formats as [|fmt rest IH]; intros fs.
  { apply Forall_nil_2. }
  rewrite download_each_cons. cbv zeta.
  pose proof (script_opened_download_file (host_env host) (url_of fmt)
                (dest_of host args fmt) default_chunk_size fs) as H1.
  set (o1 := download_file _ _ _ _ _) in *.
  pose proof (script_opened_calculate_sha256 (host_env host) fuel
                (dest_of host args fmt) default_chunk_size (fs_out o1)) as H2.
  set (o2 := calculate_sha256 _ _ _ _ _) in *.
  set (Q := λ o : path * mode,
              o.1 ∈ dest_of host args <$> fmt :: rest
              ∧ (args_verify args = false → o.2 ≠ rb)).
  assert (Forall Q (script_opened
                      ((EvStdout <$> block_lines fmt) ++ (EvCall <$> events o1))))
    as Hblk.
  { rewrite script_opened_app, script_opened_stdout. cbn [app].
    eapply Forall_impl; [exact H1|]. intros [q m] [Hq Hm].
    cbn [fst snd] in *. split; [|done]. subst q.
    apply list_elem_of_fmap. exists fmt. split; [done | left]. }
  assert (∀ fs', Forall Q (script_opened
                   (sevents (download_each host fuel args rest fs'))))
    as Hrest.
  { intros fs'. eapply Forall_impl; [apply IH|]. intros [q m] [Hq Hm].
    cbn [fst snd] in *. split; [|done].
    apply list_elem_of_fmap in Hq as (f & -> & Hf).
    apply list_elem_of_fmap. exists f. split; [done | by right]. }
  destruct (res o1) as [[]|e]; cbn [sevents].
  - destruct (args_verify args) eqn:Hv.
    + assert (Forall Q (script_opened
                (EvStdout (nl +:+ "Verifying file integrity...")
                 :: (EvCall <$> events o2)))) as Hchk.
      { change (script_opened (EvStdout ?l :: ?evs)) with (script_opened evs).
        eapply Forall_impl; [exact H2|]. intros [q m] [= -> ->].
        cbn [fst snd]. split; [|done].
        apply list_elem_of_fmap. exists fmt. split; [done | left]. }
      destruct (res o2) as [[checksum|]|e]; cbn [sevents];
        rewrite script_opened_app; apply Forall_app;
        (split; [exact Hblk|]); try exact Hchk.
      rewrite script_opened_app. apply Forall_app. split; [exact Hchk|].
      change (script_opened (EvStdout ?l :: ?evs)) with (script_opened evs).
      apply Hrest.
    + cbn [sevents]. rewrite script_opened_app. apply Forall_app.
      split; [exact Hblk | apply Hrest].
  - rewrite script_opened_app. apply Forall_app. split; [exact Hblk|].
    apply Forall_nil_2.
  - exact Hblk.
Qed.

Lemma main_list_run fuel args fs :
  args_list args = true →
  main host fuel args fs =
  mkSOut (Ret (Some Returned)) fs (EvStdout <$> listing_lines).
Proof. intros Hlist. unfold main. rewrite Hlist. reflexivity. Qed.

Lemma formats_to_download_first args :
  formats_to_download args =
  first_format args :: (if args_all args then [Zip; Csv] else []).
Proof. unfold formats_to_download, first_format. by destruct (args_all args). Qed.

End MainFacts.

(** ** [main] *)

(** With [--list], [main] prints the table of the formats and returns: it
    makes no directory, sends no request and touches no file, whatever the
    other options say. *)
Theorem main_list_only host fuel args fs :
  args_list args = true →
  main host fuel args fs =
  mkSOut (Ret (Some Returned)) fs (EvStdout <$> listing_lines).
Proof. exact (main_list_run host fuel args fs). Qed.

Lemma main_list_only_witness :
  main (a_host env_head_down) 0 args_list_only fs_two_files =
  mkSOut (Ret (Some Returned)) fs_two_files (EvStdout <$> listing_lines).
Proof.
  exact (main_list_only (a_host env_head_down) 0 args_list_only fs_two_files
           eq_refl).
Defined.

(** Without [--list], [main] asks for the files in the order of
    [formats_to_download], each at most once and none after a download that
    did not succeed: when [j] formats are downloaded before the first call
    of [download_file] that does not return [True], the HEAD requests
    [main] sends are a prefix of the URLs of the first [j + 1] formats, and
    without [--verify] they are exactly these.  When [main] returns, every
    download succeeded and every format was requested, and the only exit
    status it ever passes to [sys.exit] is 1, after a download that did not
    succeed. *)
Theorem main_requests host fuel args fs :
  args_list args = false →
  let o := main host fuel args fs in
  let formats := formats_to_download args in
  let urls := url_of <$> formats in
  let j := leading_successes host args formats fs in
  script_heads (sevents o) `prefix_of` urls
  ∧ script_heads (sevents o) `prefix_of` url_of <$> take (S j) formats
  ∧ (args_verify args = false →
     mkdir_error host (args_output args) = None →
     script_heads (sevents o) = url_of <$> take (S j) formats)
  ∧ (sres o = Ret (Some Returned) →
     j = length formats ∧ script_heads (sevents o) = urls)
  ∧ (∀ code, sres o = Ret (Some (SysExit code)) →
     code = 1 ∧ (j < length formats)%nat).
Proof.
  intros Hlist. cbv zeta. rewrite (main_run host fuel args fs Hlist).
  destruct (mkdir_error host (args_output args)) as [e|].
  { cbn [sres sevents]. split; [apply prefix_nil|].
    split; [apply prefix_nil|]. split; [done|]. split; [done|].
    intros code Hc. discriminate. }
  cbv zeta. cbn [sres sevents].
  destruct (download_each_heads host fuel args (formats_to_download args) fs)
    as (Hp & Hv & Hr & Hx).
  change (script_heads (EvMkdir ?q :: ?evs)) with (script_heads evs).
  rewrite !script_heads_app, script_heads_stdout. cbn [app].
  assert (script_heads
            match sres (download_each host fuel args
                          (formats_to_download args) fs) with
            | Ret (Some Returned) => EvStdout <$> closing_lines
            | _ => []
            end = []) as ->.
  { by destruct (sres _) as [[[|c]|]|e]. }
  rewrite app_nil_r.
  split; [|split; [exact Hp|split; [|split; [exact Hr | exact Hx]]]].
  - etrans; [exact Hp|]. rewrite fmap_take. apply prefix_take.
  - intros Hver _. exact (Hv Hver).
Qed.

Lemma main_requests_witness :
  let o := main (a_host env_ranges) 11 args_all_formats fs_empty in
  let formats := formats_to_download args_all_formats in
  let urls := url_of <$> formats in
  let j := leading_successes (a_host env_ranges) args_all_formats formats
             fs_empty in
  script_heads (sevents o) `prefix_of` urls
  ∧ script_heads (sevents o) `prefix_of` url_of <$> take (S j) formats
  ∧ (args_verify args_all_formats = false →
     mkdir_error (a_host env_ranges) (args_output args_all_formats) = None →
     script_heads (sevents o) = url_of <$> take (S j) formats)
  ∧ (sres o = Ret (Some Returned) →
     j = length formats ∧ script_heads (sevents o) = urls)
  ∧ (∀ code, sres o = Ret (Some (SysExit code)) →
     code = 1 ∧ (j < length formats)%nat).
Proof.
  exact (main_requests (a_host env_ranges) 11 args_all_formats fs_empty
           eq_refl).
Defined.

(** [main] stops at the first download that does not succeed.  When
    [download_file] returns [False] for the first format, [main] prints
    [Failed to download] with the file name and exits with status 1; when
    [download_file] raises, the exception leaves [main].  Either way no
    checksum is computed, no other format is requested and the closing
    lines are not printed. *)
Theorem main_first_failure host fuel args fs :
  args_list args = false →
  mkdir_error host (args_output args) = None →
  let fmt := first_format args in
  let o1 := download_file (host_env host) (url_of fmt) (dest_of host args fmt)
              default_chunk_size fs in
  let start := EvMkdir (args_output args)
               :: (EvStdout <$> banner_lines host args)
               ++ (EvStdout <$> block_lines fmt) ++ (EvCall <$> events o1) in
  (res o1 = Ret false →
   main host fuel args fs =
   mkSOut (Ret (Some (SysExit 1))) (fs_out o1)
     (start
      ++ [EvStdout ("Failed to download " +:+ fi_filename (FILES fmt))]))
  ∧ (∀ e, res o1 = Exc e →
     main host fuel args fs = mkSOut (Exc e) (fs_out o1) start).
Proof.
  intros Hlist Hmk. cbv zeta.
  rewrite (main_run host fuel args fs Hlist), Hmk. cbv zeta.
  rewrite formats_to_download_first, download_each_cons. cbv zeta.
  split.
  - intros ->. cbn [sres sfs sevents]. f_equal.
    rewrite app_nil_r. by rewrite <- !app_assoc.
  - intros e ->. cbn [sres sfs sevents]. f_equal.
    by rewrite app_nil_r.
Qed.

Lemma main_first_failure_witness :
  let host := a_host env_offline in
  let fmt := Parquet in
  let o1 := download_file env_offline (url_of fmt)
              (dest_of host args_all_formats fmt) default_chunk_size fs_empty in
  let start := EvMkdir "data"
               :: (EvStdout <$> banner_lines host args_all_formats)
               ++ (EvStdout <$> block_lines fmt) ++ (EvCall <$> events o1) in
  main host 0 args_all_formats fs_empty =
  mkSOut (Ret (Some (SysExit 1))) (fs_out o1)
    (start
     ++ [EvStdout ("Failed to download " +:+ fi_filename (FILES fmt))]).
Proof.
  exact (proj1 (main_first_failure (a_host env_offline) 0 args_all_formats
                  fs_empty eq_refl eq_refl) eq_refl).
Defined.

(** With [--verify] and one format, a download that succeeds is followed by
    the checksum of the file it left: [main] prints [SHA-256: ] with the
    hexadecimal SHA-256 digest of the content of the destination, then the
    closing lines, and returns; the checksum changes no file. *)
Theorem main_verifies host fuel args fs content :
  args_list args = false →
  args_all args = false →
  args_verify args = true →
  mkdir_error host (args_output args) = None →
  let fmt := args_format args in
  let dest_path := dest_of host args fmt in
  let o1 := download_file (host_env host) (url_of fmt) dest_path
              default_chunk_size fs in
  res o1 = Ret true →
  fs_out o1 !! dest_path = Some content →
  open_error (host_env host) dest_path rb = None →
  (length content < fuel)%nat →
  main host fuel args fs =
  mkSOut (Ret (Some Returned)) (fs_out o1)
    (EvMkdir (args_output args)
     :: (EvStdout <$> banner_lines host args)
     ++ (EvStdout <$> block_lines fmt) ++ (EvCall <$> events o1)
     ++ EvStdout (nl +:+ "Verifying file integrity...")
     :: (EvCall <$> events (calculate_sha256 (host_env host) fuel dest_path
                              default_chunk_size (fs_out o1)))
     ++ EvStdout ("SHA-256: " +:+ SHA256.hex (SHA256.sha256 content))
     :: (EvStdout <$> closing_lines)).
Proof.
  intros Hlist Hall Hver Hmk fmt dest_path o1 Hres Hfs Hopen Hfuel.
  subst fmt dest_path o1.
  rewrite (main_run host fuel args fs Hlist), Hmk. cbv zeta.
  unfold formats_to_download. rewrite Hall.
  rewrite download_each_cons. cbv zeta. rewrite Hres, Hver.
  rewrite (calculate_sha256_ret _ _ _ default_chunk_size _ content Hfs Hopen
             ltac:(right; reflexivity) Hfuel).
  destruct (calculate_sha256_shape (host_env host) fuel
              (dest_of host args (args_format args)) default_chunk_size
              (fs_out (download_file (host_env host)
                         (url_of (args_format args))
                         (dest_of host args (args_format args))
                         default_chunk_size fs))) as (-> & _).
  cbn [download_each mret Script_ret sres sfs sevents]. f_equal.
  rewrite <- ?app_assoc. cbn [app]. rewrite <- ?app_assoc. cbn [app]. done.
Qed.

Lemma main_verifies_witness :
  let host := a_host env_ranges in
  let dest_path := dest_of host args_verify_parquet Parquet in
  let o1 := download_file env_ranges (url_of Parquet) dest_path
              default_chunk_size fs_empty in
  main host 11 args_verify_parquet fs_empty =
  mkSOut (Ret (Some Returned)) (fs_out o1)
    (EvMkdir "data"
     :: (EvStdout <$> banner_lines host args_verify_parquet)
     ++ (EvStdout <$> block_lines Parquet) ++ (EvCall <$> events o1)
     ++ EvStdout (nl +:+ "Verifying file integrity...")
     :: (EvCall <$> events (calculate_sha256 env_ranges 11 dest_path
                              default_chunk_size (fs_out o1)))
     ++ EvStdout ("SHA-256: "
                  +:+ SHA256.hex (SHA256.sha256 (ascii_bytes "0123456789")))
     :: (EvStdout <$> closing_lines)).
Proof.
  refine (main_verifies (a_host env_ranges) 11 args_verify_parquet fs_empty
            (ascii_bytes "0123456789") eq_refl eq_refl eq_refl eq_refl
            _ _ eq_refl _).
  - vm_compute. reflexivity.
  - vm_compute. reflexivity.
  - vm_compute. lia.
Defined.

(** [main] changes no file but the destinations of the formats it was asked
    for: every other path holds afterwards what it held before, however the
    downloads and the checksums end. *)
Theorem main_other_files host fuel args fs p :
  (∀ fmt, fmt ∈ formats_to_download args → p ≠ dest_of host args fmt) →
  sfs (main host fuel args fs) !! p = fs !! p.
Proof.
  intros Hp. destruct (args_list args) eqn:Hlist.
  { by rewrite (main_list_run host fuel args fs Hlist). }
  rewrite (main_run host fuel args fs Hlist).
  destruct (mkdir_error host (args_output args)) as [e|]; [done|].
  cbv zeta. cbn [sfs]. by apply download_each_other_files.
Qed.

Lemma main_other_files_witness :
  sfs (main (a_host env_ranges) 11 args_all_formats fs_with_neighbour)
    !! "notes.txt"
  = fs_with_neighbour !! "notes.txt".
Proof.
  refine (main_other_files (a_host env_ranges) 11 args_all_formats
            fs_with_neighbour "notes.txt" _).
  intros fmt _. destruct fmt; vm_compute; discriminate.
Defined.

(** The only files [main] opens are the destinations of the formats it was
    asked for, and without [--verify] it opens none of them for reading. *)
Theorem main_opens host fuel args fs :
  Forall (λ o, o.1 ∈ dest_of host args <$> formats_to_download args
               ∧ (args_verify args = false → o.2 ≠ rb))
    (script_opened (sevents (main host fuel args fs))).
Proof.
  destruct (args_list args) eqn:Hlist.
  { rewrite (main_list_run host fuel args fs Hlist). cbn [sevents].
    rewrite script_opened_stdout. apply Forall_nil_2. }
  rewrite (main_run host fuel args fs Hlist).
  destruct (mkdir_error host (args_output args)) as [e|];
    [apply Forall_nil_2|].
  cbv zeta. cbn [sevents].
  change (script_opened (EvMkdir ?q :: ?evs)) with (script_opened evs).
  rewrite !script_opened_app, script_opened_stdout. cbn [app].
  apply Forall_app. split; [apply download_each_opened|].
  destruct (sres _) as [[[|c]|]|e]; apply Forall_nil_2.
Qed.
